(** * panthalassa: a shallow embedding of the messaging core

    The development follows the Go packages of the repository:
    [db] (encrypted, time-indexed message store), [backend] (request and
    response dispatch), [chat] (session coordinator, handshake, pre-key
    handler), [api] and [client] (the two remote key stores) and
    [panthalassa] (the process-wide singleton API).

    Conventions.  A Go [error] is a [string]; a function returning only
    [error] returns [option error] ([None] is [nil]); a function
    returning [(T, error)] returns [result T].  Unsigned Go integers are
    [N], signed ones are [Z] with the wrap-around written out.  A byte is
    a [Z] in [0, 256).  Collaborators that live outside the modelled
    files (key manager, curve, transport, JSON) are Section variables. *)

From Stdlib Require Import ZArith NArith List String Ascii Lia Bool.
From stdpp Require Import base option list gmap strings pretty sorting.

Open Scope string_scope.
Open Scope list_scope.
Open Scope Z_scope.

(** ** Shared vocabulary *)

Definition error := string.

Inductive result (A : Type) : Type :=
| Ok (a : A)
| Err (e : error).
Arguments Ok {A} a.
Arguments Err {A} e.

Definition byte := Z.
Definition bytes := list byte.

(** [make([]byte, n)] *)
Definition make_bytes (n : nat) : bytes := repeat 0 n.

(** [copy(dst[:], src)] into a fixed array of [n] bytes: the first [n]
    bytes of [src], the rest of the array keeps its zero value. *)
Definition copy_into (n : nat) (src : bytes) : bytes :=
  firstn n (src ++ make_bytes n).

(** [uint64(x)] for an [int64] (or any integer) [x] *)
Definition to_uint64 (x : Z) : Z := x mod 2 ^ 64.

(** [int64(u)] for a [uint64] [u] *)
Definition to_int64 (u : Z) : Z :=
  let v := u mod 2 ^ 64 in
  if v <? 2 ^ 63 then v else v - 2 ^ 64.

(** [binary.BigEndian.PutUint64] on a fresh 8-byte slice *)
Definition PutUint64 (v : Z) : bytes :=
  map (fun i => Z.land (Z.shiftr v (8 * i)) 255) [7; 6; 5; 4; 3; 2; 1; 0].

(** [binary.BigEndian.Uint64] *)
Definition Uint64 (b : bytes) : Z :=
  fold_left (fun acc x => Z.lor (Z.shiftl acc 8) x) (firstn 8 b) 0.

(** [bytes.Compare]: the order bolt keeps its keys in *)
Fixpoint bytes_compare (a b : bytes) : comparison :=
  match a, b with
  | [], [] => Eq
  | [], _ :: _ => Lt
  | _ :: _, [] => Gt
  | x :: a', y :: b' =>
      match x ?= y with
      | Eq => bytes_compare a' b'
      | c => c
      end
  end.

(** [encoding/hex]: the value of one hex digit, either case *)
Definition fromHexChar (c : ascii) : option Z :=
  let n := Z.of_nat (nat_of_ascii c) in
  if (48 <=? n) && (n <=? 57) then Some (n - 48)
  else if (97 <=? n) && (n <=? 102) then Some (n - 97 + 10)
  else if (65 <=? n) && (n <=? 70) then Some (n - 65 + 10)
  else None.

(** [hex.DecodeString]: the bytes decoded so far come back next to the
    error, as in Go.  The offending byte is left out of the message. *)
Fixpoint hex_DecodeString (s : string) : bytes * option error :=
  match s with
  | EmptyString => ([], None)
  | String p EmptyString =>
      match fromHexChar p with
      | None => ([], Some "encoding/hex: invalid byte")
      | Some _ => ([], Some "encoding/hex: odd length hex string")
      end
  | String p (String q rest) =>
      match fromHexChar p, fromHexChar q with
      | Some a, Some b =>
          let '(tl, e) := hex_DecodeString rest in
          (Z.lor (Z.shiftl a 4) b :: tl, e)
      | _, _ => ([], Some "encoding/hex: invalid byte")
      end
  end.

(** [hex.EncodeToString] *)
Definition hexDigit (n : Z) : ascii :=
  ascii_of_nat (Z.to_nat (if n <? 10 then 48 + n else 97 + (n - 10))).

Fixpoint hex_EncodeToString (b : bytes) : string :=
  match b with
  | [] => EmptyString
  | x :: b' =>
      String (hexDigit (Z.shiftr x 4))
        (String (hexDigit (Z.land x 15)) (hex_EncodeToString b'))
  end.

(** the order of [bytes.Compare], as a relation *)
Definition bytes_le (a b : bytes) : Prop := bytes_compare a b <> Gt.

#[local] Instance bytes_le_dec : RelDecision bytes_le.
Proof. intros a b. unfold bytes_le. apply _. Defined.

(** ** Package db: the chat message store *)

Module db.

(** message status *)
Definition Status := N.

Definition StatusSent : Status := 100%N.
Definition StatusFailedToSend : Status := 200%N.
Definition StatusDelivered : Status := 300%N.
Definition StatusFailedToHandle : Status := 400%N.
Definition StatusPersisted : Status := 500%N.
Definition DAppMessageVersion : N := 1%N.

(** the [statuses] table: membership test of [map[Status]bool] *)
Definition statuses (s : Status) : bool :=
  (N.eqb s StatusSent || N.eqb s StatusFailedToSend || N.eqb s StatusDelivered
   || N.eqb s StatusFailedToHandle || N.eqb s StatusPersisted)%bool.

Record DAppMessage := {
  DAppPublicKey : bytes;
  Type_ : string;
  ShouldSend : bool
}.

Record Message := {
  ID : string;
  Version : N;
  Status_ : Status;
  Received : bool;
  DApp : option DAppMessage;
  Message_ : bytes;
  CreatedAt : Z;
  Sender : bytes;
  DatabaseID : Z
}.

Definition set_Version (v : N) (m : Message) : Message :=
  {| ID := ID m; Version := v; Status_ := Status_ m; Received := Received m;
     DApp := DApp m; Message_ := Message_ m; CreatedAt := CreatedAt m;
     Sender := Sender m; DatabaseID := DatabaseID m |}.

Definition set_DatabaseID (d : Z) (m : Message) : Message :=
  {| ID := ID m; Version := Version m; Status_ := Status_ m; Received := Received m;
     DApp := DApp m; Message_ := Message_ m; CreatedAt := CreatedAt m;
     Sender := Sender m; DatabaseID := d |}.

Definition set_Status_Received (s : Status) (r : bool) (m : Message) : Message :=
  {| ID := ID m; Version := Version m; Status_ := s; Received := r;
     DApp := DApp m; Message_ := Message_ m; CreatedAt := CreatedAt m;
     Sender := Sender m; DatabaseID := DatabaseID m |}.

(** validate a given message *)
Definition ValidMessage (m : Message) : option error :=
  if String.eqb (ID m) EmptyString then
    Some "invalid message id (empty string)"
  else if N.eqb (Version m) 0 then
    Some "invalid version - got 0"
  else if negb (statuses (Status_ m)) then
    Some ("invalid status: " +:+ pretty (Status_ m) +:+ " (is not registered)")
  else if (bool_decide (DApp m = None) && Nat.eqb (length (Message_ m)) 0)%bool then
    Some "got invalid message - dapp and message are both nil"
  else
    match (match DApp m with
           | Some d =>
               if negb (Nat.eqb (length (DAppPublicKey d)) 32) then
                 Some ("invalid dapp public key of length "
                       +:+ pretty (length (DAppPublicKey d)))
               else None
           | None => None
           end) with
    | Some e => Some e
    | None =>
        if CreatedAt m <=? 2147483647 then
          Some "invalid created at - must be bigger than 2147483647"
        else if (negb (Nat.eqb (length (Sender m)) 32)
                 && bool_decide (DApp m = None))%bool then
          Some ("invalid sender of length " +:+ pretty (length (Sender m)))
        else None
    end.

Record MessagePersistedEvent := {
  Partner : bytes;
  EvMessage : Message;
  DBMessageID : Z
}.

(** *** A bolt bucket: keys in [bytes.Compare] order *)

Section Bucket.
Context {V : Type}.

Definition Bucket := list (bytes * V).

Fixpoint bucket_Get (b : Bucket) (k : bytes) : option V :=
  match b with
  | [] => None
  | (k', v) :: b' =>
      match bytes_compare k k' with
      | Eq => Some v
      | _ => bucket_Get b' k
      end
  end.

(** [Put]: replaces the value of an existing key, otherwise inserts at
    the key's place in the order *)
Fixpoint bucket_Put (b : Bucket) (k : bytes) (v : V) : Bucket :=
  match b with
  | [] => [(k, v)]
  | (k', v') :: b' =>
      match bytes_compare k k' with
      | Lt => (k, v) :: (k', v') :: b'
      | Eq => (k, v) :: b'
      | Gt => (k', v') :: bucket_Put b' k v
      end
  end.

(** A cursor is the index it stands on.  An index past the last
    element has no key and no value: that is where [Seek] leaves the
    cursor when no key is large enough, and [Prev] from there steps back
    onto the last element.  [Last] on an empty bucket leaves it before
    the first element, which index 0 stands for. *)
Definition cursor_Last (b : Bucket) : nat := Nat.pred (length b).

(** [Seek]: the first key greater than or equal to [k]; [i] is the
    index of the head of [b] *)
Fixpoint cursor_Seek_from (i : nat) (b : Bucket) (k : bytes) : nat :=
  match b with
  | [] => i
  | (k', _) :: b' =>
      match bytes_compare k' k with
      | Lt => cursor_Seek_from (S i) b' k
      | _ => i
      end
  end.

Definition cursor_Seek (b : Bucket) (k : bytes) : nat :=
  cursor_Seek_from 0 b k.

(** the value under the cursor, nil when it stands on no element *)
Definition cursor_value (b : Bucket) (c : nat) : option V :=
  snd <$> (b !! c).

End Bucket.
Arguments Bucket V : clear implicits.

(** *** The storage, over the key manager and the JSON codec *)

Section Storage.

(** what is written to disk: the marshalled AES cipher text *)
Variable raw : Type.
(** [json.Marshal], [km.AESEncrypt], [encryptedMessage.Marshal] in turn *)
Variable seal : Message -> result raw.
(** [decRawMsg]: [aes.Unmarshal], [km.AESDecrypt], [json.Unmarshal] in
    turn, on the value under the cursor ([None] is a nil value) *)
Variable decRawMsg : option raw -> result Message.

(** the bolt file: the [private_chat] bucket, if created, holds one
    bucket per partner *)
Record DB := {
  private_chat : option (gmap bytes (Bucket raw))
}.

Definition empty_DB : DB := {| private_chat := None |}.

Definition partner_bucket (d : DB) (partner : bytes) : option (Bucket raw) :=
  match private_chat d with
  | Some chats => chats !! partner
  | None => None
  end.

(** The collision loop of [persistMessage]:
[[
   tried := 0
   for {
     fetchedMsg := partnerBucket.Get(createdAtMsgID)
     if fetchedMsg == nil || tried == 1000 { break }
     tried++
     binary.BigEndian.PutUint64(createdAtMsgID, uint64(msg.CreatedAt+1))
   }
]]
    [remaining] is [1000 - tried]. *)
Fixpoint collision_loop (remaining : nat) (b : Bucket raw) (createdAt : Z)
    (createdAtMsgID : bytes) : bytes :=
  match bucket_Get b createdAtMsgID with
  | None => createdAtMsgID
  | Some _ =>
      match remaining with
      | O => createdAtMsgID
      | S r => collision_loop r b createdAt (PutUint64 (to_uint64 (createdAt + 1)))
      end
  end.

Definition persistMessage (d : DB) (partner : bytes) (msg : Message)
    : DB * option error * list MessagePersistedEvent :=
  let msg := set_Version DAppMessageVersion msg in
  match ValidMessage msg with
  | Some e => (d, Some e, [])
  | None =>
      (* tx.CreateBucketIfNotExists(privateChatBucketName) *)
      let chats := default ∅ (private_chat d) in
      (* privChatBucket.CreateBucketIfNotExists(partner) *)
      match partner with
      | [] => (d, Some "bucket name required", [])
      | _ =>
          let partnerBucket := default [] (chats !! partner) in
          let createdAtMsgID :=
            collision_loop 1000 partnerBucket (CreatedAt msg)
              (PutUint64 (to_uint64 (CreatedAt msg))) in
          let msg := set_DatabaseID (to_int64 (Uint64 createdAtMsgID)) msg in
          match seal msg with
          | Err e => (d, Some e, [])
          | Ok rawEncryptedMessage =>
              ({| private_chat :=
                    Some (<[partner := bucket_Put partnerBucket createdAtMsgID
                                         rawEncryptedMessage]> chats) |},
               None,
               [{| Partner := partner; EvMessage := msg;
                   DBMessageID := to_int64 (Uint64 createdAtMsgID) |}])
          end
      end
  end.

(** [uuid.NewV4()], [km.IdentityPublicKey()] and [time.Now().UnixNano()]
    are given by the caller of the model. *)
Definition PersistMessageToSend (uuid_NewV4 : result string)
    (km_IdentityPublicKey : result string) (now_UnixNano : Z)
    (d : DB) (partner : bytes) (msg : Message) :=
  match uuid_NewV4 with
  | Err e => (d, Some e, [])
  | Ok id =>
      match km_IdentityPublicKey with
      | Err e => (d, Some e, [])
      | Ok myIdKeyStr =>
          let myIdKey := fst (hex_DecodeString myIdKeyStr) in
          if negb (Nat.eqb (length myIdKey) 32) then
            (d, Some ("my id key is invalid (" +:+ pretty (length myIdKey)
                      +:+ " bytes long)"), [])
          else
            persistMessage d partner
              {| ID := id; Version := Version msg; Status_ := StatusPersisted;
                 Received := false; DApp := DApp msg; Message_ := Message_ msg;
                 CreatedAt := now_UnixNano; Sender := myIdKey;
                 DatabaseID := DatabaseID msg |}
      end
  end.

Definition PersistReceivedMessage (d : DB) (partner : bytes) (msg : Message) :=
  persistMessage d partner (set_Status_Received StatusPersisted true msg).

(** must be implemented later *)
Definition UpdateStatus (d : DB) (partner : bytes) (msgID : Z) (newStatus : Status)
    : DB * option error :=
  (d, None).

(** [sort.Slice(messages, func(i, j) { return messages[i].DatabaseID <
    messages[j].DatabaseID })].  Go's sort is not stable; any sort gives
    the same sequence of DatabaseIDs. *)
Definition by_DatabaseID (a b : Message) : Prop := DatabaseID a <= DatabaseID b.

#[local] Instance by_DatabaseID_dec : RelDecision by_DatabaseID.
Proof. intros a b. unfold by_DatabaseID. apply _. Defined.

Definition sort_Slice (messages : list Message) : list Message :=
  merge_sort by_DatabaseID messages.

(** The backward walk of [Messages]:
[[
   for {
     if currentAmount == 0 { break }
     currentAmount--
     key, rawMsg := cursor.Prev()
     if key == nil { break }
     msg, err := decRawMsg(rawMsg, *s.km)
     if err != nil { return err }
     messages = append(messages, msg)
   }
]]
    [pos] is the index the cursor stands on; [Prev] on index 0 gives a
    nil key. *)
Fixpoint walk_back (b : Bucket raw) (pos : nat) (currentAmount : N)
    (messages : list Message) : list Message * option error :=
  if N.eqb currentAmount 0 then (messages, None)
  else
    match pos with
    | O => (messages, None)
    | S p =>
        match decRawMsg (cursor_value b p) with
        | Err e => (messages, Some e)
        | Ok msg => walk_back b p (currentAmount - 1) (messages ++ [msg])
        end
    end.

Definition Messages (d : DB) (partner : bytes) (start : Z) (amount : N)
    : list Message * option error :=
  if (amount <? 1)%N then
    ([], Some "invalid amount - must be at least one")
  else
    let '(messages, err) :=
      match private_chat d with
      | None => ([], None)
      | Some privChatsBucket =>
          match privChatsBucket !! partner with
          | None => ([], None)
          | Some partnerBucket =>
              (* jump to position *)
              let cursor :=
                if start =? 0 then cursor_Last partnerBucket
                else cursor_Seek partnerBucket (PutUint64 (to_uint64 start)) in
              match decRawMsg (cursor_value partnerBucket cursor) with
              | Err e => ([], Some e)
              | Ok msg =>
                  walk_back partnerBucket cursor (amount - 1) [msg]
              end
          end
      end in
    (sort_Slice messages, err).

(** the keys of a bucket of buckets, in the order [ForEach] visits
    them *)
Definition bucket_names (chats : gmap bytes (Bucket raw)) : list bytes :=
  merge_sort bytes_le (map fst (map_to_list chats)).

(** fetch all chat partners *)
Definition AllChats (d : DB) : list bytes * option error :=
  match private_chat d with
  | None => ([], None)
  | Some privateChats =>
      (filter (fun k => length k = 32%nat) (bucket_names privateChats), None)
  end.

(** fetch message by it's partner and database id *)
Definition GetMessage (d : DB) (partner : bytes) (dbID : Z)
    : option Message * option error :=
  match private_chat d with
  | None => (None, None)
  | Some privateChats =>
      match privateChats !! partner with
      | None => (None, None)
      | Some partnerMessages =>
          (* turn numeric message id into byte message id *)
          let byteMsgID := PutUint64 (to_uint64 dbID) in
          (* fetch encrypted message *)
          match bucket_Get partnerMessages byteMsgID with
          | None =>
              (None, Some ("coulnd't fetch message for partner: "
                           +:+ hex_EncodeToString partner
                           +:+ " and message id: " +:+ pretty dbID))
          | Some rawEncryptedMessage =>
              (* decrypt message, unmarshal database message *)
              match decRawMsg (Some rawEncryptedMessage) with
              | Err e => (None, Some e)
              | Ok m => (Some m, None)
              end
          end
      end
  end.

(** [uuid.NewV4()] and [time.Now().UnixNano()] are given by the caller
    of the model; [m := Message{}] leaves the other fields at their zero
    value. *)
Definition PersistDAppMessage (uuid_NewV4 : result string) (now_UnixNano : Z)
    (d : DB) (partner : bytes) (msg : DAppMessage) :=
  match uuid_NewV4 with
  | Err e => (d, Some e, [])
  | Ok id =>
      persistMessage d partner
        {| ID := id; Version := 0%N; Status_ := StatusPersisted; Received := false;
           DApp := Some msg; Message_ := []; CreatedAt := now_UnixNano;
           Sender := []; DatabaseID := 0 |}
  end.

End Storage.

Arguments bucket_names {raw} chats.
Arguments AllChats {raw} d.
Arguments GetMessage {raw} decRawMsg d partner dbID.
Arguments PersistDAppMessage {raw} seal uuid_NewV4 now_UnixNano d partner msg.

Arguments private_chat {raw} d.
Arguments empty_DB {raw}.
Arguments partner_bucket {raw} d partner.
Arguments collision_loop {raw} remaining b createdAt createdAtMsgID.
Arguments persistMessage {raw} seal d partner msg.
Arguments PersistReceivedMessage {raw} seal d partner msg.
Arguments PersistMessageToSend {raw} seal uuid_NewV4 km_IdentityPublicKey
  now_UnixNano d partner msg.
Arguments UpdateStatus {raw} d partner msgID newStatus.
Arguments walk_back {raw} decRawMsg b pos currentAmount messages.
Arguments Messages {raw} decRawMsg d partner start amount.

End db.

(** ** The wire envelope of the backend protocol (package bpb) *)

Module bpb.

Record PreKey := {
  Key : bytes;
  IdentityKey : bytes;
  IdentityKeySignature : bytes;
  TimeStamp : Z
}.

Record DoubleRatchedMsg := {
  DoubleRatchetPK : bytes;
  N_ : N;
  Pn : N;
  CipherText : bytes
}.

Record ChatMessage := {
  MessageID : bytes;
  Receiver : bytes;
  Message : option DoubleRatchedMsg;
  Sender : bytes;
  OneTimePreKey : bytes;
  SignedPreKey : bytes;
  SenderChatIDKey : bytes;
  SenderChatIDKeySignature : bytes;
  EphemeralKey : bytes;
  EphemeralKeySignature : bytes
}.

Record BackendMessage_Auth := { ToSign : bytes }.

Record BackendMessage_Request := {
  Messages : list ChatMessage;
  NewOneTimePreKeys : N
}.

Record BackendMessage_Response := {
  OneTimePrekeys : list PreKey;
  Auth : option BackendMessage_Auth
}.

Record BackendMessage := {
  RequestID : string;
  Request : option BackendMessage_Request;
  Response : option BackendMessage_Response;
  Error : string
}.

End bpb.

(** ** Package backend: dispatch of inbound messages *)

Module backend.
Import bpb.

(** IMPORTANT - the returned error will be send to the backend. *)
Definition RequestHandler :=
  BackendMessage_Request -> result (option BackendMessage_Response).

(** what travels on a response channel *)
Record response := {
  resp : option BackendMessage_Response;
  err : option error
}.

(** a response channel, named by the number it was created with *)
Definition chan := nat.

Record Backend := {
  stack : gmap string chan;
  requestHandler : list RequestHandler;
  authenticated : bool
}.

(** Modelled from the spec: [requestStack.Cut], which is not among the
    sources.  "Responses are matched to a pending request purely by
    request id via an atomic cut (remove-and-return); an unmatched id is
    an error": the channel registered under the id, taken out of the
    table, or nil. *)
Definition Cut (st : gmap string chan) (reqID : string)
    : gmap string chan * option chan :=
  (delete reqID st, st !! reqID).

(** what one dispatch turn does to the outside, in order *)
Inductive Event :=
| Invoked (i : nat) (req : BackendMessage_Request)
| Sent (m : BackendMessage)
| CutLookup (reqID : string)
| Delivered (c : chan) (r : response)
| Warned (m : BackendMessage).

Definition AddRequestHandler (b : Backend) (handler : RequestHandler) : Backend :=
  {| stack := stack b;
     requestHandler := requestHandler b ++ [handler];
     authenticated := authenticated b |}.

Section Dispatch.

(** [b.transport.Send] *)
Variable transport_Send : BackendMessage -> option error.

(** how a block of the callback ends: it returns, or control goes on *)
Inductive flow :=
| Return (e : option error)
| Fallthrough.

(** [for _, handler := range b.requestHandler { ... }]; [i] is the
    position of the head of [hs] in the chain *)
Fixpoint handle_request (i : nat) (hs : list RequestHandler) (msg : BackendMessage)
    (req : BackendMessage_Request) : list Event * flow :=
  match hs with
  | [] => ([], Fallthrough)
  | h :: hs' =>
      match h req with
      | Err e =>
          (* exit on error *)
          let m := {| RequestID := RequestID msg; Request := None;
                      Response := None; Error := e |} in
          ([Invoked i req; Sent m], Return (transport_Send m))
      | Ok None =>
          (* the handler didn't handle the request *)
          let '(tr, f) := handle_request (S i) hs' msg req in
          (Invoked i req :: tr, f)
      | Ok (Some r) =>
          (* send response *)
          let m := {| RequestID := RequestID msg; Request := None;
                      Response := Some r; Error := EmptyString |} in
          match transport_Send m with
          | Some e => ([Invoked i req; Sent m], Return (Some e))
          | None =>
              let '(tr, f) := handle_request (S i) hs' msg req in
              (Invoked i req :: Sent m :: tr, f)
          end
      end
  end.

(** the callback given to [trans.OnMessage] in [NewServerBackend] *)
Definition OnMessage (b : Backend) (msg : BackendMessage)
    : Backend * list Event * option error :=
  (* make sure we don't get a response & a request at the same time *)
  match Request msg, Response msg with
  | Some _, Some _ =>
      (b, [], Some "a message can’t have a response and a request at the same time")
  | _, _ =>
      (* handle requests *)
      let '(tr1, f1) :=
        match Request msg with
        | Some req => handle_request 0 (requestHandler b) msg req
        | None => ([], Fallthrough)
        end in
      match f1 with
      | Return e => (b, tr1, e)
      | Fallthrough =>
          (* handle responses *)
          match Response msg with
          | Some r =>
              let '(st, respChan) := Cut (stack b) (RequestID msg) in
              match respChan with
              | None =>
                  (b, tr1 ++ [CutLookup (RequestID msg)],
                   Some ("failed to fetch response channel for id: "
                         +:+ RequestID msg))
              | Some c =>
                  let b1 := {| stack := st; requestHandler := requestHandler b;
                               authenticated := authenticated b |} in
                  if negb (String.eqb (Error msg) EmptyString) then
                    (b1, tr1 ++ [CutLookup (RequestID msg);
                                 Delivered c {| resp := None; err := Some (Error msg) |}],
                     None)
                  else
                    let b2 :=
                      match Auth r with
                      | Some _ => {| stack := st; requestHandler := requestHandler b;
                                     authenticated := true |}
                      | None => b1
                      end in
                    (b2, tr1 ++ [CutLookup (RequestID msg);
                                 Delivered c {| resp := Some r; err := None |};
                                 Warned msg],
                     None)
              end
          | None => (b, tr1 ++ [Warned msg], None)
          end
      end
  end.

End Dispatch.

End backend.

(** ** The collaborating libraries, at their interface *)

Module x3dh.

Record KeyPair := {
  PublicKey : bytes;
  PrivateKey : bytes
}.

Record InitializedProtocol := {
  SharedSecret : bytes;
  UsedOneTimePreKey : option bytes;
  UsedSignedPreKey : bytes;
  EphemeralKey : bytes
}.

Record ProtocolInitialisation := {
  RemoteIdKey : bytes;
  RemoteEphemeralKey : bytes;
  MyOneTimePreKey : option bytes;
  MySignedPreKey : bytes
}.

End x3dh.

Module dr.

Record MessageHeader := {
  DH : bytes;
  N_ : N;
  PN : N
}.

Record Message := {
  Header : MessageHeader;
  Ciphertext : bytes
}.

End dr.

Module prekey.

Record PreKey := {
  PublicKey : bytes;
  identityPublicKey : bytes;
  signature : bytes;
  time : Z
}.

(** [preKey.PreKey{}] *)
Definition zero : PreKey :=
  {| PublicKey := make_bytes 32; identityPublicKey := []; signature := [];
     time := 0 |}.

Definition set_PublicKey (k : bytes) (pk : PreKey) : PreKey :=
  {| PublicKey := k; identityPublicKey := identityPublicKey pk;
     signature := signature pk; time := time pk |}.

End prekey.

(** ** Package chat: handshake acceptance *)

Module chat.

Record Message := {
  Type_ : string;
  UsedSecretRef : string;
  AdditionalData : gmap string string;
  DoubleratchetMessage : dr.Message;
  IDPubKey : string;
  Receiver : string
}.

Record PreKeyBundlePrivate := {
  OneTimePreKey : bytes;
  SignedPreKey : bytes
}.

Section InitialMessage.

(** [c.x3dh.SecretFromRemote] *)
Variable SecretFromRemote : x3dh.ProtocolInitialisation -> result bytes.

(** The first component lists the key agreements that were run, so that
    "no shared secret was computed" can be said. *)
Definition HandleInitialMessage (m : Message) (keyBundlePrivate : PreKeyBundlePrivate)
    : list x3dh.ProtocolInitialisation * result bytes :=
  (* message type should be: PROTOCOL_INITIALISATION *)
  if negb (String.eqb (Type_ m) "PROTOCOL_INITIALISATION") then
    ([], Err "message must be of type PROTOCOL_INITIALISATION")
  else
    (* get my ephemeral key *)
    match AdditionalData m !! "ephemeral_key" with
    | None => ([], Err "missing ephemeral_key")
    | Some remoteEphemeralKeyStr =>
        match hex_DecodeString remoteEphemeralKeyStr with
        | (_, Some e) => ([], Err e)
        | (remoteEphemeralKeyRaw, None) =>
            let remoteEphemeralKey := copy_into 32 remoteEphemeralKeyRaw in
            (* Get chat ID key *)
            let remoteID := dr.DH (dr.Header (DoubleratchetMessage m)) in
            let remoteChatID := copy_into 32 remoteID in
            (* calculate shared secret *)
            let init :=
              {| x3dh.RemoteIdKey := remoteChatID;
                 x3dh.RemoteEphemeralKey := remoteEphemeralKey;
                 x3dh.MyOneTimePreKey := Some (OneTimePreKey keyBundlePrivate);
                 x3dh.MySignedPreKey := SignedPreKey keyBundlePrivate |} in
            ([init], SecretFromRemote init)
        end
    end.

End InitialMessage.

(** *** The one-time pre-key handler *)

Section PreKeysHandler.

(** the entropy behind [x3dh.NewCurve25519(rand.Reader)] *)
Variable rng : Type.
Variable GenerateKeyPair : rng -> rng * result x3dh.KeyPair.
(** [c.oneTimePreKeyStorage] *)
Variable pool : Type.
Variable oneTimePreKeyStorage_Put : pool -> list x3dh.KeyPair -> pool * option error.
(** [pk.Sign] with the key manager, and [pk.ToProtobuf()] *)
Variable Sign : prekey.PreKey -> result prekey.PreKey.
Variable ToProtobuf : prekey.PreKey -> result bpb.PreKey.

(** [[
   for {
     if len(keyPairs) == int(req.NewOneTimePreKeys) { break }
     keyPair, err := curve.GenerateKeyPair()
     if err != nil { return nil, err }
     keyPairs = append(keyPairs, keyPair)
   }
]]
    The loop has no variant in the source, so the model takes fuel and
    answers [None] when it runs out. *)
Fixpoint generate_loop (fuel : nat) (n : nat) (g : rng) (keyPairs : list x3dh.KeyPair)
    : option (rng * result (list x3dh.KeyPair)) :=
  match fuel with
  | O => None
  | S fuel' =>
      if Nat.eqb (length keyPairs) n then Some (g, Ok keyPairs)
      else
        match GenerateKeyPair g with
        | (g', Err e) => Some (g', Err e)
        | (g', Ok keyPair) => generate_loop fuel' n g' (keyPairs ++ [keyPair])
        end
  end.

(** convert and sign one time pre keys *)
Fixpoint sign_loop (keyPairs : list x3dh.KeyPair) (preKeys : list bpb.PreKey)
    : result (list bpb.PreKey) :=
  match keyPairs with
  | [] => Ok preKeys
  | oneTimePreKey :: rest =>
      let pk := prekey.set_PublicKey (x3dh.PublicKey oneTimePreKey) prekey.zero in
      match Sign pk with
      | Err _ => Err "failed to sign one time pre key"
      | Ok pk =>
          match ToProtobuf pk with
          | Err _ => Err "failed to convert pre key to protobuf"
          | Ok pkProto => sign_loop rest (preKeys ++ [pkProto])
          end
      end
  end.

(** handle new one time pre keys request *)
Definition oneTimePreKeysHandler (fuel : nat) (g : rng) (p : pool)
    (req : bpb.BackendMessage_Request)
    : option (rng * pool * result (option bpb.BackendMessage_Response)) :=
  (* exit if not a request to fetch new one time pre keys *)
  if N.eqb (bpb.NewOneTimePreKeys req) 0 then Some (g, p, Ok None)
  (* make sure request is valid *)
  else if (100 <? bpb.NewOneTimePreKeys req)%N then
    Some (g, p, Err "requested more then the max allowed pre keys")
  else
    (* generate key pairs *)
    match generate_loop fuel (N.to_nat (bpb.NewOneTimePreKeys req)) g [] with
    | None => None
    | Some (g', Err e) => Some (g', p, Err e)
    | Some (g', Ok keyPairs) =>
        (* persist all key pairs *)
        match oneTimePreKeyStorage_Put p keyPairs with
        | (p', Some _) => Some (g', p', Err "failed to persist generated key pairs")
        | (p', None) =>
            match sign_loop keyPairs [] with
            | Err e => Some (g', p', Err e)
            | Ok preKeys =>
                Some (g', p', Ok (Some {| bpb.OneTimePrekeys := preKeys;
                                          bpb.Auth := None |}))
            end
        end
    end.

End PreKeysHandler.

Arguments generate_loop {rng} GenerateKeyPair fuel n g keyPairs.
Arguments oneTimePreKeysHandler {rng} GenerateKeyPair {pool} oneTimePreKeyStorage_Put
  Sign ToProtobuf fuel g p req.

(** *** The session coordinator: SendMessage *)

Record PlainChatMessage := {
  MessageID : string;
  PlainMessage : bytes;
  SharedSecretBaseID : bytes;
  SharedSecretCreationDate : Z
}.

Record SharedSecret := {
  X3dhSS : bytes;
  Accepted : bool;
  (* a [time.Time], as its Unix seconds *)
  CreatedAt : Z;
  UsedOneTimePreKey : option bytes;
  UsedSignedPreKey : bytes;
  EphemeralKey : bytes;
  EphemeralKeySignature : bytes;
  BaseID : bytes
}.

(** one call of [c.messageDB.UpdateStatus] *)
Record StatusUpdate := {
  su_partner : bytes;
  su_msgID : string;
  su_status : db.Status
}.

Section Coordinator.

(** everything outside the message store: the other storages, the
    backend, the key manager, the clock and the entropy source *)
Variable W : Type.
(** the message store behind [c.messageDB] *)
Variable MDB : Type.
(** the pre-key bundle the backend hands out, and a ratchet session *)
Variable PreKeyBundle : Type.
Variable Session : Type.

(** the collaborators of [Chat], one field per method called *)
Record Deps := {
  messageDB_UpdateStatus : MDB -> bytes -> string -> db.Status -> MDB * option error;
  sharedSecStorage_HasAny : bytes -> W -> W * result bool;
  sharedSecStorage_Put : bytes -> SharedSecret -> W -> W * option error;
  sharedSecStorage_GetYoungest : bytes -> W -> W * result SharedSecret;
  backend_FetchPreKeyBundle : bytes -> W -> W * result PreKeyBundle;
  backend_SubmitMessage : bpb.ChatMessage -> W -> W * option error;
  x3dh_CalculateSecret : PreKeyBundle -> W -> W * result x3dh.InitializedProtocol;
  km_IdentitySign : bytes -> W -> W * result bytes;
  km_IdentityPublicKey : W -> W * result string;
  km_ChatIdKeyPair : W -> W * result x3dh.KeyPair;
  rand_Read : nat -> W -> W * result bytes;
  time_Now : W -> W * Z;
  userStorage_HasSignedPreKey : bytes -> W -> W * result bool;
  userStorage_GetSignedPreKey : bytes -> W -> W * result prekey.PreKey;
  refreshSignedPreKey : bytes -> W -> W * option error;
  VerifySignature : prekey.PreKey -> bytes -> result bool;
  OlderThan : prekey.PreKey -> W -> W * bool;
  dr_NewWithRemoteKey : bytes -> bytes -> result Session;
  RatchetEncrypt : Session -> bytes -> dr.Message;
  proto_Marshal : PlainChatMessage -> result bytes
}.

Variable c : Deps.

Record St := {
  world : W;
  messageDB : MDB;
  status_updates : list StatusUpdate
}.

(** A step of [SendMessage]: it goes on with a value, or the function
    returns ([inr]) with its error result. *)
Definition M (A : Type) : Type := St -> St * (A + option error).

Definition ret {A} (a : A) : M A := fun s => (s, inl a).

Definition bind {A B} (m : M A) (f : A -> M B) : M B :=
  fun s =>
    match m s with
    | (s', inl a) => f a s'
    | (s', inr e) => (s', inr e)
    end.

(** [return e] *)
Definition return_ {A} (e : option error) : M A := fun s => (s, inr e).

Definition call {A} (f : W -> W * A) : M A :=
  fun s =>
    let '(w, a) := f (world s) in
    ({| world := w; messageDB := messageDB s;
        status_updates := status_updates s |}, inl a).

Definition UpdateStatus (partner : bytes) (msgID : string) (newStatus : db.Status)
    : M (option error) :=
  fun s =>
    let '(m, e) := messageDB_UpdateStatus c (messageDB s) partner msgID newStatus in
    ({| world := world s; messageDB := m;
        status_updates :=
          status_updates s ++ [{| su_partner := partner; su_msgID := msgID;
                                  su_status := newStatus |}] |}, inl e).

Notation "x <- m ;; k" := (bind m (fun x => k))
  (at level 63, m at level 62, k at level 200).
Notation "m ;;; k" := (bind m (fun _ => k))
  (at level 63, k at level 200).

Section Send.

Variable receiver : bytes.
Variable msg : PlainChatMessage.

Definition handleSendError (err : error) : M error :=
  updateError <- UpdateStatus receiver (MessageID msg) db.StatusFailedToSend ;;
  match updateError with
  | Some updateError =>
      ret ("failed to update status with error: " +:+ updateError
           +:+ " - original error: " +:+ err)
  | None => ret err
  end.

(** [if err != nil { return handleSendError(err) }] *)
Definition handled {A} (r : result A) : M A :=
  match r with
  | Ok a => ret a
  | Err e => e' <- handleSendError e ;; return_ (Some e')
  end.

Definition handled_nil (r : option error) : M unit :=
  match r with
  | None => ret tt
  | Some e => e' <- handleSendError e ;; return_ (Some e')
  end.

(** [if err != nil { return err }] *)
Definition unhandled {A} (r : result A) : M A :=
  match r with
  | Ok a => ret a
  | Err e => return_ (Some e)
  end.

Definition fetchSignedPreKey (userIDPubKey : bytes) : M (result prekey.PreKey) :=
  r <- call (userStorage_GetSignedPreKey c receiver) ;;
  match r with
  | Err e => e' <- handleSendError e ;; ret (Err e')
  | Ok signedPreKey =>
      (* validate signature of signed pre key *)
      match VerifySignature c signedPreKey userIDPubKey with
      | Err e => e' <- handleSendError e ;; ret (Err e')
      | Ok false =>
          e' <- handleSendError "received invalid signature for pre key bundle" ;;
          ret (Err e')
      | Ok true => ret (Ok signedPreKey)
      end
  end.

Definition validX3dhPub (pub : bytes) : option error :=
  if bool_decide (pub = make_bytes 32) then
    Some "got invalid x3dh public key - seems to be empty"
  else if negb (Nat.eqb (length pub) 32) then
    Some "got invalid x3dh public key - length MUST be 32"
  else None.

Definition unhandled_nil (r : option error) : M unit :=
  match r with
  | None => ret tt
  | Some e => return_ (Some e)
  end.

(** if we don't have a shared secret we create one *)
Definition createSharedSecret : M unit :=
  r <- call (backend_FetchPreKeyBundle c receiver) ;;
  preKeyBundle <- handled r ;;
  r <- call (x3dh_CalculateSecret c preKeyBundle) ;;
  initializedProtocol <- handled r ;;
  r <- call (km_IdentitySign c (x3dh.EphemeralKey initializedProtocol)) ;;
  eks <- unhandled r ;;
  r <- call (rand_Read c 32) ;;
  ssBaseID <- unhandled r ;;
  now <- call (time_Now c) ;;
  let ss :=
    {| X3dhSS := x3dh.SharedSecret initializedProtocol;
       Accepted := false;
       CreatedAt := now;
       UsedOneTimePreKey := x3dh.UsedOneTimePreKey initializedProtocol;
       UsedSignedPreKey := x3dh.UsedSignedPreKey initializedProtocol;
       EphemeralKey := x3dh.EphemeralKey initializedProtocol;
       EphemeralKeySignature := eks;
       BaseID := ssBaseID |} in
  r <- call (sharedSecStorage_Put c receiver ss) ;;
  handled_nil r.

(** attach information to message that will allow receiver to derive
    shared secret *)
Definition attachHandshake (ss : SharedSecret) (msgToSend : bpb.ChatMessage)
    : M bpb.ChatMessage :=
  oneTimePreKey <-
    match UsedOneTimePreKey ss with
    | Some k => unhandled_nil (validX3dhPub k) ;;; ret k
    | None => ret (bpb.OneTimePreKey msgToSend)
    end ;;
  unhandled_nil (validX3dhPub (UsedSignedPreKey ss)) ;;;
  unhandled_nil (validX3dhPub (EphemeralKey ss)) ;;;
  r <- call (km_ChatIdKeyPair c) ;;
  chatIDKeyPair <- unhandled r ;;
  r <- call (km_IdentitySign c (x3dh.PublicKey chatIDKeyPair)) ;;
  chatIDKeySignature <- unhandled r ;;
  ret {| bpb.MessageID := bpb.MessageID msgToSend;
         bpb.Receiver := bpb.Receiver msgToSend;
         bpb.Message := bpb.Message msgToSend;
         bpb.Sender := bpb.Sender msgToSend;
         bpb.OneTimePreKey := oneTimePreKey;
         bpb.SignedPreKey := UsedSignedPreKey ss;
         bpb.SenderChatIDKey := x3dh.PublicKey chatIDKeyPair;
         bpb.SenderChatIDKeySignature := chatIDKeySignature;
         bpb.EphemeralKey := EphemeralKey ss;
         bpb.EphemeralKeySignature := EphemeralKeySignature ss |}.

(** [[]byte(msg.MessageID)] *)
Definition string_bytes (s : string) : bytes :=
  map (fun a => Z.of_nat (nat_of_ascii a)) (list_ascii_of_string s).

Definition SendMessage_steps : M unit :=
  (* check if there is a shared secret for the receiver *)
  r <- call (sharedSecStorage_HasAny c receiver) ;;
  exist <- handled r ;;
  (if negb exist then createSharedSecret else ret tt) ;;;
  (* fetch shared secret *)
  r <- call (sharedSecStorage_GetYoungest c receiver) ;;
  ss <- handled r ;;
  r <- call (userStorage_HasSignedPreKey c receiver) ;;
  hasSignedPreKey <- handled r ;;
  (* fetch signed pre key of chat partner if we don't have it locally *)
  (if negb hasSignedPreKey then
     r <- call (refreshSignedPreKey c receiver) ;; handled_nil r
   else ret tt) ;;;
  (* fetch signed pre key from storage *)
  r <- fetchSignedPreKey receiver ;;
  signedPreKey <- handled r ;;
  (* check if signed pre key expired *)
  expired <- call (OlderThan c signedPreKey) ;;
  signedPreKey <-
    (if expired : bool then
       r <- call (refreshSignedPreKey c receiver) ;;
       handled_nil r ;;;
       r <- fetchSignedPreKey receiver ;;
       handled r
     else ret signedPreKey) ;;
  (* in the case the shared secret has not been accepted we need to
     attach the shared secret base id *)
  msg' <-
    (if negb (Accepted ss) then
       if negb (Nat.eqb (length (BaseID ss)) 32) then
         e' <- handleSendError "base it is invalid - must have 32 bytes" ;;
         return_ (Some e')
       else
         ret {| MessageID := MessageID msg; PlainMessage := PlainMessage msg;
                SharedSecretBaseID := BaseID ss;
                SharedSecretCreationDate := CreatedAt ss |}
     else ret msg) ;;
  (* create double ratchet session *)
  let drSS := copy_into 32 (X3dhSS ss) in
  let drRK := copy_into 32 (prekey.PublicKey signedPreKey) in
  drSession <- handled (dr_NewWithRemoteKey c drSS drRK) ;;
  (* marshal message *)
  rawPlainMessage <- handled (proto_Marshal c msg') ;;
  (* encrypt message; the check of err that follows in the source tests
     the nil error of the marshalling *)
  let drMessage := RatchetEncrypt c drSession rawPlainMessage in
  (* fetch sender public key *)
  r <- call (km_IdentityPublicKey c) ;;
  senderIdPubStr <- handled r ;;
  sender <-
    (match hex_DecodeString senderIdPubStr with
     | (_, Some e) => e' <- handleSendError e ;; return_ (Some e')
     | (sender, None) => ret sender
     end) ;;
  (* construct chat message *)
  let msgToSend :=
    {| bpb.MessageID := string_bytes (MessageID msg');
       bpb.Receiver := receiver;
       bpb.Message :=
         Some {| bpb.DoubleRatchetPK := dr.DH (dr.Header drMessage);
                 bpb.N_ := dr.N_ (dr.Header drMessage);
                 bpb.Pn := dr.PN (dr.Header drMessage);
                 bpb.CipherText := dr.Ciphertext drMessage |};
       bpb.Sender := sender;
       bpb.OneTimePreKey := []; bpb.SignedPreKey := [];
       bpb.SenderChatIDKey := []; bpb.SenderChatIDKeySignature := [];
       bpb.EphemeralKey := []; bpb.EphemeralKeySignature := [] |} in
  msgToSend <-
    (if negb (Accepted ss) then attachHandshake ss msgToSend else ret msgToSend) ;;
  (* send message to the backend *)
  r <- call (backend_SubmitMessage c msgToSend) ;;
  handled_nil r ;;;
  e <- UpdateStatus receiver (MessageID msg') db.StatusSent ;;
  return_ e.

End Send.

(** send a message: the world and message store it leaves, the status
    updates it made, and the error it returns *)
Definition SendMessage (w : W) (m : MDB) (receiver : bytes) (msg : PlainChatMessage)
    : St * option error :=
  let s0 := {| world := w; messageDB := m; status_updates := [] |} in
  match SendMessage_steps receiver msg s0 with
  | (s, inr e) => (s, e)
  | (s, inl _) => (s, None)
  end.

End Coordinator.

Arguments Build_Deps {W MDB PreKeyBundle Session}.
Arguments Build_St {W MDB}.
Arguments world {W MDB} s.
Arguments messageDB {W MDB} s.
Arguments status_updates {W MDB} s.
Arguments M W MDB A : clear implicits.
Arguments ret {W MDB A} a s.
Arguments bind {W MDB A B} m f s.
Arguments return_ {W MDB A} e s.
Arguments UpdateStatus {W MDB PreKeyBundle Session} c partner msgID newStatus s.
Arguments handleSendError {W MDB PreKeyBundle Session} c receiver msg err s.
Arguments handled {W MDB PreKeyBundle Session} c receiver msg {A} r s.
Arguments unhandled {W MDB A} r s.
Arguments createSharedSecret {W MDB PreKeyBundle Session} c receiver msg s.
Arguments SendMessage_steps {W MDB PreKeyBundle Session} c receiver msg s.
Arguments SendMessage {W MDB PreKeyBundle Session} c w m receiver msg.

(** *** Handshake initiation *)

(** how a function ends that may dereference a nil pointer *)
Inductive outcome (A : Type) : Type :=
| Returned (a : A)
| Panicked.
Arguments Returned {A} a.
Arguments Panicked {A}.

(** [Message{}] and [x3dh.InitializedProtocol{}] *)
Definition Message_zero : Message :=
  {| Type_ := EmptyString; UsedSecretRef := EmptyString; AdditionalData := ∅;
     DoubleratchetMessage :=
       {| dr.Header := {| dr.DH := make_bytes 32; dr.N_ := 0%N; dr.PN := 0%N |};
          dr.Ciphertext := [] |};
     IDPubKey := EmptyString; Receiver := EmptyString |}.

Definition InitializedProtocol_zero : x3dh.InitializedProtocol :=
  {| x3dh.SharedSecret := make_bytes 32; x3dh.UsedOneTimePreKey := None;
     x3dh.UsedSignedPreKey := make_bytes 32; x3dh.EphemeralKey := make_bytes 32 |}.

Section Initialize.

Variable PreKeyBundlePublic : Type.
(** [c.x3dh.CalculateSecret], [randSource.Read] on a slice of the given
    length, [c.encryptMessage] and [c.km.IdentityPublicKey] *)
Variable CalculateSecret : PreKeyBundlePublic -> result x3dh.InitializedProtocol.
Variable randSource_Read : nat -> result bytes.
Variable encryptMessage : bytes -> bytes -> result dr.Message.
Variable km_IdentityPublicKey : result string.
(** [m.Sign(c.km)]: the signature it stores is not among the modelled
    fields of the message *)
Variable Message_Sign : Message -> option error.

(** The time stamp [SendAt] is not among the modelled fields.  The
    slice [ip.UsedOneTimePreKey[:]] of a nil pointer panics. *)
Definition InitializeChat (idPubKey : bytes) (pubPreKeyBundle : PreKeyBundlePublic)
    : outcome (Message * x3dh.InitializedProtocol * option error) :=
  (* init the protocol *)
  match CalculateSecret pubPreKeyBundle with
  | Err e => Returned (Message_zero, InitializedProtocol_zero, Some e)
  | Ok ip =>
      (* create id for shared secret *)
      match randSource_Read 16 with
      | Err e => Returned (Message_zero, InitializedProtocol_zero, Some e)
      | Ok sid =>
          (* create encrypted message: []byte("hi") *)
          match encryptMessage (x3dh.SharedSecret ip) [104; 105] with
          | Err e => Returned (Message_zero, InitializedProtocol_zero, Some e)
          | Ok msg =>
              (* my id key *)
              match km_IdentityPublicKey with
              | Err e => Returned (Message_zero, InitializedProtocol_zero, Some e)
              | Ok myIdKey =>
                  match x3dh.UsedOneTimePreKey ip with
                  | None => Panicked
                  | Some usedOneTimePreKey =>
                      (* construct message *)
                      let m :=
                        {| Type_ := "PROTOCOL_INITIALISATION";
                           UsedSecretRef := hex_EncodeToString sid;
                           AdditionalData :=
                             <["used_one_time_pre_key" :=
                                 hex_EncodeToString usedOneTimePreKey]>
                               (<["used_signed_pre_key" :=
                                   hex_EncodeToString (x3dh.UsedSignedPreKey ip)]>
                                  (<["ephemeral_key" :=
                                      hex_EncodeToString (x3dh.EphemeralKey ip)]> ∅));
                           DoubleratchetMessage := msg;
                           IDPubKey := myIdKey;
                           Receiver := hex_EncodeToString idPubKey |} in
                      (* sign message *)
                      match Message_Sign m with
                      | Some e =>
                          Returned (Message_zero, InitializedProtocol_zero, Some e)
                      | None => Returned (m, ip, None)
                      end
                  end
              end
          end
      end
  end.

End Initialize.

Arguments InitializeChat {PreKeyBundlePublic} CalculateSecret randSource_Read
  encryptMessage km_IdentityPublicKey Message_Sign idPubKey pubPreKeyBundle.

End chat.

(** [dr.Key{}] *)
Definition dr_Key_zero : bytes := make_bytes 32.

(** [time.Second * 8], in nanoseconds *)
Definition eight_seconds : Z := 8 * 1000000000.

(** ** Package api: the key store served over the request API *)

Module api.

(** the request kinds of [pb.Request] that the key store sends *)
Inductive Request :=
| DRKeyStoreGet (DrKey : bytes) (MessageNumber : N)
| DRKeyStorePut (MessageKey : bytes) (MessageNumber : N) (Key : bytes)
| DRKeyStoreDeleteMK (Key : bytes) (MsgNum : N)
| DRKeyStoreDeleteKeys (Key : bytes)
| DRKeyStoreCount (Key : bytes).

(** the parts of [pb.Response] that the key store reads; the pointers
    [resp.Msg] and [resp.Msg.DRKeyStoreGet] are taken to be set *)
Record Response := {
  DRKeyStoreGet_MessageKey : bytes;
  DRKeyStoreCount_Count : N
}.

(** what a key store call leaves behind: the requests given to
    [s.api.request], the values sent on [resp.Closer] and the errors
    given to [logger.Error] *)
Record Effects := {
  requests : list Request;
  closed : list (option error);
  logged : list error
}.

Section DoubleRatchetKeyStoreApi.

(** the connection behind [s.api] *)
Variable W : Type.
(** [s.api.request(req, timeout)]: an error covers a failed send as
    well as a timeout *)
Variable request : Request -> Z -> W -> W * result Response.
Variable aes_Unmarshal : bytes -> result bytes.
Variable km_AESDecrypt : bytes -> result bytes.
Variable km_AESEncrypt : bytes -> result bytes.
Variable ct_Marshal : bytes -> result bytes.

(** what a call that made the request [req] leaves behind *)
Definition after_request (req : Request) (closer : list (option error))
    (log : list error) : Effects :=
  {| requests := [req]; closed := closer; logged := log |}.

Definition before_request (log : list error) : Effects :=
  {| requests := []; closed := []; logged := log |}.

(** get a key by it's key and msg number *)
Definition Get (w : W) (k : bytes) (msgNum : N) : W * Effects * (bytes * bool) :=
  let req := DRKeyStoreGet k msgNum in
  match request req eight_seconds w with
  | (w', Err e) => (w', after_request req [] [e], (dr_Key_zero, false))
  | (w', Ok resp) =>
      match aes_Unmarshal (DRKeyStoreGet_MessageKey resp) with
      | Err e => (w', after_request req [Some e] [e], (dr_Key_zero, false))
      | Ok ct =>
          match km_AESDecrypt ct with
          | Err e => (w', after_request req [Some e] [e], (dr_Key_zero, false))
          | Ok messageKey =>
              if negb (Nat.eqb (length messageKey) 32) then
                let e := "a decrypted message key must have exactly 32 bytes" in
                (w', after_request req [Some e] [e], (dr_Key_zero, false))
              else
                (w', after_request req [None] [], (copy_into 32 messageKey, true))
          end
      end
  end.

(** save message key (double ratchet key) *)
Definition Put (w : W) (k : bytes) (msgNum : N) (mk : bytes) : W * Effects :=
  match km_AESEncrypt mk with
  | Err e => (w, before_request [e])
  | Ok ct =>
      match ct_Marshal ct with
      | Err e => (w, before_request [e])
      | Ok rawCt =>
          let req := DRKeyStorePut k msgNum rawCt in
          match request req eight_seconds w with
          | (w', Err e) => (w', after_request req [] [e])
          | (w', Ok _) => (w', after_request req [None] [])
          end
      end
  end.

Definition DeleteMk (w : W) (k : bytes) (msgNum : N) : W * Effects :=
  let req := DRKeyStoreDeleteMK k msgNum in
  match request req eight_seconds w with
  | (w', Err e) => (w', after_request req [] [e])
  | (w', Ok _) => (w', after_request req [None] [])
  end.

Definition DeletePk (w : W) (k : bytes) : W * Effects :=
  let req := DRKeyStoreDeleteKeys k in
  match request req eight_seconds w with
  | (w', Err e) => (w', after_request req [] [e])
  | (w', Ok _) => (w', after_request req [None] [])
  end.

Definition Count (w : W) (k : bytes) : W * Effects * N :=
  let req := DRKeyStoreCount k in
  match request req eight_seconds w with
  | (w', Err e) => (w', after_request req [] [e], 0%N)
  | (w', Ok resp) => (w', after_request req [None] [], DRKeyStoreCount_Count resp)
  end.

End DoubleRatchetKeyStoreApi.

Arguments Get {W} request aes_Unmarshal km_AESDecrypt w k msgNum.
Arguments Put {W} request km_AESEncrypt ct_Marshal w k msgNum mk.
Arguments DeleteMk {W} request w k msgNum.
Arguments DeletePk {W} request w k.
Arguments Count {W} request w k.

End api.

(** ** Package client: the key store served by the device *)

Module client.

(** the JSON RPC calls of the key store *)
Inductive Call :=
| DRKeyStoreGetCall (Key : string) (MsgNum : N)
| DRKeyStorePutCall (IndexKey : string) (MsgNumber : N) (DoubleRatchetKey : bytes)
| DRKeyStoreDeleteMK (IndexKey : string) (MsgNumber : N).

(** [deviceApi.Response], without its closer channel *)
Record Response := {
  Error : option error;
  Payload : string
}.

Record DRKeyStoreGetResponse := {
  Key : bytes;
  Ok_ : bool
}.

(** what a key store call leaves behind: the calls given to
    [s.api.Send], the values given to [resp.Close] and the errors given
    to [logger.Error] *)
Record Effects := {
  sends : list Call;
  closed : list (option error);
  logged : list error
}.

Definition no_effects : Effects := {| sends := []; closed := []; logged := [] |}.

Section DoubleRatchetKeyStore.

(** the device behind [s.api]: its pending calls and what was sent *)
Variable W : Type.
(** [s.api.Send(call)] followed by the receive on the channel it
    returns, which is taken to deliver *)
Variable api_Send : Call -> W -> W * result Response.
(** [UnmarshalDRKeyStoreGetResponse(resp.Payload, s.km)]: as in Go, a
    value comes back next to the error *)
Variable UnmarshalDRKeyStoreGetResponse : string -> DRKeyStoreGetResponse * option error.
Variable km_AESEncrypt : bytes -> result bytes.

(** what a call that gave [call] to the device leaves behind *)
Definition after_send (call : Call) (closer : list (option error))
    (log : list error) : Effects :=
  {| sends := [call]; closed := closer; logged := log |}.

(** get a key by it's key and msg number *)
Definition Get (w : W) (k : bytes) (msgNum : N) : W * Effects * (bytes * bool) :=
  let call := DRKeyStoreGetCall (hex_EncodeToString k) msgNum in
  match api_Send call w with
  | (w', Err _) => (w', after_send call [] [], (dr_Key_zero, false))
  | (w', Ok resp) =>
      match Error resp with
      | Some _ => (w', after_send call [None] [], (dr_Key_zero, false))
      | None =>
          match UnmarshalDRKeyStoreGetResponse (Payload resp) with
          | (keyResp, Some e) =>
              (w', after_send call [Some e] [], (Key keyResp, false))
          | (keyResp, None) =>
              (w', after_send call [None] [], (Key keyResp, Ok_ keyResp))
          end
      end
  end.

(** save message key (double ratchet key) *)
Definition Put (w : W) (k : bytes) (msgNum : N) (mk : bytes) : W * Effects :=
  (* encrypt message key; a failure is logged and the call goes on with
     the zero cipher text *)
  let '(ct, log1) :=
    match km_AESEncrypt mk with
    | Ok ct => (ct, [])
    | Err e => ([], [e])
    end in
  (* send request to device api *)
  let call := DRKeyStorePutCall (hex_EncodeToString k) msgNum ct in
  match api_Send call w with
  | (w', Err e) => (w', after_send call [] (log1 ++ [e]))
  | (w', Ok resp) =>
      (* wait for response and close it *)
      (w', after_send call [None]
             (log1 ++ match Error resp with Some e => [e] | None => [] end))
  end.

Definition DeleteMk (w : W) (k : bytes) (msgNum : N) : W * Effects :=
  let call := DRKeyStoreDeleteMK (hex_EncodeToString k) msgNum in
  match api_Send call w with
  | (w', Err e) => (w', after_send call [] [e])
  | (w', Ok resp) =>
      (w', after_send call [None]
             match Error resp with Some e => [e] | None => [] end)
  end.

Definition DeletePk (w : W) (k : bytes) : W * Effects :=
  (w, no_effects).

Definition Count (w : W) (k : bytes) : W * Effects * N :=
  (w, no_effects, 9%N).

End DoubleRatchetKeyStore.

Arguments Get {W} api_Send UnmarshalDRKeyStoreGetResponse w k msgNum.
Arguments Put {W} api_Send km_AESEncrypt w k msgNum mk.
Arguments DeleteMk {W} api_Send w k msgNum.
Arguments DeletePk {W} w k.
Arguments Count {W} w k.

End client.

(** ** Package panthalassa: the process-wide instance and its API *)

Module panthalassa.

Record StartConfig := {
  EncryptedKeyManager : string;
  SignedProfile : string;
  EthWsEndpoint : string;
  EnableDebugging : bool;
  PrivChatEndpoint : string;
  PrivChatBearerToken : string
}.

(** a Go [(string, error)] result *)
Definition str_err : Type := string * option error.

Section Singleton.

Variable KeyManager : Type.
(** the [Panthalassa] struct a successful [start] builds *)
Variable Instance : Type.
Variable Response : Type.
Variable Multiaddr : Type.

(** what the API does to the outside *)
Inductive Effect :=
| SetDebugLogging
| Created (i : Instance)
| StopCalled (i : Instance)
| Did (op : string) (i : Instance).

(** the packages the API calls into *)
Record Ops := {
  json_Unmarshal_config : string -> result StartConfig;
  keyManager_UnmarshalStore_OpenWithPassword : StartConfig -> string -> result KeyManager;
  keyManager_UnmarshalStore_OpenWithMnemonic : StartConfig -> string -> result KeyManager;
  (* [start] from [api.New] to [dAppReg.NewDAppRegistry]: the first
     error of the chain, or the struct built from its parts *)
  construct : string -> KeyManager -> StartConfig -> result Instance;
  instance_Stop : Instance -> option error;
  instance_Export : Instance -> string -> string -> str_err;
  km_GetEthereumPrivateKey : Instance -> str_err;
  km_GetEthereumAddress : Instance -> str_err;
  km_IdentityPublicKey : Instance -> str_err;
  km_GetMnemonic : Instance -> string;
  base64_proto_Unmarshal : string -> result Response;
  api_Respond : Instance -> string -> Response -> option error -> Z -> option error;
  (* [profile.SignProfile], [ToProtobuf], [proto.Marshal], base64 *)
  profile_SignProfile : Instance -> string -> string -> string -> result string;
  ma_NewMultiaddr : string -> result Multiaddr;
  dAppReg_ConnectDevelopmentServer : Instance -> Multiaddr -> option error;
  dAppReg_OpenDApp : Instance -> bytes -> string -> option error;
  dAppReg_StartDApp : Instance -> bytes -> Z -> option error;
  dAppReg_RenderMessage : Instance -> bytes -> string -> str_err;
  dAppReg_CallFunction : Instance -> bytes -> N -> string -> option error;
  dAppReg_ShutDown : Instance -> bytes -> option error;
  (* [dAppStorage.All] and [json.Marshal] *)
  dAppStorage_All : Instance -> result str_err
}.

Variable ops : Ops.

(** the package state: [var panthalassaInstance *Panthalassa], and the
    trace of what was done *)
Record World := {
  panthalassaInstance : option Instance;
  effects : list Effect
}.

Definition initial : World := {| panthalassaInstance := None; effects := [] |}.

Definition did (e : Effect) (w : World) : World :=
  {| panthalassaInstance := panthalassaInstance w; effects := effects w ++ [e] |}.

(** create a new panthalassa instance *)
Definition start (dbDir : string) (km : KeyManager) (config : StartConfig) (w : World)
    : World * option error :=
  let w := if EnableDebugging config then did SetDebugLogging w else w in
  (* Exit if instance was already created and not stopped *)
  match panthalassaInstance w with
  | Some _ =>
      (w, Some "call stop first in order to create a new panthalassa instance")
  | None =>
      match construct ops dbDir km config with
      | Err e => (w, Some e)
      | Ok i =>
          (* Create panthalassa instance *)
          ({| panthalassaInstance := Some i; effects := effects w ++ [Created i] |},
           None)
      end
  end.

(** start panthalassa *)
Definition Start (dbDir config password : string) (w : World) : World * option error :=
  match json_Unmarshal_config ops config with
  | Err e => (w, Some e)
  | Ok c =>
      match keyManager_UnmarshalStore_OpenWithPassword ops c password with
      | Err e => (w, Some e)
      | Ok km => start dbDir km c w
      end
  end.

(** create a new panthalassa instance with the mnemonic *)
Definition StartFromMnemonic (dbDir config mnemonic : string) (w : World)
    : World * option error :=
  match json_Unmarshal_config ops config with
  | Err e => (w, Some e)
  | Ok c =>
      match keyManager_UnmarshalStore_OpenWithMnemonic ops c mnemonic with
      | Err e => (w, Some e)
      | Ok km => start dbDir km c w
      end
  end.

Definition EthPrivateKey (w : World) : World * str_err :=
  match panthalassaInstance w with
  | None => (w, (EmptyString, Some "you have to start panthalassa"))
  | Some i => (did (Did "km.GetEthereumPrivateKey" i) w, km_GetEthereumPrivateKey ops i)
  end.

Definition EthAddress (w : World) : World * str_err :=
  match panthalassaInstance w with
  | None => (w, (EmptyString, Some "you have to start panthalassa"))
  | Some i => (did (Did "km.GetEthereumAddress" i) w, km_GetEthereumAddress ops i)
  end.

Definition SendResponse (id data responseError : string) (timeout : Z) (w : World)
    : World * option error :=
  match panthalassaInstance w with
  | None => (w, Some "you have to start panthalassa")
  | Some i =>
      match base64_proto_Unmarshal ops data with
      | Err e => (w, Some e)
      | Ok resp =>
          let err :=
            if negb (String.eqb responseError EmptyString) then Some responseError
            else None in
          (did (Did "api.Respond" i) w,
           api_Respond ops i id resp err (timeout * 1000000000))
      end
  end.

(** Export the current account store with given password *)
Definition ExportAccountStore (pw pwConfirm : string) (w : World) : World * str_err :=
  match panthalassaInstance w with
  | None => (w, (EmptyString, Some "you have to start panthalassa"))
  | Some i => (did (Did "Export" i) w, instance_Export ops i pw pwConfirm)
  end.

Definition IdentityPublicKey (w : World) : World * str_err :=
  match panthalassaInstance w with
  | None => (w, (EmptyString, Some "you have to start panthalassa"))
  | Some i => (did (Did "km.IdentityPublicKey" i) w, km_IdentityPublicKey ops i)
  end.

Definition GetMnemonic (w : World) : World * str_err :=
  match panthalassaInstance w with
  | None => (w, (EmptyString, Some "you have to start panthalassa"))
  | Some i => (did (Did "km.GetMnemonic" i) w, (km_GetMnemonic ops i, None))
  end.

Definition SignProfile (name location image : string) (w : World) : World * str_err :=
  match panthalassaInstance w with
  | None => (w, (EmptyString, Some "you have to start panthalassa"))
  | Some i =>
      (did (Did "profile.SignProfile" i) w,
       match profile_SignProfile ops i name location image with
       | Err e => (EmptyString, Some e)
       | Ok encoded => (encoded, None)
       end)
  end.

(** Stop panthalassa *)
Definition Stop (w : World) : World * option error :=
  (* Exit if not started *)
  match panthalassaInstance w with
  | None => (w, Some "you have to start panthalassa in order to stop it")
  | Some i =>
      (* Stop panthalassa; the singleton is reset on either outcome *)
      ({| panthalassaInstance := None; effects := effects w ++ [StopCalled i] |},
       instance_Stop ops i)
  end.

(** fetch the identity public key *)
Definition GetIdentityPublicKey (w : World) : World * str_err :=
  match panthalassaInstance w with
  | None => (w, (EmptyString, Some "you have to start panthalassa first"))
  | Some i => (did (Did "km.IdentityPublicKey" i) w, km_IdentityPublicKey ops i)
  end.

(** connect the host to DApp development server *)
Definition ConnectToDAppDevHost (address : string) (w : World) : World * option error :=
  match panthalassaInstance w with
  | None => (w, Some "you have to start panthalassa first")
  | Some i =>
      match ma_NewMultiaddr ops address with
      | Err e => (w, Some e)
      | Ok maAddr =>
          (did (Did "dAppReg.ConnectDevelopmentServer" i) w,
           dAppReg_ConnectDevelopmentServer ops i maAddr)
      end
  end.

(** the decoding of a DApp signing key that several calls share: the
    hex error first, then the length *)
Definition signing_key (s : string) (bad_length : error) : result bytes :=
  match hex_DecodeString s with
  | (_, Some e) => Err e
  | (dAppSigningKey, None) =>
      if negb (Nat.eqb (length dAppSigningKey) 32) then Err bad_length
      else Ok dAppSigningKey
  end.

Definition OpenDApp (id context : string) (w : World) : World * option error :=
  match panthalassaInstance w with
  | None => (w, Some "you have to start panthalassa first")
  | Some i =>
      match signing_key id "invalid DApp signing key" with
      | Err e => (w, Some e)
      | Ok dAppSigningKey =>
          (did (Did "dAppReg.OpenDApp" i) w,
           dAppReg_OpenDApp ops i dAppSigningKey context)
      end
  end.

Definition StartDApp (dAppSingingKeyStr : string) (timeout : Z) (w : World)
    : World * option error :=
  match panthalassaInstance w with
  | None => (w, Some "you have to start panthalassa first")
  | Some i =>
      match signing_key dAppSingingKeyStr "DApp singing key must be 32 bytes long" with
      | Err e => (w, Some e)
      | Ok dAppSigningKey =>
          (did (Did "dAppReg.StartDApp" i) w,
           dAppReg_StartDApp ops i dAppSigningKey (1000000000 * timeout))
      end
  end.

Definition RenderMessage (signingKey payload : string) (w : World) : World * str_err :=
  match panthalassaInstance w with
  | None => (w, (EmptyString, Some "you have to start panthalassa first"))
  | Some i =>
      match signing_key signingKey "dapp signign key must be 32 bytes long" with
      | Err e => (w, (EmptyString, Some e))
      | Ok dAppSigningKey =>
          (did (Did "dAppReg.RenderMessage" i) w,
           dAppReg_RenderMessage ops i dAppSigningKey payload)
      end
  end.

Definition CallDAppFunction (signingKey : string) (id : Z) (args : string) (w : World)
    : World * option error :=
  (* make sure we get an uint value *)
  if id <? 0 then (w, Some "got negative number but need uint")
  else
    match panthalassaInstance w with
    | None => (w, Some "you have to start panthalassa first")
    | Some i =>
        match signing_key signingKey "dapp signign key must be 32 bytes long" with
        | Err e => (w, Some e)
        | Ok dAppSigningKey =>
            (did (Did "dAppReg.CallFunction" i) w,
             dAppReg_CallFunction ops i dAppSigningKey (Z.to_N id) args)
        end
    end.

Definition StopDApp (dAppSingingKeyStr : string) (w : World) : World * option error :=
  match panthalassaInstance w with
  | None => (w, Some "you have to start panthalassa first")
  | Some i =>
      match signing_key dAppSingingKeyStr "DApp singing key must be 32 bytes long" with
      | Err e => (w, Some e)
      | Ok dAppSigningKey =>
          (did (Did "dAppReg.ShutDown" i) w, dAppReg_ShutDown ops i dAppSigningKey)
      end
  end.

Definition DApps (w : World) : World * str_err :=
  match panthalassaInstance w with
  | None => (w, (EmptyString, Some "you have to start panthalassa first"))
  | Some i =>
      (did (Did "dAppStorage.All" i) w,
       match dAppStorage_All ops i with
       | Err e => (EmptyString, Some e)
       | Ok rawDApps => rawDApps
       end)
  end.

(** *** The API as a whole: one call, and the worlds calls lead to *)

Inductive Call :=
| CallStart (dbDir config password : string)
| CallStartFromMnemonic (dbDir config mnemonic : string)
| CallEthPrivateKey
| CallEthAddress
| CallSendResponse (id data responseError : string) (timeout : Z)
| CallExportAccountStore (pw pwConfirm : string)
| CallIdentityPublicKey
| CallGetMnemonic
| CallSignProfile (name location image : string)
| CallStop
| CallGetIdentityPublicKey
| CallConnectToDAppDevHost (address : string)
| CallOpenDApp (id context : string)
| CallStartDApp (key : string) (timeout : Z)
| CallRenderMessage (signingKey payload : string)
| CallCallDAppFunction (signingKey : string) (id : Z) (args : string)
| CallStopDApp (key : string)
| CallDApps.

Definition starts (c : Call) : bool :=
  match c with
  | CallStart _ _ _ | CallStartFromMnemonic _ _ _ => true
  | _ => false
  end.

Definition only_error (r : World * option error) : World * str_err :=
  (fst r, (EmptyString, snd r)).

(** the new world, and the call's results: its string, empty for the
    calls that return an error only, and its error *)
Definition exec (c : Call) (w : World) : World * str_err :=
  match c with
  | CallStart dbDir config password => only_error (Start dbDir config password w)
  | CallStartFromMnemonic dbDir config mnemonic =>
      only_error (StartFromMnemonic dbDir config mnemonic w)
  | CallEthPrivateKey => EthPrivateKey w
  | CallEthAddress => EthAddress w
  | CallSendResponse id data responseError timeout =>
      only_error (SendResponse id data responseError timeout w)
  | CallExportAccountStore pw pwConfirm => ExportAccountStore pw pwConfirm w
  | CallIdentityPublicKey => IdentityPublicKey w
  | CallGetMnemonic => GetMnemonic w
  | CallSignProfile name location image => SignProfile name location image w
  | CallStop => only_error (Stop w)
  | CallGetIdentityPublicKey => GetIdentityPublicKey w
  | CallConnectToDAppDevHost address => only_error (ConnectToDAppDevHost address w)
  | CallOpenDApp id context => only_error (OpenDApp id context w)
  | CallStartDApp key timeout => only_error (StartDApp key timeout w)
  | CallRenderMessage signingKey payload => RenderMessage signingKey payload w
  | CallCallDAppFunction signingKey id args =>
      only_error (CallDAppFunction signingKey id args w)
  | CallStopDApp key => only_error (StopDApp key w)
  | CallDApps => DApps w
  end.

(** the worlds a process can be in: any sequence of API calls from the
    state the package is loaded in *)
Inductive reachable : World -> Prop :=
| reachable_initial : reachable initial
| reachable_exec (c : Call) (w : World) :
    reachable w -> reachable (fst (exec c w)).

(** instances built and not yet given to [Stop], counted off the trace *)
Fixpoint live (es : list Effect) (n : nat) : nat :=
  match es with
  | [] => n
  | Created _ :: es' => live es' (S n)
  | StopCalled _ :: es' => live es' (Nat.pred n)
  | _ :: es' => live es' n
  end.

Definition live_instances (w : World) : nat := live (effects w) 0.

End Singleton.

Arguments SetDebugLogging {Instance}.
Arguments Created {Instance} i.
Arguments StopCalled {Instance} i.
Arguments Did {Instance} op i.
Arguments panthalassaInstance {Instance} w.
Arguments effects {Instance} w.
Arguments initial {Instance}.
Arguments did {Instance} e w.
Arguments start {KeyManager Instance Response Multiaddr} ops dbDir km config w.
Arguments Stop {KeyManager Instance Response Multiaddr} ops w.
Arguments exec {KeyManager Instance Response Multiaddr} ops c w.
Arguments reachable {KeyManager Instance Response Multiaddr} ops w.
Arguments reachable_initial {KeyManager Instance Response Multiaddr} ops.
Arguments reachable_exec {KeyManager Instance Response Multiaddr} ops c w _.
Arguments live {Instance} es n.
Arguments live_instances {Instance} w.

End panthalassa.

(** ** Package device_api: calls to the device and their answers *)

Module device_api.

Record apiCall := {
  Type_ : string;
  Id : N;
  Data : string
}.

Record rawResponse := {
  raw_Error : string;
  raw_Payload : string
}.

(** [Response], without its closer channel *)
Record Response := {
  Error : option error;
  Payload : string
}.

(** an [rpc.JsonRPCCall], by what its three methods answer *)
Record JsonRPCCall := {
  call_Type : string;
  call_Data : result string;
  call_Valid : option error
}.

(** a response channel, named by the number it was made with *)
Definition chan := nat.

Section Api.

(** [a.state], with its two methods, which are not among the sources *)
Variable State : Type.
Variable state_Add : State -> chan -> State * N.
Variable state_Cut : State -> N -> State * result chan.
(** [c.Marshal()], [json.Unmarshal] into a [rawResponse] and
    [valid.ValidateStruct] *)
Variable apiCall_Marshal : apiCall -> result string.
Variable json_Unmarshal : string -> result rawResponse.
Variable valid_ValidateStruct : rawResponse -> option error.

Record Api := {
  state : State;
  (* the number of channels made so far *)
  made : chan;
  (* what was given to [a.device.Send], oldest first *)
  device : list string
}.

(** Send a call to the api *)
Definition Send (a : Api) (call : JsonRPCCall) : Api * result chan :=
  (* Validate call *)
  match call_Valid call with
  | Some e => (a, Err e)
  | None =>
      (* Get call data *)
      match call_Data call with
      | Err e => (a, Err e)
      | Ok callContent =>
          (* Create internal representation *)
          let respChan := made a in
          let '(st, id) := state_Add (state a) respChan in
          let c := {| Type_ := call_Type call; Id := id; Data := callContent |} in
          (* Marshal the call data *)
          match apiCall_Marshal c with
          | Err e => ({| state := st; made := S (made a); device := device a |}, Err e)
          | Ok callData =>
              (* Send json rpc call to device *)
              ({| state := st; made := S (made a);
                  device := device a ++ [callData] |}, Ok respChan)
          end
      end
  end.

(** [Receive]: the new state, the response put on a channel if one was,
    and the result, which on a delivered response is what the receiver
    gives to the closer, [closer_reply] *)
Definition Receive (a : Api) (id : N) (data : string) (closer_reply : option error)
    : Api * option (chan * Response) * option error :=
  (* get the response channel *)
  match state_Cut (state a) id with
  | (st, Err e) => ({| state := st; made := made a; device := device a |}, None, Some e)
  | (st, Ok resp) =>
      let a' := {| state := st; made := made a; device := device a |} in
      (* decode raw response *)
      match json_Unmarshal data with
      | Err e => (a', None, Some e)
      | Ok rr =>
          (* validate raw response *)
          match valid_ValidateStruct rr with
          | Some e => (a', None, Some e)
          | None =>
              (* construct response *)
              let r :=
                {| Error :=
                     if negb (String.eqb (raw_Error rr) EmptyString)
                     then Some (raw_Error rr) else None;
                   Payload := raw_Payload rr |} in
              (* send response to response channel *)
              (a', Some (resp, r), closer_reply)
          end
      end
  end.

End Api.

Arguments Build_Api {State}.
Arguments state {State} a.
Arguments made {State} a.
Arguments device {State} a.
Arguments Send {State} state_Add apiCall_Marshal a call.
Arguments Receive {State} state_Cut json_Unmarshal valid_ValidateStruct a id data
  closer_reply.

End device_api.

(** ** Package dapp: the DApp storage *)

Module dapp.

Section Storage.

(** a [JsonBuild], by the parts of it the storage reads *)
Variable JsonBuild : Type.
Variable Version : JsonBuild -> Z.
Variable UsedSigningKey : JsonBuild -> bytes.
Variable VerifySignature : JsonBuild -> result bool.
(** the stored form, with [json.Marshal] and [json.Unmarshal] *)
Variable raw : Type.
Variable json_Marshal : JsonBuild -> result raw.
Variable json_Unmarshal : raw -> result JsonBuild.
(** whether a value is above bolt's [MaxValueSize] *)
Variable value_too_large : raw -> bool.

(** the bolt file: the [dapps] bucket, if created *)
Record DB := {
  dapps : option (db.Bucket raw)
}.

(** [Bucket.Put] in a writable transaction: the checks bolt makes on
    the key and the value before it writes *)
Definition bolt_Put (b : db.Bucket raw) (key : bytes) (value : raw)
    : result (db.Bucket raw) :=
  if Nat.eqb (length key) 0 then Err "key required"
  else if (32768 <? N.of_nat (length key))%N then Err "key too large"
  else if value_too_large value then Err "value too large"
  else Ok (db.bucket_Put b key value).

(** The second component is the error, the third the signing keys
    announced to the UI as [DAPP:PERSISTED] when the transaction commits. *)
Definition SaveDApp (d : DB) (dApp : JsonBuild) : DB * option error * list string :=
  if Version dApp <? 1 then (d, Some "version must be at least 1", [])
  else
    match VerifySignature dApp with
    | Err e => (d, Some e, [])
    | Ok false =>
        (d, Some ("invalid signature for DApp: "
                  +:+ hex_EncodeToString (UsedSigningKey dApp)), [])
    | Ok true =>
        (* fetch dApp storage bucket *)
        let dAppStorageBucket := default [] (dapps d) in
        (* marshal dApp *)
        match json_Marshal dApp with
        | Err e => (d, Some e, [])
        | Ok rawDApp =>
            (* persist dApp *)
            match bolt_Put dAppStorageBucket (UsedSigningKey dApp) rawDApp with
            | Err e => (d, Some e, [])
            | Ok b =>
                ({| dapps := Some b |}, None,
                 [hex_EncodeToString (UsedSigningKey dApp)])
            end
        end
    end.

(** [dAppStorage.ForEach]: the builds decoded so far, and the error
    that stopped the walk if one did *)
Fixpoint decode_each (records : db.Bucket raw) (dApps : list JsonBuild)
    : list JsonBuild * option error :=
  match records with
  | [] => (dApps, None)
  | (_, rawDApp) :: rest =>
      match json_Unmarshal rawDApp with
      | Err e => (dApps, Some e)
      | Ok d => decode_each rest (dApps ++ [d])
      end
  end.

Definition All (d : DB) : list JsonBuild * option error :=
  match dapps d with
  | None => ([], None)
  | Some dAppStorage => decode_each dAppStorage []
  end.

End Storage.

Arguments Build_DB {raw}.
Arguments dapps {raw} d.
Arguments bolt_Put {raw} value_too_large b key value.
Arguments SaveDApp {JsonBuild} Version UsedSigningKey VerifySignature {raw}
  json_Marshal value_too_large d dApp.
Arguments decode_each {JsonBuild raw} json_Unmarshal records dApps.
Arguments All {JsonBuild raw} json_Unmarshal d.

End dapp.

(** ** Package scrypt: password-based encryption *)

Module scrypt.

Definition n : Z := 16384.
Definition r : Z := 8.
Definition p : Z := 1.
Definition saltLength : nat := 50.
Definition keyLength : Z := 32.

Record Key := {
  N_ : Z;
  R : Z;
  P : Z;
  KeyLen : Z;
  Salt : bytes;
  key : bytes
}.

Definition Key_zero : Key :=
  {| N_ := 0; R := 0; P := 0; KeyLen := 0; Salt := []; key := make_bytes 32 |}.

Section Cipher.

(** an [aes.CipherText], with its zero value *)
Variable aesCipherText : Type.
Variable aesCipherText_zero : aesCipherText.
(** [rand.Read] on a slice of the given length, [scrypt.Key],
    [aes.Encrypt], whose cipher text comes back next to its error, and
    [aes.Decrypt] *)
Variable rand_Read : nat -> result bytes.
Variable scrypt_Key : bytes -> bytes -> Z -> Z -> Z -> Z -> result bytes.
Variable aes_Encrypt : bytes -> bytes -> aesCipherText * option error.
Variable aes_Decrypt : aesCipherText -> bytes -> result bytes.
(** [key[:32]] of a slice shorter than 32 bytes: the bytes of its
    backing array, or a panic past its capacity *)
Variable beyond_length : bytes -> chat.outcome bytes.

Record CipherText := {
  CipherText_ : aesCipherText;
  ScryptKey : Key
}.

(** derives a key from password *)
Definition makeScryptKey (pw : bytes) : result Key :=
  (* create salt for scrypt *)
  match rand_Read saltLength with
  | Err e => Err e
  | Ok salt =>
      (* derive new key *)
      match scrypt_Key pw salt n r p keyLength with
      | Err e => Err e
      | Ok derived =>
          if negb (Nat.eqb (length derived) 32) then
            Err "key must be of length 32 in order to be used with AES"
          else
            Ok {| N_ := n; R := r; P := p; KeyLen := keyLength; Salt := salt;
                  key := copy_into 32 derived |}
      end
  end.

(** Create new ScryptCipherText; the error of [aes.Encrypt] is assigned
    and not looked at *)
Definition NewCipherText (plainText password : bytes) : result CipherText :=
  match makeScryptKey password with
  | Err e => Err e
  | Ok derivedKey =>
      let '(cipherText, _) := aes_Encrypt plainText (key derivedKey) in
      Ok {| CipherText_ := cipherText; ScryptKey := derivedKey |}
  end.

(** decrypt scrypt cipher *)
Definition DecryptCipherText (cipherText : CipherText) (password : bytes)
    : chat.outcome (result bytes) :=
  match scrypt_Key password (Salt (ScryptKey cipherText)) (N_ (ScryptKey cipherText))
          (R (ScryptKey cipherText)) (P (ScryptKey cipherText))
          (KeyLen (ScryptKey cipherText)) with
  | Err e => chat.Returned (Err e)
  | Ok derived =>
      match (if (32 <=? length derived)%nat then chat.Returned (firstn 32 derived)
             else beyond_length derived) with
      | chat.Panicked => chat.Panicked
      | chat.Returned first32 =>
          chat.Returned (aes_Decrypt (CipherText_ cipherText) (copy_into 32 first32))
      end
  end.

End Cipher.

Arguments Build_CipherText {aesCipherText}.
Arguments CipherText_ {aesCipherText} c.
Arguments ScryptKey {aesCipherText} c.
Arguments NewCipherText {aesCipherText} rand_Read scrypt_Key aes_Encrypt
  plainText password.
Arguments DecryptCipherText {aesCipherText} scrypt_Key aes_Decrypt beyond_length
  cipherText password.

End scrypt.

(** * Sample inputs *)

Module samples.

(** a nanosecond time stamp, above the int32 bound *)
Definition T0 : Z := 1540944000000000000.

Definition partner : bytes := repeat 7 32.

Definition received (id : string) (createdAt : Z) : db.Message :=
  {| db.ID := id; db.Version := 0%N; db.Status_ := 0%N; db.Received := false;
     db.DApp := None; db.Message_ := [104; 105]; db.CreatedAt := createdAt;
     db.Sender := repeat 1 32; db.DatabaseID := 0 |}.

(** a codec that stores the record itself *)
Definition seal (m : db.Message) : result db.Message := Ok m.

Definition decRawMsg (o : option db.Message) : result db.Message :=
  match o with
  | Some m => Ok m
  | None => Err "unexpected end of JSON input"
  end.

Definition persisted (d : db.DB db.Message) (id : string) (createdAt : Z)
    : db.DB db.Message :=
  fst (fst (db.PersistReceivedMessage seal d partner (received id createdAt))).

(** three messages of one partner, at T0, T0 + 5 and T0 + 9 *)
Definition three_messages : db.DB db.Message :=
  persisted (persisted (persisted db.empty_DB "a" T0) "b" (T0 + 5)) "c" (T0 + 9).

(** the backend side: a chain of two handlers in the manner of
    [chat.messagesHandler] and [chat.oneTimePreKeysHandler], and a
    request that carries both a batch and a pre-key count *)
Definition chat_message : bpb.ChatMessage :=
  {| bpb.MessageID := [1]; bpb.Receiver := repeat 2 32; bpb.Message := None;
     bpb.Sender := partner; bpb.OneTimePreKey := []; bpb.SignedPreKey := [];
     bpb.SenderChatIDKey := []; bpb.SenderChatIDKeySignature := [];
     bpb.EphemeralKey := []; bpb.EphemeralKeySignature := [] |}.

Definition a_pre_key : bpb.PreKey :=
  {| bpb.Key := repeat 9 32; bpb.IdentityKey := repeat 1 32;
     bpb.IdentityKeySignature := repeat 3 64; bpb.TimeStamp := T0 |}.

Definition batch_response : bpb.BackendMessage_Response :=
  {| bpb.OneTimePrekeys := []; bpb.Auth := None |}.

Definition pre_key_response : bpb.BackendMessage_Response :=
  {| bpb.OneTimePrekeys := [a_pre_key]; bpb.Auth := None |}.

Definition batch_handler : backend.RequestHandler :=
  fun req =>
    match bpb.Messages req with
    | [] => Ok None
    | _ => Ok (Some batch_response)
    end.

Definition pre_key_handler : backend.RequestHandler :=
  fun req =>
    if N.eqb (bpb.NewOneTimePreKeys req) 0 then Ok None
    else Ok (Some pre_key_response).

Definition transport_ok (m : bpb.BackendMessage) : option error := None.

Definition two_handlers : backend.Backend :=
  {| backend.stack := ∅;
     backend.requestHandler := [batch_handler; pre_key_handler];
     backend.authenticated := true |}.

Definition batch_and_count : bpb.BackendMessage_Request :=
  {| bpb.Messages := [chat_message]; bpb.NewOneTimePreKeys := 1 |}.

Definition inbound_request : bpb.BackendMessage :=
  {| bpb.RequestID := "42"; bpb.Request := Some batch_and_count;
     bpb.Response := None; bpb.Error := EmptyString |}.

Definition answer (r : bpb.BackendMessage_Response) : bpb.BackendMessage :=
  {| bpb.RequestID := "42"; bpb.Request := None; bpb.Response := Some r;
     bpb.Error := EmptyString |}.

Definition dual_envelope : bpb.BackendMessage :=
  {| bpb.RequestID := "42"; bpb.Request := Some batch_and_count;
     bpb.Response := Some batch_response; bpb.Error := EmptyString |}.

Definition unmatched_response : bpb.BackendMessage :=
  {| bpb.RequestID := "77"; bpb.Request := None;
     bpb.Response := Some batch_response; bpb.Error := EmptyString |}.

(** the handshake: an initialisation message whose sender left both the
    identity key and the ratchet header unset, and a complete one *)
Definition ephemeral_hex : string := hex_EncodeToString (repeat 1 32).

Definition initialisation (typ : string) (data : gmap string string) (dh : bytes)
    (idPubKey : string) : chat.Message :=
  {| chat.Type_ := typ; chat.UsedSecretRef := "00"; chat.AdditionalData := data;
     chat.DoubleratchetMessage :=
       {| dr.Header := {| dr.DH := dh; dr.N_ := 0%N; dr.PN := 0%N |};
          dr.Ciphertext := [104; 105] |};
     chat.IDPubKey := idPubKey; chat.Receiver := hex_EncodeToString partner |}.

Definition anonymous_initialisation : chat.Message :=
  initialisation "PROTOCOL_INITIALISATION" {["ephemeral_key" := ephemeral_hex]}
    (make_bytes 32) EmptyString.

Definition complete_initialisation : chat.Message :=
  initialisation "PROTOCOL_INITIALISATION" {["ephemeral_key" := ephemeral_hex]}
    (repeat 4 32) (hex_EncodeToString (repeat 4 32)).

Definition mistyped_initialisation : chat.Message :=
  initialisation "MESSAGE" {["ephemeral_key" := ephemeral_hex]}
    (repeat 4 32) (hex_EncodeToString (repeat 4 32)).

Definition keyless_initialisation : chat.Message :=
  initialisation "PROTOCOL_INITIALISATION" ∅
    (repeat 4 32) (hex_EncodeToString (repeat 4 32)).

Definition garbled_initialisation : chat.Message :=
  initialisation "PROTOCOL_INITIALISATION" {["ephemeral_key" := "zz"]}
    (repeat 4 32) (hex_EncodeToString (repeat 4 32)).

Definition private_bundle : chat.PreKeyBundlePrivate :=
  {| chat.OneTimePreKey := repeat 5 32; chat.SignedPreKey := repeat 6 32 |}.

Definition agreement (init : x3dh.ProtocolInitialisation) : result bytes :=
  Ok (repeat 8 32).

(** the pre-key handler: a counter for entropy, a list for the pool *)
Definition GenerateKeyPair (g : nat) : nat * result x3dh.KeyPair :=
  (S g, Ok {| x3dh.PublicKey := repeat (Z.of_nat (S g)) 32;
              x3dh.PrivateKey := repeat (Z.of_nat g) 32 |}).

Definition pool_Put (p : list x3dh.KeyPair) (keyPairs : list x3dh.KeyPair)
    : list x3dh.KeyPair * option error :=
  (p ++ keyPairs, None).

Definition Sign (pk : prekey.PreKey) : result prekey.PreKey :=
  Ok {| prekey.PublicKey := prekey.PublicKey pk;
        prekey.identityPublicKey := repeat 1 32;
        prekey.signature := repeat 3 64; prekey.time := T0 |}.

Definition ToProtobuf (pk : prekey.PreKey) : result bpb.PreKey :=
  Ok {| bpb.Key := prekey.PublicKey pk;
        bpb.IdentityKey := prekey.identityPublicKey pk;
        bpb.IdentityKeySignature := prekey.signature pk;
        bpb.TimeStamp := prekey.time pk |}.

Definition replenish (n : N) : bpb.BackendMessage_Request :=
  {| bpb.Messages := []; bpb.NewOneTimePreKeys := n |}.

(** the coordinator: a first message to a partner, every collaborator
    answering, but for the identity key, which refuses to sign; the
    message store keeps the updates it is given *)
Definition plain_message : chat.PlainChatMessage :=
  {| chat.MessageID := "m-1"; chat.PlainMessage := [104; 105];
     chat.SharedSecretBaseID := []; chat.SharedSecretCreationDate := 0 |}.

Definition status_log := list chat.StatusUpdate.

Definition keeping_UpdateStatus (m : status_log) (partner : bytes) (msgID : string)
    (newStatus : db.Status) : status_log * option error :=
  (m ++ [{| chat.su_partner := partner; chat.su_msgID := msgID;
            chat.su_status := newStatus |}], None).

Definition signing_refused : chat.Deps unit status_log unit unit :=
  {| chat.messageDB_UpdateStatus := keeping_UpdateStatus;
     chat.sharedSecStorage_HasAny := fun _ w => (w, Ok false);
     chat.sharedSecStorage_Put := fun _ _ w => (w, None);
     chat.sharedSecStorage_GetYoungest :=
       fun _ w => (w, Err "no shared secret for partner");
     chat.backend_FetchPreKeyBundle := fun _ w => (w, Ok tt);
     chat.backend_SubmitMessage := fun _ w => (w, None);
     chat.x3dh_CalculateSecret :=
       fun _ w => (w, Ok {| x3dh.SharedSecret := repeat 8 32;
                            x3dh.UsedOneTimePreKey := None;
                            x3dh.UsedSignedPreKey := repeat 6 32;
                            x3dh.EphemeralKey := repeat 1 32 |});
     chat.km_IdentitySign := fun _ w => (w, Err "identity key is locked");
     chat.km_IdentityPublicKey := fun w => (w, Ok (hex_EncodeToString (repeat 4 32)));
     chat.km_ChatIdKeyPair :=
       fun w => (w, Ok {| x3dh.PublicKey := repeat 4 32;
                          x3dh.PrivateKey := repeat 5 32 |});
     chat.rand_Read := fun n w => (w, Ok (repeat 3 n));
     chat.time_Now := fun w => (w, T0);
     chat.userStorage_HasSignedPreKey := fun _ w => (w, Ok true);
     chat.userStorage_GetSignedPreKey :=
       fun _ w => (w, Ok {| prekey.PublicKey := repeat 6 32;
                            prekey.identityPublicKey := partner;
                            prekey.signature := repeat 3 64; prekey.time := T0 |});
     chat.refreshSignedPreKey := fun _ w => (w, None);
     chat.VerifySignature := fun _ _ => Ok true;
     chat.OlderThan := fun _ w => (w, false);
     chat.dr_NewWithRemoteKey := fun _ _ => Ok tt;
     chat.RatchetEncrypt :=
       fun _ plain => {| dr.Header := {| dr.DH := repeat 4 32; dr.N_ := 0%N;
                                         dr.PN := 0%N |};
                         dr.Ciphertext := plain |};
     chat.proto_Marshal := fun m => Ok (chat.PlainMessage m) |}.

(** the key stores: a request nobody answers in time, a device that
    cannot be reached, a payload that is not JSON *)
Definition request_times_out (req : api.Request) (timeout : Z) (w : unit)
    : unit * result api.Response :=
  (w, Err "request timed out").

Definition no_cipher (b : bytes) : result bytes := Err "invalid cipher text".

Definition device_unreachable (call : client.Call) (w : unit)
    : unit * result client.Response :=
  (w, Err "invalid call").

Definition garbled (payload : string) : client.DRKeyStoreGetResponse * option error :=
  ({| client.Key := dr_Key_zero; client.Ok_ := false |},
   Some "unexpected end of JSON input").

(** a device that answers, and a decoder that returns a key beside
    its error *)
Definition device_answers (call : client.Call) (w : unit)
    : unit * result client.Response :=
  (w, Ok {| client.Error := None; client.Payload := "{" |}).

Definition leaky (payload : string) : client.DRKeyStoreGetResponse * option error :=
  ({| client.Key := repeat 7 32; client.Ok_ := true |},
   Some "unexpected end of JSON input").

(** the process API: packages that always succeed, an instance named
    by a number *)
Definition config : panthalassa.StartConfig :=
  {| panthalassa.EncryptedKeyManager := "{}"; panthalassa.SignedProfile := "p";
     panthalassa.EthWsEndpoint := "ws://eth";
     panthalassa.EnableDebugging := true;
     panthalassa.PrivChatEndpoint := "ws://chat";
     panthalassa.PrivChatBearerToken := "t" |}.

Definition willing : panthalassa.Ops unit nat unit unit :=
  {| panthalassa.json_Unmarshal_config := fun _ => Ok config;
     panthalassa.keyManager_UnmarshalStore_OpenWithPassword := fun _ _ => Ok tt;
     panthalassa.keyManager_UnmarshalStore_OpenWithMnemonic := fun _ _ => Ok tt;
     panthalassa.construct := fun _ _ _ => Ok 1%nat;
     panthalassa.instance_Stop := fun _ => None;
     panthalassa.instance_Export := fun _ _ _ => ("store", None);
     panthalassa.km_GetEthereumPrivateKey := fun _ => ("key", None);
     panthalassa.km_GetEthereumAddress := fun _ => ("address", None);
     panthalassa.km_IdentityPublicKey := fun _ => ("identity", None);
     panthalassa.km_GetMnemonic := fun _ => "mnemonic";
     panthalassa.base64_proto_Unmarshal := fun _ => Ok tt;
     panthalassa.api_Respond := fun _ _ _ _ _ => None;
     panthalassa.profile_SignProfile := fun _ _ _ _ => Ok "profile";
     panthalassa.ma_NewMultiaddr := fun _ => Ok tt;
     panthalassa.dAppReg_ConnectDevelopmentServer := fun _ _ => None;
     panthalassa.dAppReg_OpenDApp := fun _ _ _ => None;
     panthalassa.dAppReg_StartDApp := fun _ _ _ => None;
     panthalassa.dAppReg_RenderMessage := fun _ _ _ => ("layout", None);
     panthalassa.dAppReg_CallFunction := fun _ _ _ _ => None;
     panthalassa.dAppReg_ShutDown := fun _ _ => None;
     panthalassa.dAppStorage_All := fun _ => Ok ("[]", None) |}.

(** the world after a first successful Start *)
Definition started : panthalassa.World nat :=
  fst (panthalassa.exec willing (panthalassa.CallStart "dir" "{}" "pw")
         panthalassa.initial).

(** a backend that waits for the answer to request 77 on channel 3,
    and the authentication confirmation that answers it *)
Definition waiting : backend.Backend :=
  {| backend.stack := {["77" := 3%nat]};
     backend.requestHandler := [batch_handler; pre_key_handler];
     backend.authenticated := false |}.

Definition auth_response : bpb.BackendMessage_Response :=
  {| bpb.OneTimePrekeys := []; bpb.Auth := Some {| bpb.ToSign := [1; 2] |} |}.

Definition auth_confirmation : bpb.BackendMessage :=
  {| bpb.RequestID := "77"; bpb.Request := None;
     bpb.Response := Some auth_response; bpb.Error := EmptyString |}.

(** a handler that refuses every request *)
Definition refusing_handler : backend.RequestHandler :=
  fun _ => Err "not allowed".

Definition batch_only : bpb.BackendMessage_Request :=
  {| bpb.Messages := [chat_message]; bpb.NewOneTimePreKeys := 0 |}.

Definition batch_request : bpb.BackendMessage :=
  {| bpb.RequestID := "43"; bpb.Request := Some batch_only;
     bpb.Response := None; bpb.Error := EmptyString |}.

(** the message store: one message of the partner at T0; a message
    received later than the three, the record it is stored as and the
    event that announces it *)
Definition one_message : db.DB db.Message := persisted db.empty_DB "a" T0.

Definition later : db.Message :=
  db.set_Status_Received db.StatusPersisted true (received "d" (T0 + 20)).

Definition later_stored : db.Message :=
  db.set_DatabaseID (T0 + 20) (db.set_Version 1%N later).

Definition later_event : db.MessagePersistedEvent :=
  {| db.Partner := partner; db.EvMessage := later_stored;
     db.DBMessageID := T0 + 20 |}.

Definition four_messages : db.DB db.Message := persisted three_messages "d" (T0 + 20).

Definition three_records : db.Bucket db.Message :=
  default [] (db.partner_bucket three_messages partner).

(** a message received at the instant of the first one *)
Definition same_instant : db.Message :=
  db.set_Status_Received db.StatusPersisted true (received "b" T0).

(** the record the second of the three messages is stored as *)
Definition second_stored : db.Message :=
  db.set_DatabaseID (T0 + 5)
    (db.set_Version 1%N
       (db.set_Status_Received db.StatusPersisted true (received "b" (T0 + 5)))).

(** the handshake of a first contact: an agreement that used a one-time
    pre-key, and one that used none *)
Definition initial_protocol : x3dh.InitializedProtocol :=
  {| x3dh.SharedSecret := repeat 8 32; x3dh.UsedOneTimePreKey := Some (repeat 5 32);
     x3dh.UsedSignedPreKey := repeat 6 32; x3dh.EphemeralKey := repeat 1 32 |}.

Definition bare_protocol : x3dh.InitializedProtocol :=
  {| x3dh.SharedSecret := repeat 8 32; x3dh.UsedOneTimePreKey := None;
     x3dh.UsedSignedPreKey := repeat 6 32; x3dh.EphemeralKey := repeat 1 32 |}.

Definition entropy (n : nat) : result bytes := Ok (repeat 3 n).

Definition greeting_cipher (secret plain : bytes) : result dr.Message :=
  Ok {| dr.Header := {| dr.DH := repeat 4 32; dr.N_ := 0%N; dr.PN := 0%N |};
        dr.Ciphertext := plain |}.

Definition my_identity : result string := Ok (hex_EncodeToString (repeat 4 32)).

Definition signs (m : chat.Message) : option error := None.

Definition first_message : chat.Message :=
  {| chat.Type_ := "PROTOCOL_INITIALISATION";
     chat.UsedSecretRef := hex_EncodeToString (repeat 3 16);
     chat.AdditionalData :=
       <["used_one_time_pre_key" := hex_EncodeToString (repeat 5 32)]>
         (<["used_signed_pre_key" := hex_EncodeToString (repeat 6 32)]>
            (<["ephemeral_key" := hex_EncodeToString (repeat 1 32)]> ∅));
     chat.DoubleratchetMessage :=
       {| dr.Header := {| dr.DH := repeat 4 32; dr.N_ := 0%N; dr.PN := 0%N |};
          dr.Ciphertext := [104; 105] |};
     chat.IDPubKey := hex_EncodeToString (repeat 4 32);
     chat.Receiver := hex_EncodeToString partner |}.

Definition first_initialisation : x3dh.ProtocolInitialisation :=
  {| x3dh.RemoteIdKey := repeat 4 32; x3dh.RemoteEphemeralKey := repeat 1 32;
     x3dh.MyOneTimePreKey := Some (repeat 5 32);
     x3dh.MySignedPreKey := repeat 6 32 |}.

(** the answer of the pre-key handler to a request for two keys *)
Definition two_pairs : list x3dh.KeyPair :=
  [{| x3dh.PublicKey := repeat 1 32; x3dh.PrivateKey := repeat 0 32 |};
   {| x3dh.PublicKey := repeat 2 32; x3dh.PrivateKey := repeat 1 32 |}].

Definition two_pre_keys : bpb.BackendMessage_Response :=
  {| bpb.OneTimePrekeys :=
       [{| bpb.Key := repeat 1 32; bpb.IdentityKey := repeat 1 32;
           bpb.IdentityKeySignature := repeat 3 64; bpb.TimeStamp := T0 |};
        {| bpb.Key := repeat 2 32; bpb.IdentityKey := repeat 1 32;
           bpb.IdentityKeySignature := repeat 3 64; bpb.TimeStamp := T0 |}];
     bpb.Auth := None |}.

(** the coordinator with an identity key that signs *)
Definition signing : chat.Deps unit status_log unit unit :=
  {| chat.messageDB_UpdateStatus := keeping_UpdateStatus;
     chat.sharedSecStorage_HasAny := chat.sharedSecStorage_HasAny _ _ _ _ signing_refused;
     chat.sharedSecStorage_Put := chat.sharedSecStorage_Put _ _ _ _ signing_refused;
     chat.sharedSecStorage_GetYoungest :=
       fun _ w => (w, Ok {| chat.X3dhSS := repeat 8 32; chat.Accepted := false;
                            chat.CreatedAt := 0;
                            chat.UsedOneTimePreKey := Some (repeat 5 32);
                            chat.UsedSignedPreKey := repeat 6 32;
                            chat.EphemeralKey := repeat 1 32;
                            chat.EphemeralKeySignature := repeat 3 64;
                            chat.BaseID := repeat 3 32 |});
     chat.backend_FetchPreKeyBundle :=
       chat.backend_FetchPreKeyBundle _ _ _ _ signing_refused;
     chat.backend_SubmitMessage := chat.backend_SubmitMessage _ _ _ _ signing_refused;
     chat.x3dh_CalculateSecret := fun _ w => (w, Ok initial_protocol);
     chat.km_IdentitySign := fun _ w => (w, Ok (repeat 3 64));
     chat.km_IdentityPublicKey := chat.km_IdentityPublicKey _ _ _ _ signing_refused;
     chat.km_ChatIdKeyPair := chat.km_ChatIdKeyPair _ _ _ _ signing_refused;
     chat.rand_Read := chat.rand_Read _ _ _ _ signing_refused;
     chat.time_Now := chat.time_Now _ _ _ _ signing_refused;
     chat.userStorage_HasSignedPreKey :=
       chat.userStorage_HasSignedPreKey _ _ _ _ signing_refused;
     chat.userStorage_GetSignedPreKey :=
       chat.userStorage_GetSignedPreKey _ _ _ _ signing_refused;
     chat.refreshSignedPreKey := chat.refreshSignedPreKey _ _ _ _ signing_refused;
     chat.VerifySignature := chat.VerifySignature _ _ _ _ signing_refused;
     chat.OlderThan := chat.OlderThan _ _ _ _ signing_refused;
     chat.dr_NewWithRemoteKey := chat.dr_NewWithRemoteKey _ _ _ _ signing_refused;
     chat.RatchetEncrypt := chat.RatchetEncrypt _ _ _ _ signing_refused;
     chat.proto_Marshal := chat.proto_Marshal _ _ _ _ signing_refused |}.

(** a pool that cannot be written *)
Definition pool_full (p : list x3dh.KeyPair) (keyPairs : list x3dh.KeyPair)
    : list x3dh.KeyPair * option error :=
  (p, Some "disk full").

(** a key server that keeps the last cipher text put, a cipher that
    reverses, a wire form that prefixes a zero *)
Definition key_server (req : api.Request) (timeout : Z) (w : option bytes)
    : option bytes * result api.Response :=
  match req with
  | api.DRKeyStorePut _ _ key =>
      (Some key, Ok {| api.DRKeyStoreGet_MessageKey := [];
                       api.DRKeyStoreCount_Count := 0%N |})
  | api.DRKeyStoreGet _ _ =>
      (w, Ok {| api.DRKeyStoreGet_MessageKey := default [] w;
                api.DRKeyStoreCount_Count := 0%N |})
  | _ => (w, Err "not served")
  end.

Definition reversing (b : bytes) : result bytes := Ok (rev b).

Definition framing (b : bytes) : result bytes := Ok (0 :: b).

Definition unframing (b : bytes) : result bytes :=
  match b with
  | 0 :: b' => Ok b'
  | _ => Err "invalid cipher text"
  end.

Definition message_key : bytes := repeat 9 32.

(** the device API: a table of waiting channels, a call, an answer *)
Definition table : Type := list (N * device_api.chan).

Definition table_Add (st : table) (c : device_api.chan) : table * N :=
  (st ++ [(N.of_nat (length st), c)], N.of_nat (length st)).

Definition table_Cut (st : table) (id : N) : table * result device_api.chan :=
  match List.find (fun e => N.eqb (fst e) id) st with
  | Some (_, c) => (List.filter (fun e => negb (N.eqb (fst e) id)) st, Ok c)
  | None => (st, Err "a request channel for this id does not exist")
  end.

Definition call_Marshal (c : device_api.apiCall) : result string :=
  Ok (device_api.Type_ c +:+ ":" +:+ device_api.Data c).

Definition answer_Unmarshal (data : string) : result device_api.rawResponse :=
  if String.eqb data EmptyString then Err "unexpected end of JSON input"
  else Ok {| device_api.raw_Error := EmptyString; device_api.raw_Payload := data |}.

Definition any_answer (rr : device_api.rawResponse) : option error := None.

Definition idle : device_api.Api table :=
  {| device_api.state := []; device_api.made := 0%nat; device_api.device := [] |}.

Definition get_call : device_api.JsonRPCCall :=
  {| device_api.call_Type := "DR:KEY_STORE:GET"; device_api.call_Data := Ok "{}";
     device_api.call_Valid := None |}.

Definition asked : device_api.Api table :=
  fst (device_api.Send table_Add call_Marshal idle get_call).

(** the DApp storage: a build by its version and signing key, stored as
    it is; a record that holds no build does not decode *)
Definition build : Type := (Z * bytes)%type.

Definition signed_ok (b : build) : result bool := Ok true.

Definition build_Marshal (b : build) : result (option build) := Ok (Some b).

Definition build_Unmarshal (r : option build) : result build :=
  match r with
  | Some b => Ok b
  | None => Err "unexpected end of JSON input"
  end.

Definition fits (r : option build) : bool := false.

Definition a_build : build := (1, repeat 9 32).

Definition no_dapps : dapp.DB (option build) := {| dapp.dapps := None |}.

Definition one_dapp : dapp.DB (option build) :=
  fst (fst (dapp.SaveDApp fst snd signed_ok build_Marshal fits no_dapps a_build)).

Definition damaged : dapp.DB (option build) :=
  {| dapp.dapps := Some ([(repeat 1 32, Some (1, repeat 1 32))]
                          ++ (repeat 2 32, None)
                          :: [(repeat 3 32, Some (1, repeat 3 32))]) |}.

(** password-based encryption: a derivation that cuts password and
    salt to the length asked for, a cipher that reverses *)
Definition stretch (pw salt : bytes) (N_ R P KeyLen : Z) : result bytes :=
  Ok (firstn (Z.to_nat KeyLen) (pw ++ salt)).

Definition reverse_Encrypt (plain secret : bytes) : bytes * option error :=
  (rev plain, None).

Definition reverse_Decrypt (ct secret : bytes) : result bytes := Ok (rev ct).

Definition out_of_range (b : bytes) : chat.outcome bytes := chat.Panicked.

Definition note : bytes := [104; 105].

Definition password : bytes := [112; 119].

Definition sealed_note : scrypt.CipherText bytes :=
  {| scrypt.CipherText_ := [105; 104];
     scrypt.ScryptKey :=
       {| scrypt.N_ := 16384; scrypt.R := 8; scrypt.P := 1; scrypt.KeyLen := 32;
          scrypt.Salt := repeat 3 50;
          scrypt.key := [112; 119] ++ repeat 3 30 |} |}.

End samples.

(** * Vocabulary of the statements *)

Module vocabulary.

(** the positions of the handlers a dispatch turn invoked, in order *)
Fixpoint invoked (tr : list backend.Event) : list nat :=
  match tr with
  | [] => []
  | backend.Invoked i _ :: tr' => i :: invoked tr'
  | _ :: tr' => invoked tr'
  end.

(** the messages a dispatch turn sent to the remote peer *)
Fixpoint sent (tr : list backend.Event) : list bpb.BackendMessage :=
  match tr with
  | [] => []
  | backend.Sent m :: tr' => m :: sent tr'
  | _ :: tr' => sent tr'
  end.

(** C7 as worded: an error and no key agreement, for a wrong type or an
    absent ephemeral key or remote identity key.  A remote identity is
    absent when the message names no sender identity and its ratchet
    header key, from which the remote identity is taken, has the zero
    value of an unset field. *)
Definition type_mismatch (m : chat.Message) : Prop :=
  chat.Type_ m <> "PROTOCOL_INITIALISATION".

Definition ephemeral_key_absent (m : chat.Message) : Prop :=
  chat.AdditionalData m !! "ephemeral_key" = None.

(** the ephemeral key entry is there and is not the hex form of a byte
    string *)
Definition ephemeral_key_malformed (m : chat.Message) : Prop :=
  exists str,
    chat.AdditionalData m !! "ephemeral_key" = Some str
    /\ snd (hex_DecodeString str) <> None.

Definition remote_identity_absent (m : chat.Message) : Prop :=
  chat.IDPubKey m = EmptyString
  /\ dr.DH (dr.Header (chat.DoubleratchetMessage m)) = make_bytes 32.

Definition rejected (SecretFromRemote : x3dh.ProtocolInitialisation -> result bytes)
    (m : chat.Message) (kb : chat.PreKeyBundlePrivate) : Prop :=
  exists e, chat.HandleInitialMessage SecretFromRemote m kb = ([], Err e).

(** the status update that records a failed send of [msg] *)
Definition failed_to_send (receiver : bytes) (msg : chat.PlainChatMessage)
    : chat.StatusUpdate :=
  {| chat.su_partner := receiver; chat.su_msgID := chat.MessageID msg;
     chat.su_status := db.StatusFailedToSend |}.

(** the ways a Get of the key store behind the request API fails: the
    request itself (a failed send, a timeout), a message key that is no
    cipher text, one that does not decrypt, one of the wrong length *)
Inductive api_Get_failure {W : Type}
    (request : api.Request -> Z -> W -> W * result api.Response)
    (aes_Unmarshal km_AESDecrypt : bytes -> result bytes)
    (w : W) (k : bytes) (msgNum : N) : Prop :=
| request_failed (w' : W) (e : error) :
    request (api.DRKeyStoreGet k msgNum) eight_seconds w = (w', Err e) ->
    api_Get_failure request aes_Unmarshal km_AESDecrypt w k msgNum
| response_malformed (w' : W) (resp : api.Response) (e : error) :
    request (api.DRKeyStoreGet k msgNum) eight_seconds w = (w', Ok resp) ->
    aes_Unmarshal (api.DRKeyStoreGet_MessageKey resp) = Err e ->
    api_Get_failure request aes_Unmarshal km_AESDecrypt w k msgNum
| response_undecryptable (w' : W) (resp : api.Response) (ct : bytes) (e : error) :
    request (api.DRKeyStoreGet k msgNum) eight_seconds w = (w', Ok resp) ->
    aes_Unmarshal (api.DRKeyStoreGet_MessageKey resp) = Ok ct ->
    km_AESDecrypt ct = Err e ->
    api_Get_failure request aes_Unmarshal km_AESDecrypt w k msgNum
| key_not_32_bytes (w' : W) (resp : api.Response) (ct messageKey : bytes) :
    request (api.DRKeyStoreGet k msgNum) eight_seconds w = (w', Ok resp) ->
    aes_Unmarshal (api.DRKeyStoreGet_MessageKey resp) = Ok ct ->
    km_AESDecrypt ct = Ok messageKey ->
    length messageKey <> 32%nat ->
    api_Get_failure request aes_Unmarshal km_AESDecrypt w k msgNum.

(** the ways a Get of the key store behind the device fails: the call
    is not sent, the device answers with an error, the payload does not
    decode *)
Inductive client_Get_failure {W : Type}
    (api_Send : client.Call -> W -> W * result client.Response)
    (Unmarshal : string -> client.DRKeyStoreGetResponse * option error)
    (w : W) (k : bytes) (msgNum : N) : Prop :=
| send_failed (w' : W) (e : error) :
    api_Send (client.DRKeyStoreGetCall (hex_EncodeToString k) msgNum) w = (w', Err e) ->
    client_Get_failure api_Send Unmarshal w k msgNum
| device_error (w' : W) (resp : client.Response) (e : error) :
    api_Send (client.DRKeyStoreGetCall (hex_EncodeToString k) msgNum) w
      = (w', Ok resp) ->
    client.Error resp = Some e ->
    client_Get_failure api_Send Unmarshal w k msgNum
| payload_malformed (w' : W) (resp : client.Response)
    (keyResp : client.DRKeyStoreGetResponse) (e : error) :
    api_Send (client.DRKeyStoreGetCall (hex_EncodeToString k) msgNum) w
      = (w', Ok resp) ->
    client.Error resp = None ->
    Unmarshal (client.Payload resp) = (keyResp, Some e) ->
    client_Get_failure api_Send Unmarshal w k msgNum.

(** the decoder of the device's answer gives the zero response next to
    an error *)
Definition zero_on_error
    (Unmarshal : string -> client.DRKeyStoreGetResponse * option error) : Prop :=
  forall payload keyResp e,
    Unmarshal payload = (keyResp, Some e) -> client.Key keyResp = dr_Key_zero.

(** the number of instances the package variable holds *)
Definition singleton_count {Instance : Type} (w : panthalassa.World Instance) : nat :=
  match panthalassa.panthalassaInstance w with
  | Some _ => 1%nat
  | None => 0%nat
  end.

(** the envelopes a dispatch turn answers a request with *)
Definition response_envelope (msg : bpb.BackendMessage)
    (r : bpb.BackendMessage_Response) : bpb.BackendMessage :=
  {| bpb.RequestID := bpb.RequestID msg; bpb.Request := None;
     bpb.Response := Some r; bpb.Error := EmptyString |}.

Definition error_envelope (msg : bpb.BackendMessage) (e : error) : bpb.BackendMessage :=
  {| bpb.RequestID := bpb.RequestID msg; bpb.Request := None;
     bpb.Response := None; bpb.Error := e |}.

(** the responses the handlers of a chain give to a request, in order *)
Definition answers (hs : list backend.RequestHandler)
    (req : bpb.BackendMessage_Request) : list bpb.BackendMessage_Response :=
  omap (fun h : backend.RequestHandler =>
          match h req with
          | Ok (Some r) => Some r
          | _ => None
          end) hs.

(** a handler that does not fail on a request *)
Definition no_error (req : bpb.BackendMessage_Request) (h : backend.RequestHandler)
    : Prop :=
  forall e, h req <> Err e.

(** what a dispatch turn put on response channels *)
Fixpoint delivered (tr : list backend.Event) : list (backend.chan * backend.response) :=
  match tr with
  | [] => []
  | backend.Delivered c r :: tr' => (c, r) :: delivered tr'
  | _ :: tr' => delivered tr'
  end.

(** what the waiting caller is given for a matched response *)
Definition outcome_of (msg : bpb.BackendMessage) (r : bpb.BackendMessage_Response)
    : backend.response :=
  if String.eqb (bpb.Error msg) EmptyString
  then {| backend.resp := Some r; backend.err := None |}
  else {| backend.resp := None; backend.err := Some (bpb.Error msg) |}.

(** a byte string of an array type [[n]byte] *)
Definition array_of (n : nat) (b : bytes) : Prop :=
  length b = n /\ Forall (fun x => 0 <= x < 256) b.

(** the signed pre-key published for a generated key pair *)
Definition signed_from (Sign : prekey.PreKey -> result prekey.PreKey)
    (ToProtobuf : prekey.PreKey -> result bpb.PreKey)
    (keyPair : x3dh.KeyPair) (published : bpb.PreKey) : Prop :=
  exists pk,
    Sign (prekey.set_PublicKey (x3dh.PublicKey keyPair) prekey.zero) = Ok pk
    /\ ToProtobuf pk = Ok published.

(** the key pairs that successive calls of the curve gave, in the
    order of the calls, and the entropy they left *)
Inductive generated {rng : Type}
    (GenerateKeyPair : rng -> rng * result x3dh.KeyPair)
    : rng -> list x3dh.KeyPair -> rng -> Prop :=
| generated_none (g : rng) : generated GenerateKeyPair g [] g
| generated_more (g g1 g' : rng) (keyPair : x3dh.KeyPair)
    (rest : list x3dh.KeyPair) :
    GenerateKeyPair g = (g1, Ok keyPair) ->
    generated GenerateKeyPair g1 rest g' ->
    generated GenerateKeyPair g (keyPair :: rest) g'.

(** the status update that records a successful send of [msg] *)
Definition marked_sent (receiver : bytes) (msg : chat.PlainChatMessage)
    : chat.StatusUpdate :=
  {| chat.su_partner := receiver; chat.su_msgID := chat.MessageID msg;
     chat.su_status := db.StatusSent |}.

(** The logic of the coordinator's steps.  A state is untouched when
    no status update was made, and holds only failures when every update
    made records the failed send of [msg].  SendMessage exits well when it
    returns an error over a state that holds only failures, or when the
    one update made marks [msg] as sent. *)
Section CoordinatorLogic.
Context {W MDB : Type}.
Variable receiver : bytes.
Variable msg : chat.PlainChatMessage.

Definition untouched (s : chat.St W MDB) : Prop := chat.status_updates s = [].

Definition only_failures (s : chat.St W MDB) : Prop :=
  Forall (eq (failed_to_send receiver msg)) (chat.status_updates s).

Definition exits (s : chat.St W MDB) (e : option error) : Prop :=
  (e <> None /\ only_failures s)
  \/ chat.status_updates s = [marked_sent receiver msg].

Definition hoare {A : Type} (P : chat.St W MDB -> Prop) (m : chat.M W MDB A)
    (Q : A -> chat.St W MDB -> Prop) : Prop :=
  forall s, P s ->
    match m s with
    | (s', inl a) => Q a s'
    | (s', inr e) => exits s' e
    end.

End CoordinatorLogic.

(** the record a successful write stores and announces *)
Definition stored_message {raw : Type} (d : db.DB raw) (partner : bytes)
    (msg : db.Message) : db.Message :=
  db.set_DatabaseID
    (to_int64 (Uint64 (db.collision_loop 1000
                         (default [] (db.partner_bucket d partner))
                         (db.CreatedAt msg)
                         (PutUint64 (to_uint64 (db.CreatedAt msg))))))
    (db.set_Version db.DAppMessageVersion msg).

(** the signing key a call of the DApp API names *)
Definition dapp_key (c : panthalassa.Call) : option string :=
  match c with
  | panthalassa.CallOpenDApp id _ => Some id
  | panthalassa.CallStartDApp key _ => Some key
  | panthalassa.CallRenderMessage signingKey _ => Some signingKey
  | panthalassa.CallCallDAppFunction signingKey _ _ => Some signingKey
  | panthalassa.CallStopDApp key => Some key
  | _ => None
  end.

End vocabulary.

(** * Encodings *)

(** Every byte survives the two hex digits it is written as. *)
Lemma hex_byte_roundtrip (x : Z) :
  0 <= x < 256 ->
  fromHexChar (hexDigit (Z.shiftr x 4)) = Some (Z.shiftr x 4)
  /\ fromHexChar (hexDigit (Z.land x 15)) = Some (Z.land x 15)
  /\ Z.lor (Z.shiftl (Z.shiftr x 4) 4) (Z.land x 15) = x.
Proof.
  intros Hx.
  pose (ok := fun n : nat =>
    let x := Z.of_nat n in
    match fromHexChar (hexDigit (Z.shiftr x 4)),
          fromHexChar (hexDigit (Z.land x 15)) with
    | Some hi, Some lo =>
        (hi =? Z.shiftr x 4) && (lo =? Z.land x 15)
        && (Z.lor (Z.shiftl (Z.shiftr x 4) 4) (Z.land x 15) =? x)
    | _, _ => false
    end).
  assert (Hall : forallb ok (seq 0 256) = true) by (vm_compute; reflexivity).
  rewrite forallb_forall in Hall.
  specialize (Hall (Z.to_nat x)).
  assert (Hin : In (Z.to_nat x) (seq 0 256)) by (apply in_seq; lia).
  specialize (Hall Hin). unfold ok in Hall. rewrite Z2Nat.id in Hall by lia.
  destruct (fromHexChar (hexDigit (Z.shiftr x 4))) as [hi|]; [|discriminate].
  destruct (fromHexChar (hexDigit (Z.land x 15))) as [lo|]; [|discriminate].
  apply andb_prop in Hall as [Hall H3]. apply andb_prop in Hall as [H1 H2].
  apply Z.eqb_eq in H1, H2, H3. subst. auto.
Qed.

(** [hex.DecodeString] undoes [hex.EncodeToString]. *)
Lemma hex_roundtrip (b : bytes) :
  Forall (fun x => 0 <= x < 256) b ->
  hex_DecodeString (hex_EncodeToString b) = (b, None).
Proof.
  induction 1 as [|x b Hx Hb IH]; simpl; [reflexivity|].
  destruct (hex_byte_roundtrip x Hx) as (-> & -> & Hlor).
  rewrite IH, Hlor. reflexivity.
Qed.

(** The big-endian key of a time stamp reads back as the time stamp. *)
Example Uint64_PutUint64 :
  Uint64 (PutUint64 1540944000000000000) = 1540944000000000000
  /\ PutUint64 258 = [0; 0; 0; 0; 0; 0; 1; 2]
  /\ to_int64 (to_uint64 (-1)) = -1.
Proof. vm_compute. repeat split; reflexivity. Qed.

(** * The message store *)

Section MessageStore.
Import db.

Context {raw : Type}.
Variable seal : Message -> result raw.
Variable decRawMsg : option raw -> result Message.

(** The collision loop never leaves the two keys [CreatedAt] and
    [CreatedAt + 1]: the retry writes [msg.CreatedAt + 1] anew each time. *)
Lemma collision_loop_two_keys (remaining : nat) (b : Bucket raw) (createdAt : Z)
    (k : bytes) :
  collision_loop remaining b createdAt k = k
  \/ collision_loop remaining b createdAt k = PutUint64 (to_uint64 (createdAt + 1)).
Proof.
  revert k. induction remaining as [|r IH]; intros k; simpl.
  - destruct (bucket_Get b k); auto.
  - destruct (bucket_Get b k); auto.
    destruct (IH (PutUint64 (to_uint64 (createdAt + 1)))) as [H|H]; rewrite H; auto.
Qed.

(** A free key is taken as it is. *)
Lemma collision_loop_free (remaining : nat) (b : Bucket raw) (createdAt : Z) (k : bytes) :
  bucket_Get b k = None -> collision_loop remaining b createdAt k = k.
Proof. intros H. destruct remaining; simpl; rewrite H; reflexivity. Qed.

(** When both keys are taken the loop gives up on the second one, which
    the write then replaces. *)
Lemma collision_loop_both_taken (remaining : nat) (b : Bucket raw) (createdAt : Z)
    (k : bytes) :
  is_Some (bucket_Get b k) ->
  is_Some (bucket_Get b (PutUint64 (to_uint64 (createdAt + 1)))) ->
  collision_loop (S remaining) b createdAt k = PutUint64 (to_uint64 (createdAt + 1)).
Proof.
  intros [v Hk] [v1 Hk1]. simpl. rewrite Hk. clear Hk k v.
  induction remaining as [|r IH]; simpl; rewrite Hk1; auto.
Qed.

(** The store's own UpdateStatus writes nothing. *)
Lemma UpdateStatus_writes_nothing (d : DB raw) (partner : bytes) (msgID : Z)
    (newStatus : Status) :
  UpdateStatus d partner msgID newStatus = (d, None).
Proof. reflexivity. Qed.

Lemma walk_back_length (b : Bucket raw) (pos : nat) (currentAmount : N)
    (messages : list Message) :
  (length (fst (walk_back decRawMsg b pos currentAmount messages))
   <= length messages + N.to_nat currentAmount)%nat.
Proof.
  revert currentAmount messages.
  induction pos as [|p IH]; intros currentAmount messages; simpl.
  - destruct (N.eqb currentAmount 0); simpl; lia.
  - destruct (N.eqb_spec currentAmount 0) as [->|Hne]; simpl; [lia|].
    destruct (decRawMsg (cursor_value b p)) as [msg|e]; simpl; [|lia].
    specialize (IH (currentAmount - 1)%N (messages ++ [msg])).
    rewrite length_app in IH. simpl in IH. lia.
Qed.

Lemma sort_Slice_length (messages : list Message) :
  length (sort_Slice messages) = length messages.
Proof. unfold sort_Slice. apply Permutation_length, merge_sort_Permutation. Qed.

#[local] Instance by_DatabaseID_trans : Transitive by_DatabaseID.
Proof. intros a b c. unfold by_DatabaseID. lia. Qed.

#[local] Instance by_DatabaseID_total : Total by_DatabaseID.
Proof. intros a b. unfold by_DatabaseID. lia. Qed.

Lemma sort_Slice_ascending (messages : list Message) :
  StronglySorted by_DatabaseID (sort_Slice messages).
Proof. unfold sort_Slice. apply StronglySorted_merge_sort; apply _. Qed.

(** C5: Messages fails for an amount below one; otherwise what it
    returns has at most [amount] messages, in ascending DatabaseID order
    whatever the order the backward scan met them in. *)
Theorem C5_Messages_bounded_ascending (d : DB raw) (partner : bytes) (start : Z)
    (amount : N) :
  ((amount < 1)%N ->
   exists e, Messages decRawMsg d partner start amount = ([], Some e))
  /\ ((1 <= amount)%N ->
      (N.of_nat (length (fst (Messages decRawMsg d partner start amount))) <= amount)%N
      /\ StronglySorted by_DatabaseID
           (fst (Messages decRawMsg d partner start amount))).
Proof.
  split.
  - intros Hlt. unfold Messages.
    destruct (N.ltb_spec amount 1) as [_|Hge]; [eauto | lia].
  - intros Hge. unfold Messages.
    destruct (N.ltb_spec amount 1) as [Hlt|_]; [lia|].
    match goal with
    | |- context [let '(messages, err) := ?scan in _] =>
        assert (Hscan : (length (fst scan) <= N.to_nat amount)%nat);
        [| destruct scan as [messages err] ]
    end.
    + destruct (private_chat d) as [chats|]; simpl; [|lia].
      destruct (chats !! partner) as [bucket|]; simpl; [|lia].
      match goal with
      | |- context [decRawMsg ?v] => destruct (decRawMsg v) as [msg|e]
      end; simpl; [|lia].
      match goal with
      | |- context [walk_back _ ?b ?pos ?n ?ms] =>
          pose proof (walk_back_length b pos n ms) as Hw
      end.
      simpl in Hw. lia.
    + simpl in *. split.
      * rewrite sort_Slice_length. lia.
      * apply sort_Slice_ascending.
Qed.

End MessageStore.

(** C5 at work: an amount of zero is refused; three messages are asked
    of a partner that holds three. *)
Lemma C5_Messages_bounded_ascending_witness :
  (exists e, db.Messages samples.decRawMsg samples.three_messages samples.partner 0 0
             = ([], Some e))
  /\ (N.of_nat (length (fst (db.Messages samples.decRawMsg samples.three_messages
                              samples.partner 0 3))) <= 3)%N
  /\ StronglySorted db.by_DatabaseID
       (fst (db.Messages samples.decRawMsg samples.three_messages samples.partner 0 3)).
Proof.
  split.
  - apply (proj1 (C5_Messages_bounded_ascending samples.decRawMsg
                    samples.three_messages samples.partner 0 0)).
    reflexivity.
  - apply (proj2 (C5_Messages_bounded_ascending samples.decRawMsg
                    samples.three_messages samples.partner 0 3)).
    discriminate.
Defined.

(** The scan of the sample store, newest first on disk, oldest first in
    the answer. *)
Example Messages_three :
  map db.ID (fst (db.Messages samples.decRawMsg samples.three_messages
                    samples.partner 0 2)) = ["b"; "c"].
Proof. vm_compute. reflexivity. Qed.

(** C3: three messages of one partner carry the same CreatedAt.  The
    first is stored under T0 and the second under T0 + 1; the third finds
    both taken, retries T0 + 1 until the bound and is stored under
    T0 + 1 again: its DatabaseID equals the second one's, and the second
    message is gone from the bucket. *)
Theorem C3_same_timestamp_third_persist_repeats_id :
  let '(d1, e1, ev1) :=
    db.PersistReceivedMessage samples.seal db.empty_DB samples.partner
      (samples.received "a" samples.T0) in
  let '(d2, e2, ev2) :=
    db.PersistReceivedMessage samples.seal d1 samples.partner
      (samples.received "b" samples.T0) in
  let '(d3, e3, ev3) :=
    db.PersistReceivedMessage samples.seal d2 samples.partner
      (samples.received "c" samples.T0) in
  [e1; e2; e3] = [None; None; None]
  /\ map db.DBMessageID (ev1 ++ ev2 ++ ev3)
     = [samples.T0; samples.T0 + 1; samples.T0 + 1]
  /\ (map (fun kv => db.ID (snd kv)) <$> db.partner_bucket d3 samples.partner)
     = Some ["a"; "c"].
Proof. vm_compute. repeat split; reflexivity. Qed.

(** * The backend dispatch *)

Section Dispatch.
Import bpb backend vocabulary.

Variable transport_Send : BackendMessage -> option error.

(** Handlers are offered a request in the order they were registered:
    the invoked positions are an initial stretch of the chain. *)
Lemma handle_request_in_order (i : nat) (hs : list RequestHandler)
    (msg : BackendMessage) (req : BackendMessage_Request) :
  exists k, (k <= length hs)%nat
    /\ invoked (fst (handle_request transport_Send i hs msg req)) = seq i k.
Proof.
  revert i. induction hs as [|h hs IH]; intros i; simpl.
  - exists 0%nat. split; [lia | reflexivity].
  - destruct (h req) as [[r|]|e]; simpl.
    + destruct (transport_Send _) as [e|]; simpl.
      * exists 1%nat. split; [lia | reflexivity].
      * destruct (IH (S i)) as (k & Hk & HI).
        destruct (handle_request transport_Send (S i) hs msg req) as [tr f].
        simpl in *. exists (S k). split; [lia|]. simpl. now rewrite HI.
    + destruct (IH (S i)) as (k & Hk & HI).
      destruct (handle_request transport_Send (S i) hs msg req) as [tr f].
      simpl in *. exists (S k). split; [lia|]. simpl. now rewrite HI.
    + exists 1%nat. split; [lia | reflexivity].
Qed.

(** A handler error ends the chain: it is sent back and nothing after
    the failing handler is invoked. *)
Lemma handle_request_error_stops (i : nat) (h : RequestHandler)
    (hs : list RequestHandler) (msg : BackendMessage) (req : BackendMessage_Request)
    (e : error) :
  h req = Err e ->
  invoked (fst (handle_request transport_Send i (h :: hs) msg req)) = [i]
  /\ map Error (sent (fst (handle_request transport_Send i (h :: hs) msg req))) = [e].
Proof. intros H. simpl. rewrite H. simpl. auto. Qed.

(** C6: an envelope with both a Request and a Response fails the
    dispatch turn with nothing done: no handler invoked, no look-up in
    the correlation table.  A Response whose RequestID has no entry in
    the table fails the turn as well: an error comes back, nothing is
    delivered to any channel, and the message is not logged as dropped. *)
Theorem C6_dual_envelope_and_unmatched_response_fail (b : Backend)
    (msg : BackendMessage) :
  (is_Some (Request msg) -> is_Some (Response msg) ->
   exists e, OnMessage transport_Send b msg = (b, [], Some e))
  /\ (is_Some (Response msg) -> stack b !! RequestID msg = None ->
      exists tr e, OnMessage transport_Send b msg = (b, tr, Some e)
        /\ (tr = [] \/ tr = [CutLookup (RequestID msg)])).
Proof.
  split.
  - intros [req Hreq] [r Hr]. unfold OnMessage. rewrite Hreq, Hr. eauto.
  - intros [r Hr] Hnone. unfold OnMessage. rewrite Hr.
    destruct (Request msg) as [req|]; [eauto|].
    simpl. unfold Cut. rewrite Hnone. simpl. eauto.
Qed.

End Dispatch.

(** C6 at work: the dual envelope, and a response nobody waits for. *)
Lemma C6_dual_envelope_and_unmatched_response_fail_witness :
  (exists e, backend.OnMessage samples.transport_ok samples.two_handlers
               samples.dual_envelope = (samples.two_handlers, [], Some e))
  /\ (exists tr e,
        backend.OnMessage samples.transport_ok samples.two_handlers
          samples.unmatched_response = (samples.two_handlers, tr, Some e)
        /\ (tr = [] \/ tr = [backend.CutLookup "77"])).
Proof.
  split.
  - apply (proj1 (C6_dual_envelope_and_unmatched_response_fail
                    samples.transport_ok samples.two_handlers samples.dual_envelope)).
    + eexists; reflexivity.
    + eexists; reflexivity.
  - apply (proj2 (C6_dual_envelope_and_unmatched_response_fail
                    samples.transport_ok samples.two_handlers
                    samples.unmatched_response)).
    + eexists; reflexivity.
    + reflexivity.
Defined.

(** C2: a request that two handlers of the chain answer.  After the
    first handler's response is sent the loop goes on: the second handler
    is invoked too, and two responses leave for the one request. *)
Theorem C2_chain_goes_on_after_first_response :
  backend.OnMessage samples.transport_ok samples.two_handlers samples.inbound_request
  = (samples.two_handlers,
     [backend.Invoked 0 samples.batch_and_count;
      backend.Sent (samples.answer samples.batch_response);
      backend.Invoked 1 samples.batch_and_count;
      backend.Sent (samples.answer samples.pre_key_response);
      backend.Warned samples.inbound_request],
     None).
Proof. reflexivity. Qed.

(** * The handshake *)

Section InitialMessage.
Import chat vocabulary.

Variable SecretFromRemote : x3dh.ProtocolInitialisation -> result bytes.

(** C7, amended: a wrong message type, no ephemeral_key entry in the
    additional data, or an entry that is not valid hex, gives an error and
    no key agreement is run.  The remote identity is read off the ratchet
    header without a check.
    When a secret is returned the type is the sentinel, the ephemeral key
    entry is present and decodes, and the secret is what the one key
    agreement on the copied keys derived. *)
Theorem C7_HandleInitialMessage_checks_type_and_ephemeral_key (m : Message)
    (kb : PreKeyBundlePrivate) :
  (type_mismatch m -> rejected SecretFromRemote m kb)
  /\ (ephemeral_key_absent m -> rejected SecretFromRemote m kb)
  /\ (ephemeral_key_malformed m -> rejected SecretFromRemote m kb)
  /\ (forall secret, snd (HandleInitialMessage SecretFromRemote m kb) = Ok secret ->
      Type_ m = "PROTOCOL_INITIALISATION"
      /\ exists str rawKey,
          AdditionalData m !! "ephemeral_key" = Some str
          /\ hex_DecodeString str = (rawKey, None)
          /\ let init :=
               {| x3dh.RemoteIdKey :=
                    copy_into 32 (dr.DH (dr.Header (DoubleratchetMessage m)));
                  x3dh.RemoteEphemeralKey := copy_into 32 rawKey;
                  x3dh.MyOneTimePreKey := Some (OneTimePreKey kb);
                  x3dh.MySignedPreKey := SignedPreKey kb |} in
             fst (HandleInitialMessage SecretFromRemote m kb) = [init]
             /\ SecretFromRemote init = Ok secret).
Proof.
  unfold type_mismatch, ephemeral_key_absent, ephemeral_key_malformed, rejected,
    HandleInitialMessage.
  destruct (String.eqb_spec (Type_ m) "PROTOCOL_INITIALISATION") as [Heq|Hne]; simpl.
  - repeat split.
    + intros H. contradiction.
    + intros H. rewrite H. eauto.
    + intros (str & Hstr & Hhex). rewrite Hstr.
      destruct (hex_DecodeString str) as [rawKey [e|]]; simpl in *;
        [eauto | contradiction].
    + destruct (AdditionalData m !! "ephemeral_key") as [str|]; simpl in *;
        [|discriminate].
      destruct (hex_DecodeString str) as [rawKey [e|]]; simpl in *; [discriminate|].
      exact Heq.
    + destruct (AdditionalData m !! "ephemeral_key") as [str|]; simpl in *;
        [|discriminate].
      destruct (hex_DecodeString str) as [rawKey [e|]] eqn:Hhex; simpl in *;
        [discriminate|].
      exists str, rawKey. auto.
  - repeat split; eauto; discriminate.
Qed.

End InitialMessage.

(** C7 at work: a message of another type, a message without the
    ephemeral key, a message whose ephemeral key is not hex, and a
    complete message that yields the secret. *)
Lemma C7_HandleInitialMessage_checks_type_and_ephemeral_key_witness :
  vocabulary.rejected samples.agreement samples.mistyped_initialisation
    samples.private_bundle
  /\ vocabulary.rejected samples.agreement samples.keyless_initialisation
       samples.private_bundle
  /\ vocabulary.rejected samples.agreement samples.garbled_initialisation
       samples.private_bundle
  /\ chat.Type_ samples.complete_initialisation = "PROTOCOL_INITIALISATION".
Proof.
  split; [|split; [|split]].
  - apply (proj1 (C7_HandleInitialMessage_checks_type_and_ephemeral_key
                    samples.agreement samples.mistyped_initialisation
                    samples.private_bundle)).
    unfold vocabulary.type_mismatch. simpl. discriminate.
  - apply (proj1 (proj2 (C7_HandleInitialMessage_checks_type_and_ephemeral_key
                    samples.agreement samples.keyless_initialisation
                    samples.private_bundle))).
    reflexivity.
  - apply (proj1 (proj2 (proj2
                    (C7_HandleInitialMessage_checks_type_and_ephemeral_key
                       samples.agreement samples.garbled_initialisation
                       samples.private_bundle)))).
    exists "zz". split; [reflexivity|]. vm_compute. discriminate.
  - apply (proj2 (proj2 (proj2
                    (C7_HandleInitialMessage_checks_type_and_ephemeral_key
                       samples.agreement samples.complete_initialisation
                       samples.private_bundle))) (repeat 8 32)).
    vm_compute. reflexivity.
Defined.

(** C7 as worded fails: the message with no sender identity and an
    unset ratchet header is not rejected; the key agreement is run on the
    zero key and its secret returned. *)
Lemma C7_absent_remote_identity_is_accepted :
  ~ (forall SecretFromRemote m kb,
       vocabulary.type_mismatch m \/ vocabulary.ephemeral_key_absent m
       \/ vocabulary.remote_identity_absent m ->
       vocabulary.rejected SecretFromRemote m kb).
Proof.
  intros H.
  destruct (H samples.agreement samples.anonymous_initialisation
              samples.private_bundle) as [e He].
  - right. right. split; reflexivity.
  - vm_compute in He. discriminate He.
Qed.

(** what the function answers there *)
Example HandleInitialMessage_anonymous :
  chat.HandleInitialMessage samples.agreement samples.anonymous_initialisation
    samples.private_bundle
  = ([{| x3dh.RemoteIdKey := make_bytes 32;
         x3dh.RemoteEphemeralKey := repeat 1 32;
         x3dh.MyOneTimePreKey := Some (repeat 5 32);
         x3dh.MySignedPreKey := repeat 6 32 |}], Ok (repeat 8 32)).
Proof. vm_compute. reflexivity. Qed.

(** * The one-time pre-key handler *)

Section PreKeysHandler.
Import chat.

Context {rng pool : Type}.
Variable GenerateKeyPair : rng -> rng * result x3dh.KeyPair.
Variable oneTimePreKeyStorage_Put : pool -> list x3dh.KeyPair -> pool * option error.
Variable Sign : prekey.PreKey -> result prekey.PreKey.
Variable ToProtobuf : prekey.PreKey -> result bpb.PreKey.

(** With fuel for the key pairs still missing, the generation loop
    ends, and when it ends well it holds exactly [n] key pairs. *)
Lemma generate_loop_ends (fuel n : nat) (g : rng) (keyPairs : list x3dh.KeyPair) :
  (length keyPairs <= n)%nat -> (n - length keyPairs < fuel)%nat ->
  exists g' r, generate_loop GenerateKeyPair fuel n g keyPairs = Some (g', r)
    /\ forall generated, r = Ok generated -> length generated = n.
Proof.
  revert g keyPairs. induction fuel as [|fuel IH]; intros g keyPairs Hle Hfuel.
  - lia.
  - simpl. destruct (Nat.eqb_spec (length keyPairs) n) as [Heq|Hne].
    + exists g, (Ok keyPairs). split; [reflexivity|]. intros ? [= <-]. exact Heq.
    + destruct (GenerateKeyPair g) as [g' [keyPair|e]].
      * apply IH; rewrite length_app; simpl; lia.
      * exists g', (Err e). split; [reflexivity | discriminate].
Qed.

Lemma generate_loop_succeeds (fuel n : nat) (g : rng) (keyPairs : list x3dh.KeyPair) :
  (forall g0, exists keyPair, snd (GenerateKeyPair g0) = Ok keyPair) ->
  (length keyPairs <= n)%nat -> (n - length keyPairs < fuel)%nat ->
  exists g' generated,
    generate_loop GenerateKeyPair fuel n g keyPairs = Some (g', Ok generated).
Proof.
  intros Hgen. revert g keyPairs.
  induction fuel as [|fuel IH]; intros g keyPairs Hle Hfuel.
  - lia.
  - simpl. destruct (Nat.eqb_spec (length keyPairs) n) as [Heq|Hne]; [eauto|].
    destruct (Hgen g) as [keyPair Hk].
    destruct (GenerateKeyPair g) as [g' r]. simpl in Hk. subst r.
    apply IH; rewrite length_app; simpl; lia.
Qed.

Lemma sign_loop_length (keyPairs : list x3dh.KeyPair) (preKeys signed : list bpb.PreKey) :
  sign_loop Sign ToProtobuf keyPairs preKeys = Ok signed ->
  length signed = (length preKeys + length keyPairs)%nat.
Proof.
  revert preKeys. induction keyPairs as [|kp rest IH]; intros preKeys H; simpl in H.
  - injection H as <-. simpl. lia.
  - destruct (Sign _) as [pk|e]; [|discriminate].
    destruct (ToProtobuf pk) as [pkProto|e]; [|discriminate].
    apply IH in H. rewrite length_app in H. simpl in *. lia.
Qed.

Lemma sign_loop_succeeds (keyPairs : list x3dh.KeyPair) (preKeys : list bpb.PreKey) :
  (forall pk, exists pk', Sign pk = Ok pk') ->
  (forall pk, exists pkProto, ToProtobuf pk = Ok pkProto) ->
  exists signed, sign_loop Sign ToProtobuf keyPairs preKeys = Ok signed.
Proof.
  intros HS HT. revert preKeys.
  induction keyPairs as [|kp rest IH]; intros preKeys; simpl; [eauto|].
  destruct (HS (prekey.set_PublicKey (x3dh.PublicKey kp) prekey.zero)) as [pk ->].
  destruct (HT pk) as [pkProto ->]. apply IH.
Qed.

(** The key pairs the generation loop ends with are those it began
    with, followed by what successive calls of the curve gave. *)
Lemma generate_loop_generated (fuel n : nat) (g g' : rng)
    (keyPairs all : list x3dh.KeyPair) :
  generate_loop GenerateKeyPair fuel n g keyPairs = Some (g', Ok all) ->
  exists new, all = keyPairs ++ new /\ vocabulary.generated GenerateKeyPair g new g'.
Proof.
  revert g keyPairs. induction fuel as [|fuel IH]; intros g keyPairs H; simpl in H.
  - discriminate.
  - destruct (Nat.eqb (length keyPairs) n).
    + injection H as <- <-. exists []. rewrite app_nil_r.
      split; [reflexivity | constructor].
    + destruct (GenerateKeyPair g) as [g1 [keyPair|e]] eqn:Hg; [|discriminate].
      destruct (IH _ _ H) as (new & -> & Hnew).
      exists (keyPair :: new). rewrite <- List.app_assoc. split; [reflexivity|].
      econstructor; eassumption.
Qed.

(** The pre-keys the signing loop ends with are those it began with,
    followed by the signed and converted public half of every key pair. *)
Lemma sign_loop_pairs (keyPairs : list x3dh.KeyPair) (preKeys signed : list bpb.PreKey) :
  sign_loop Sign ToProtobuf keyPairs preKeys = Ok signed ->
  exists published, signed = preKeys ++ published
    /\ Forall2 (vocabulary.signed_from Sign ToProtobuf) keyPairs published.
Proof.
  revert preKeys. induction keyPairs as [|kp rest IH]; intros preKeys H; simpl in H.
  - injection H as <-. exists []. rewrite app_nil_r. split; [reflexivity | constructor].
  - destruct (Sign _) as [pk|e] eqn:HS; [|discriminate].
    destruct (ToProtobuf pk) as [pkProto|e] eqn:HT; [|discriminate].
    destruct (IH _ H) as (published & -> & Hall).
    exists (pkProto :: published). rewrite <- app_assoc. split; [reflexivity|].
    constructor; [|exact Hall]. exists pk. auto.
Qed.

(** C4: a request for more than 100 keys is refused with an error, no
    key generated and nothing given to the pool.  For N from 1 to 100 the
    handler returns; a response it returns comes after exactly N key
    pairs were generated, by N successive calls of the curve, and all of
    them were put to the pool in one successful write, and carries exactly
    N pre-keys, which are, one for one and in order, the signed and
    converted public halves of those pairs; and it does return such a
    response when generation, pool, signing and conversion do not fail. *)
Theorem C4_oneTimePreKeysHandler_limit_and_count (fuel : nat) (g : rng) (p : pool)
    (req : bpb.BackendMessage_Request) :
  let n := bpb.NewOneTimePreKeys req in
  let handled :=
    oneTimePreKeysHandler GenerateKeyPair oneTimePreKeyStorage_Put Sign ToProtobuf
      fuel g p req in
  ((100 < n)%N -> exists e, handled = Some (g, p, Err e))
  /\ ((1 <= n <= 100)%N -> (100 < fuel)%nat ->
      (exists g' p' r, handled = Some (g', p', r)
         /\ forall resp, r = Ok resp ->
            exists keyPairs preKeys,
              generate_loop GenerateKeyPair fuel (N.to_nat n) g []
                = Some (g', Ok keyPairs)
              /\ vocabulary.generated GenerateKeyPair g keyPairs g'
              /\ length keyPairs = N.to_nat n
              /\ oneTimePreKeyStorage_Put p keyPairs = (p', None)
              /\ resp = Some {| bpb.OneTimePrekeys := preKeys; bpb.Auth := None |}
              /\ Forall2 (vocabulary.signed_from Sign ToProtobuf) keyPairs preKeys
              /\ length preKeys = N.to_nat n)
      /\ ((forall g0, exists keyPair, snd (GenerateKeyPair g0) = Ok keyPair) ->
          (forall p0 keyPairs, snd (oneTimePreKeyStorage_Put p0 keyPairs) = None) ->
          (forall pk, exists pk', Sign pk = Ok pk') ->
          (forall pk, exists pkProto, ToProtobuf pk = Ok pkProto) ->
          exists g' p' preKeys,
            handled = Some (g', p', Ok (Some {| bpb.OneTimePrekeys := preKeys;
                                               bpb.Auth := None |})))).
Proof.
  intros n handled. subst handled. unfold oneTimePreKeysHandler. fold n.
  split.
  - intros Hgt.
    destruct (N.eqb_spec n 0) as [H0|_]; [lia|].
    destruct (N.ltb_spec 100 n) as [_|Hle]; [eauto | lia].
  - intros [H1 H100] Hfuel.
    destruct (N.eqb_spec n 0) as [H0|_]; [lia|].
    destruct (N.ltb_spec 100 n) as [Hgt|_]; [lia|].
    assert (Hroom : (N.to_nat n - length (@nil x3dh.KeyPair) < fuel)%nat)
      by (simpl; lia).
    assert (Hstart : (length (@nil x3dh.KeyPair) <= N.to_nat n)%nat)
      by (simpl; lia).
    split.
    + destruct (generate_loop_ends fuel (N.to_nat n) g [] Hstart Hroom)
        as (g' & r & Hloop & Hlen).
      rewrite Hloop. destruct r as [keyPairs|e].
      * specialize (Hlen keyPairs eq_refl).
        destruct (oneTimePreKeyStorage_Put p keyPairs) as [p' [e|]] eqn:HPut.
        -- do 3 eexists. split; [reflexivity | discriminate].
        -- destruct (sign_loop Sign ToProtobuf keyPairs []) as [preKeys|e] eqn:Hsign.
           ++ do 3 eexists. split; [reflexivity|].
              intros resp [= <-]. exists keyPairs, preKeys.
              destruct (generate_loop_generated _ _ _ _ _ _ Hloop)
                as (new & Hnew & Hcalls).
              simpl in Hnew. subst new.
              destruct (sign_loop_pairs _ _ _ Hsign) as (published & Hpub & Hsigned).
              simpl in Hpub. subst published.
              apply sign_loop_length in Hsign. simpl in Hsign.
              repeat split; auto. lia.
           ++ do 3 eexists. split; [reflexivity | discriminate].
      * do 3 eexists. split; [reflexivity | discriminate].
    + intros Hgen HPut HS HT.
      destruct (generate_loop_succeeds fuel (N.to_nat n) g [] Hgen Hstart Hroom)
        as (g' & keyPairs & ->).
      specialize (HPut p keyPairs).
      destruct (oneTimePreKeyStorage_Put p keyPairs) as [p' o]. simpl in HPut. subst o.
      destruct (sign_loop_succeeds keyPairs [] HS HT) as [preKeys ->].
      eauto.
Qed.

End PreKeysHandler.

(** C4 at work: 101 keys are refused; 100 keys are asked of
    collaborators that do not fail. *)
Lemma C4_oneTimePreKeysHandler_limit_and_count_witness :
  (exists e,
     chat.oneTimePreKeysHandler samples.GenerateKeyPair samples.pool_Put samples.Sign
       samples.ToProtobuf 101 0%nat [] (samples.replenish 101) = Some (0%nat, [], Err e))
  /\ (exists g' p' preKeys,
        chat.oneTimePreKeysHandler samples.GenerateKeyPair samples.pool_Put
          samples.Sign samples.ToProtobuf 101 0%nat [] (samples.replenish 100)
        = Some (g', p', Ok (Some {| bpb.OneTimePrekeys := preKeys;
                                    bpb.Auth := None |}))).
Proof.
  split.
  - apply (proj1 (C4_oneTimePreKeysHandler_limit_and_count samples.GenerateKeyPair
                    samples.pool_Put samples.Sign samples.ToProtobuf 101 0%nat []
                    (samples.replenish 101))).
    reflexivity.
  - apply (proj2 (C4_oneTimePreKeysHandler_limit_and_count samples.GenerateKeyPair
                    samples.pool_Put samples.Sign samples.ToProtobuf 101 0%nat []
                    (samples.replenish 100))).
    + simpl. lia.
    + lia.
    + intros g0. eexists. reflexivity.
    + intros p0 keyPairs. reflexivity.
    + intros pk. eexists. reflexivity.
    + intros pk. eexists. reflexivity.
Defined.

(** the hundred keys of the sample run, all of them in the pool *)
Example oneTimePreKeysHandler_hundred :
  match chat.oneTimePreKeysHandler samples.GenerateKeyPair samples.pool_Put
          samples.Sign samples.ToProtobuf 101 0%nat [] (samples.replenish 100) with
  | Some (g, p, Ok (Some resp)) =>
      g = 100%nat /\ length p = 100%nat /\ length (bpb.OneTimePrekeys resp) = 100%nat
  | _ => False
  end.
Proof. vm_compute. repeat split; reflexivity. Qed.

(** * The session coordinator *)

Section Coordinator.
Import chat vocabulary.

Context {W MDB PreKeyBundle Session : Type}.
Variable c : Deps W MDB PreKeyBundle Session.
Variable receiver : bytes.
Variable msg : PlainChatMessage.

(** What handleSendError does: one FailedToSend update for the message,
    and the error to surface, the original one, or both when the update
    failed as well. *)
Lemma handleSendError_records (err : error) (s : St W MDB) :
  let written :=
    messageDB_UpdateStatus _ _ _ _ c (messageDB s) receiver (MessageID msg)
      db.StatusFailedToSend in
  handleSendError c receiver msg err s
  = ({| world := world s; messageDB := fst written;
        status_updates := status_updates s ++ [failed_to_send receiver msg] |},
     inl match snd written with
         | None => err
         | Some updateError =>
             "failed to update status with error: " +:+ updateError
             +:+ " - original error: " +:+ err
         end).
Proof.
  unfold handleSendError, UpdateStatus, bind, failed_to_send. simpl.
  destruct (messageDB_UpdateStatus _ _ _ _ c (messageDB s) receiver (MessageID msg)
              db.StatusFailedToSend) as [m [updateError|]]; reflexivity.
Qed.

(** A step guarded by handleSendError: when the existence check of the
    shared secret fails, SendMessage makes the FailedToSend update and
    returns the original error, or the combination of both errors. *)
Lemma SendMessage_handled_step (w : W) (m : MDB) (w' : W) (err : error) :
  sharedSecStorage_HasAny _ _ _ _ c receiver w = (w', Err err) ->
  let written :=
    messageDB_UpdateStatus _ _ _ _ c m receiver (MessageID msg)
      db.StatusFailedToSend in
  SendMessage c w m receiver msg
  = ({| world := w'; messageDB := fst written;
        status_updates := [failed_to_send receiver msg] |},
     Some match snd written with
          | None => err
          | Some updateError =>
              "failed to update status with error: " +:+ updateError
              +:+ " - original error: " +:+ err
          end).
Proof.
  intros H. unfold SendMessage, SendMessage_steps.
  unfold bind at 1. unfold call at 1. simpl. rewrite H.
  unfold bind at 1. unfold handled at 1. unfold bind at 1.
  rewrite handleSendError_records. reflexivity.
Qed.

(** A step that is not: when the identity key fails to sign the
    ephemeral key of a fresh agreement, SendMessage returns that error
    and the message store is given no update. *)
Lemma SendMessage_unhandled_step (w : W) (m : MDB) (w1 w2 w3 w4 : W)
    (bundle : PreKeyBundle) (ip : x3dh.InitializedProtocol) (err : error) :
  sharedSecStorage_HasAny _ _ _ _ c receiver w = (w1, Ok false) ->
  backend_FetchPreKeyBundle _ _ _ _ c receiver w1 = (w2, Ok bundle) ->
  x3dh_CalculateSecret _ _ _ _ c bundle w2 = (w3, Ok ip) ->
  km_IdentitySign _ _ _ _ c (x3dh.EphemeralKey ip) w3 = (w4, Err err) ->
  SendMessage c w m receiver msg
  = ({| world := w4; messageDB := m; status_updates := [] |}, Some err).
Proof.
  intros H1 H2 H3 H4. unfold SendMessage, SendMessage_steps.
  unfold bind at 1. unfold call at 1. simpl. rewrite H1.
  unfold bind at 1. simpl. unfold ret at 1.
  unfold bind at 1. unfold createSharedSecret.
  unfold bind at 1. unfold call at 1. simpl. rewrite H2.
  unfold bind at 1. simpl. unfold ret at 1.
  unfold bind at 1. unfold call at 1. simpl. rewrite H3.
  unfold bind at 1. simpl. unfold ret at 1.
  unfold bind at 1. unfold call at 1. simpl. rewrite H4.
  unfold bind at 1. simpl. reflexivity.
Qed.

End Coordinator.

(** C1: a first message to a partner, with an identity key that refuses
    to sign.  SendMessage fails with that error, and the message store
    was asked for no status update: FailedToSend is not recorded. *)
Theorem C1_signing_failure_records_no_status :
  chat.SendMessage samples.signing_refused tt [] samples.partner samples.plain_message
  = ({| chat.world := tt; chat.messageDB := []; chat.status_updates := [] |},
     Some "identity key is locked").
Proof. reflexivity. Qed.

(** * The remote key stores *)

Section KeyStores.
Import vocabulary.

Context {W : Type}.

(** A hit of the request API's store has gone through every check. *)
Lemma api_Get_hit (request : api.Request -> Z -> W -> W * result api.Response)
    (aes_Unmarshal km_AESDecrypt : bytes -> result bytes)
    (w : W) (k : bytes) (msgNum : N) (mk : bytes) :
  snd (api.Get request aes_Unmarshal km_AESDecrypt w k msgNum) = (mk, true) ->
  exists w' resp ct messageKey,
    request (api.DRKeyStoreGet k msgNum) eight_seconds w = (w', Ok resp)
    /\ aes_Unmarshal (api.DRKeyStoreGet_MessageKey resp) = Ok ct
    /\ km_AESDecrypt ct = Ok messageKey
    /\ length messageKey = 32%nat
    /\ mk = copy_into 32 messageKey.
Proof.
  unfold api.Get.
  destruct (request _ _ w) as [w' [resp|e]]; simpl; [|discriminate].
  destruct (aes_Unmarshal _) as [ct|e] eqn:Hct; simpl; [|discriminate].
  destruct (km_AESDecrypt ct) as [messageKey|e] eqn:Hmk; simpl; [|discriminate].
  destruct (Nat.eqb_spec (length messageKey) 32) as [Hlen|Hlen]; simpl;
    [|discriminate].
  intros [= <-]. exists w', resp, ct, messageKey. auto.
Qed.


(** C9: in the store behind the device, Count answers 9 and DeletePk
    does nothing, for every key and every state of the device: the world
    is returned as it was and no call is sent, nothing closed, nothing
    logged. *)
Theorem C9_client_Count_and_DeletePk_are_stubs (w : W) (k : bytes) :
  client.Count w k = (w, client.no_effects, 9%N)
  /\ client.DeletePk w k = (w, client.no_effects)
  /\ client.sends (snd (fst (client.Count w k))) = []
  /\ client.sends (snd (client.DeletePk w k)) = [].
Proof. repeat split. Qed.

(** the sibling calls do reach the device *)
Lemma client_DeleteMk_sends (api_Send : client.Call -> W -> W * result client.Response)
    (w : W) (k : bytes) (msgNum : N) :
  client.sends (snd (client.DeleteMk api_Send w k msgNum))
  = [client.DRKeyStoreDeleteMK (hex_EncodeToString k) msgNum].
Proof.
  unfold client.DeleteMk. destruct (api_Send _ w) as [w' [resp|e]]; reflexivity.
Qed.

End KeyStores.



(** * The process-wide instance *)

Section Singleton.
Import panthalassa vocabulary.

Context {KeyManager Instance Response Multiaddr : Type}.
Variable ops : Ops KeyManager Instance Response Multiaddr.

Lemma live_app (es es' : list (Effect Instance)) (n : nat) :
  live (es ++ es') n = live es' (live es n).
Proof.
  revert n. induction es as [|e es IH]; intros n; simpl; [reflexivity|].
  destruct e; apply IH.
Qed.

(** Without an instance every call but the two starts returns an error
    and leaves the world, trace included, as it was. *)
Lemma exec_not_started (c : Call) (w : World Instance) :
  starts c = false -> panthalassaInstance w = None ->
  exists s e, exec ops c w = (w, (s, Some e)).
Proof.
  intros Hc Hw.
  destruct c; simpl in Hc; try discriminate; simpl;
    unfold EthPrivateKey, EthAddress, SendResponse, ExportAccountStore,
      IdentityPublicKey, GetMnemonic, SignProfile, Stop, GetIdentityPublicKey,
      ConnectToDAppDevHost, OpenDApp, StartDApp, RenderMessage, CallDAppFunction,
      StopDApp, DApps, only_error;
    try rewrite Hw; simpl; eauto.
  destruct (id <? 0); rewrite ?Hw; simpl; eauto.
Qed.

(** With an instance in place start returns an error and the instance
    stays; the debug switch is the one thing it may have touched. *)
Lemma start_already_started (dbDir : string) (km : KeyManager) (config : StartConfig)
    (w : World Instance) (i : Instance) :
  panthalassaInstance w = Some i ->
  exists e,
    start ops dbDir km config w
    = ((if EnableDebugging config then did SetDebugLogging w else w), Some e).
Proof.
  intros Hw. unfold start.
  destruct (EnableDebugging config); simpl; rewrite Hw; eauto.
Qed.

Lemma start_keeps_count (dbDir : string) (km : KeyManager) (config : StartConfig)
    (w : World Instance) :
  live_instances w = singleton_count w ->
  live_instances (fst (start ops dbDir km config w))
  = singleton_count (fst (start ops dbDir km config w)).
Proof.
  unfold live_instances, singleton_count, start. intros Hinv.
  destruct (EnableDebugging config); simpl;
    destruct (panthalassaInstance w) as [i|] eqn:Hw; simpl;
    rewrite ?live_app; simpl; try exact Hinv;
    destruct (construct _ _ _ _ ops dbDir km config) as [built|e]; simpl;
    rewrite ?Hw, ?live_app; simpl; rewrite ?live_app; simpl; rewrite ?Hinv;
    reflexivity.
Qed.

(** Every call keeps the count of live instances equal to the number of
    instances the package variable holds. *)
Lemma exec_keeps_count (c : Call) (w : World Instance) :
  live_instances w = singleton_count w ->
  live_instances (fst (exec ops c w)) = singleton_count (fst (exec ops c w)).
Proof.
  intros Hinv. unfold live_instances, singleton_count in *.
  destruct (panthalassaInstance w) as [i|] eqn:Hw;
    destruct c; simpl;
    unfold Start, StartFromMnemonic, start, EthPrivateKey, EthAddress, SendResponse,
      ExportAccountStore, IdentityPublicKey, GetMnemonic, SignProfile, Stop,
      GetIdentityPublicKey, ConnectToDAppDevHost, OpenDApp, StartDApp, RenderMessage,
      CallDAppFunction, StopDApp, DApps, only_error;
    simpl; rewrite ?Hw; simpl;
    repeat (match goal with
            | |- context [match ?x with Ok _ => _ | Err _ => _ end] =>
                destruct x; simpl
            | |- context [if ?b then _ else _] =>
                match type of b with bool => destruct b; simpl end
            end; rewrite ?Hw; simpl);
    rewrite ?live_app; simpl; rewrite ?Hw, ?Hinv; simpl; reflexivity.
Qed.

(** C10: with no instance started every API call other than the starts
    returns an error and does nothing; a start with an instance in place
    returns an error and keeps that instance; and in every world the API
    can reach at most one instance is live. *)
Theorem C10_singleton_guard :
  (forall (c : Call) (w : World Instance),
      starts c = false -> panthalassaInstance w = None ->
      exists s e, exec ops c w = (w, (s, Some e)))
  /\ (forall dbDir km config (w : World Instance) (i : Instance),
        panthalassaInstance w = Some i ->
        exists e, snd (start ops dbDir km config w) = Some e
          /\ panthalassaInstance (fst (start ops dbDir km config w)) = Some i
          /\ live_instances (fst (start ops dbDir km config w)) = live_instances w)
  /\ (forall w : World Instance, reachable ops w -> (live_instances w <= 1)%nat).
Proof.
  split; [|split].
  - apply exec_not_started.
  - intros dbDir km config w i Hw.
    destruct (start_already_started dbDir km config w i Hw) as [e He].
    exists e. rewrite He. simpl.
    destruct (EnableDebugging config); simpl; repeat split; auto.
    unfold live_instances. simpl. rewrite live_app. reflexivity.
  - intros w Hreach.
    assert (Hinv : live_instances w = singleton_count w).
    { induction Hreach as [|c w Hreach IH].
      - reflexivity.
      - apply exec_keeps_count. exact IH. }
    rewrite Hinv. unfold singleton_count.
    destruct (panthalassaInstance w); lia.
Qed.

End Singleton.

(** C10 at work: a key is asked for before any start; a second start
    follows a first; the world after both holds one live instance. *)
Lemma C10_singleton_guard_witness :
  (exists s e,
     panthalassa.exec samples.willing panthalassa.CallEthPrivateKey panthalassa.initial
     = (panthalassa.initial, (s, Some e)))
  /\ (exists e,
        snd (panthalassa.start samples.willing "dir" tt samples.config samples.started)
        = Some e
        /\ panthalassa.panthalassaInstance
             (fst (panthalassa.start samples.willing "dir" tt samples.config
                     samples.started)) = Some 1%nat
        /\ panthalassa.live_instances
             (fst (panthalassa.start samples.willing "dir" tt samples.config
                     samples.started))
           = panthalassa.live_instances samples.started)
  /\ (panthalassa.live_instances
        (fst (panthalassa.exec samples.willing
                (panthalassa.CallStart "dir" "{}" "pw") samples.started)) <= 1)%nat.
Proof.
  split; [|split].
  - apply (proj1 (C10_singleton_guard samples.willing)); reflexivity.
  - apply (proj1 (proj2 (C10_singleton_guard samples.willing))). reflexivity.
  - apply (proj2 (proj2 (C10_singleton_guard samples.willing))).
    apply panthalassa.reachable_exec.
    apply (panthalassa.reachable_exec samples.willing
             (panthalassa.CallStart "dir" "{}" "pw") panthalassa.initial).
    apply panthalassa.reachable_initial.
Defined.

(** one instance is live after the first start, none after Stop *)
Example live_after_start_and_stop :
  panthalassa.live_instances samples.started = 1%nat
  /\ panthalassa.live_instances
       (fst (panthalassa.exec samples.willing panthalassa.CallStop samples.started))
     = 0%nat.
Proof. vm_compute. split; reflexivity. Qed.

(** * Keys: big-endian time stamps and their order *)

Lemma bytes_compare_refl (a : bytes) : bytes_compare a a = Eq.
Proof.
  induction a as [|x a IH]; simpl; [reflexivity|].
  rewrite Z.compare_refl. exact IH.
Qed.

Lemma bytes_compare_eq (a b : bytes) : bytes_compare a b = Eq -> a = b.
Proof.
  revert b. induction a as [|x a IH]; intros [|y b]; simpl; try discriminate; auto.
  destruct (Z.compare_spec x y) as [->|H|H]; try discriminate.
  intros Hab. f_equal. apply IH, Hab.
Qed.

Lemma bytes_compare_antisym (a b : bytes) :
  bytes_compare b a = CompOpp (bytes_compare a b).
Proof.
  revert b. induction a as [|x a IH]; intros [|y b]; simpl; try reflexivity.
  rewrite (Z.compare_antisym x y).
  destruct (x ?= y); simpl; auto.
Qed.

(** A byte below 256 joins the shifted accumulator without a carry. *)
Lemma lor_shiftl_byte (acc x : Z) :
  0 <= x < 256 -> Z.lor (Z.shiftl acc 8) x = acc * 256 + x.
Proof.
  intros Hx. rewrite Z.shiftl_mul_pow2 by lia. change (2 ^ 8) with 256.
  symmetry. apply Z.add_nocarry_lor.
  apply Z.bits_inj'. intros n Hn. rewrite Z.land_spec, Z.bits_0.
  destruct (Z.ltb_spec n 8) as [Hlt|Hge].
  - change 256 with (2 ^ 8). rewrite Z.mul_pow2_bits_low by lia. reflexivity.
  - destruct (Z.eq_dec x 0) as [->|Hx0].
    + rewrite Z.bits_0. apply andb_false_r.
    + rewrite (Z.bits_above_log2 x n); [apply andb_false_r | lia |].
      assert (Z.log2 x < 8) by (apply Z.log2_lt_pow2; lia). lia.
Qed.

Lemma land_255 (x : Z) : Z.land x 255 = x mod 256.
Proof. change 255 with (Z.ones 8). rewrite Z.land_ones by lia. reflexivity. Qed.

(** [Uint64] reads back what [PutUint64] wrote. *)
Lemma Uint64_PutUint64_id (v : Z) :
  0 <= v < 2 ^ 64 -> Uint64 (PutUint64 v) = v.
Proof.
  intros Hv. unfold Uint64, PutUint64. cbn [map firstn fold_left].
  rewrite !land_255.
  rewrite !lor_shiftl_byte by (apply Z.mod_pos_bound; lia).
  rewrite !Z.shiftr_div_pow2 by lia.
  change (8 * 7) with 56. change (8 * 6) with 48. change (8 * 5) with 40.
  change (8 * 4) with 32. change (8 * 3) with 24. change (8 * 2) with 16.
  change (8 * 1) with 8. change (8 * 0) with 0.
  change (2 ^ 0) with 1. rewrite Z.div_1_r.
  change (2 ^ 56) with 72057594037927936.
  change (2 ^ 48) with 281474976710656.
  change (2 ^ 40) with 1099511627776.
  change (2 ^ 32) with 4294967296.
  change (2 ^ 24) with 16777216.
  change (2 ^ 16) with 65536.
  change (2 ^ 8) with 256.
  change (2 ^ 64) with 18446744073709551616 in Hv.
  Z.div_mod_to_equations. lia.
Qed.

Lemma to_uint64_range (x : Z) : 0 <= to_uint64 x < 2 ^ 64.
Proof. unfold to_uint64. apply Z.mod_pos_bound. lia. Qed.

(** [uint64(int64(u))] is [u]. *)
Lemma to_uint64_to_int64 (u : Z) :
  0 <= u < 2 ^ 64 -> to_uint64 (to_int64 u) = u.
Proof.
  intros Hu. unfold to_uint64, to_int64.
  rewrite (Z.mod_small u) by lia.
  destruct (Z.ltb_spec u (2 ^ 63)).
  - apply Z.mod_small. lia.
  - replace (u - 2 ^ 64) with (u + (-1) * 2 ^ 64) by lia.
    rewrite Z.mod_add by lia. apply Z.mod_small. lia.
Qed.

(** [int64(uint64(x))] is [x] for an [int64]. *)
Lemma to_int64_to_uint64 (x : Z) :
  - 2 ^ 63 <= x < 2 ^ 63 -> to_int64 (to_uint64 x) = x.
Proof.
  intros Hx. unfold to_int64, to_uint64. rewrite Z.mod_mod by lia.
  destruct (Z_lt_le_dec x 0) as [Hneg|Hpos].
  - replace (x mod 2 ^ 64) with (x + 2 ^ 64).
    + destruct (Z.ltb_spec (x + 2 ^ 64) (2 ^ 63)); lia.
    + replace x with (x + 2 ^ 64 + (-1) * 2 ^ 64) at 2 by lia.
      rewrite Z.mod_add by lia. symmetry. apply Z.mod_small. lia.
  - rewrite Z.mod_small by lia.
    destruct (Z.ltb_spec x (2 ^ 63)); lia.
Qed.

(** The key of a database id is the key the id was read from. *)
Lemma key_of_DatabaseID (x : Z) :
  PutUint64 (to_uint64 (to_int64 (Uint64 (PutUint64 (to_uint64 x)))))
  = PutUint64 (to_uint64 x).
Proof.
  rewrite Uint64_PutUint64_id by apply to_uint64_range.
  rewrite to_uint64_to_int64 by apply to_uint64_range. reflexivity.
Qed.

(** * The bucket: what is put is what is got *)

Section BucketFacts.
Import db.
Context {V : Type}.

Lemma bucket_Get_Put_eq (b : Bucket V) (k : bytes) (v : V) :
  bucket_Get (bucket_Put b k v) k = Some v.
Proof.
  induction b as [|[k' v'] b IH]; simpl.
  - rewrite bytes_compare_refl. reflexivity.
  - destruct (bytes_compare k k') eqn:Hc; simpl.
    + rewrite bytes_compare_refl. reflexivity.
    + rewrite bytes_compare_refl. reflexivity.
    + rewrite Hc. exact IH.
Qed.

Lemma bucket_Get_Put_ne (b : Bucket V) (k k0 : bytes) (v : V) :
  k0 <> k -> bucket_Get (bucket_Put b k v) k0 = bucket_Get b k0.
Proof.
  intros Hne.
  assert (Hk : bytes_compare k0 k <> Eq) by (intros H; apply Hne, bytes_compare_eq, H).
  induction b as [|[k' v'] b IH]; simpl.
  - destruct (bytes_compare k0 k); congruence.
  - destruct (bytes_compare k k') eqn:Hc; simpl.
    + apply bytes_compare_eq in Hc. subst k'.
      destruct (bytes_compare k0 k); congruence.
    + destruct (bytes_compare k0 k); congruence.
    + rewrite IH. reflexivity.
Qed.

(** A key above every key of the bucket is free and goes to the end. *)
Lemma bucket_Put_newest (b : Bucket V) (k : bytes) (v : V) :
  Forall (fun kv => bytes_compare (fst kv) k = Lt) b ->
  bucket_Get b k = None /\ bucket_Put b k v = b ++ [(k, v)].
Proof.
  induction 1 as [|[k' v'] b Hlt Hall [IHg IHp]]; simpl in *; [auto|].
  rewrite (bytes_compare_antisym k' k), Hlt. simpl.
  rewrite IHg, IHp. auto.
Qed.

Lemma bucket_Put_holds (b : Bucket V) (k : bytes) (v : V) :
  In (k, v) (bucket_Put b k v).
Proof.
  induction b as [|[k' v'] b IH]; simpl; [auto|].
  destruct (bytes_compare k k'); simpl; auto.
Qed.

End BucketFacts.

(** * The message store: writes, reads and their composition *)

Section Validation.
Import db.

(** ValidMessage accepts exactly the messages with an id, a version, a
    registered status and a nanosecond time stamp, that are either a DApp
    message with a 32-byte DApp key or a plain message with content and a
    32-byte sender. *)
Theorem ValidMessage_accepts_iff (m : Message) :
  ValidMessage m = None <->
  ID m <> EmptyString /\ Version m <> 0%N /\ statuses (Status_ m) = true
  /\ 2147483647 < CreatedAt m
  /\ match DApp m with
     | Some d => length (DAppPublicKey d) = 32%nat
     | None => Message_ m <> [] /\ length (Sender m) = 32%nat
     end.
Proof.
  unfold ValidMessage.
  destruct (String.eqb_spec (ID m) EmptyString) as [Hid|Hid];
    [split; [discriminate | tauto]|].
  destruct (N.eqb_spec (Version m) 0) as [Hv|Hv];
    [split; [discriminate | tauto]|].
  destruct (statuses (Status_ m)) eqn:Hs; simpl;
    [|split; [discriminate | intros (_ & _ & H & _); discriminate]].
  destruct (DApp m) as [d|]; simpl.
  - destruct (Nat.eqb_spec (length (DAppPublicKey d)) 32) as [Hk|Hk]; simpl;
      [|split; [discriminate | tauto]].
    destruct (Z.leb_spec (CreatedAt m) 2147483647) as [Hc|Hc];
      [split; [discriminate | lia]|].
    rewrite andb_false_r. tauto.
  - destruct (Nat.eqb_spec (length (Message_ m)) 0) as [Hm|Hm]; simpl.
    + split; [discriminate|].
      intros (_ & _ & _ & _ & Hne & _). destruct (Message_ m); [congruence | discriminate].
    + destruct (Z.leb_spec (CreatedAt m) 2147483647) as [Hc|Hc];
        [split; [discriminate | lia]|].
      destruct (Nat.eqb_spec (length (Sender m)) 32) as [Hl|Hl]; simpl.
      * split; [|reflexivity]. intros _. repeat split; auto.
        intros Hnil. rewrite Hnil in Hm. apply Hm. reflexivity.
      * split; [discriminate | tauto].
Qed.

End Validation.

Section MessageStoreReads.
Import db vocabulary.

Context {raw : Type}.
Variable seal : Message -> result raw.
Variable decRawMsg : option raw -> result Message.

Lemma partner_bucket_lookup (d : DB raw) (partner : bytes) :
  default ∅ (private_chat d) !! partner = partner_bucket d partner.
Proof. unfold partner_bucket. destruct (private_chat d); reflexivity. Qed.

(** Once the second key is tried the loop stays on it. *)
Lemma collision_loop_second (remaining : nat) (b : Bucket raw) (createdAt : Z) :
  collision_loop remaining b createdAt (PutUint64 (to_uint64 (createdAt + 1)))
  = PutUint64 (to_uint64 (createdAt + 1)).
Proof.
  induction remaining as [|r IH]; simpl;
    destruct (bucket_Get b _); auto.
Qed.

Lemma collision_loop_step (r : nat) (b : Bucket raw) (createdAt : Z) (k : bytes) :
  collision_loop (S r) b createdAt k
  = match bucket_Get b k with
    | Some _ => PutUint64 (to_uint64 (createdAt + 1))
    | None => k
    end.
Proof.
  simpl. destruct (bucket_Get b k); [|reflexivity]. apply collision_loop_second.
Qed.

#[global] Arguments collision_loop : simpl never.

(** The key a write ends on: the time stamp when it is free, the time
    stamp plus one when it is taken. *)
Lemma collision_loop_key (b : Bucket raw) (createdAt : Z) :
  collision_loop 1000 b createdAt (PutUint64 (to_uint64 createdAt))
  = match bucket_Get b (PutUint64 (to_uint64 createdAt)) with
    | Some _ => PutUint64 (to_uint64 (createdAt + 1))
    | None => PutUint64 (to_uint64 createdAt)
    end.
Proof. exact (collision_loop_step 999 b createdAt _). Qed.

Lemma persistMessage_ok_inv (d d' : DB raw) (partner : bytes) (msg : Message)
    (evs : list MessagePersistedEvent) :
  persistMessage seal d partner msg = (d', None, evs) ->
  let stored := stored_message d partner msg in
  ValidMessage (set_Version DAppMessageVersion msg) = None
  /\ partner <> []
  /\ evs = [{| Partner := partner; EvMessage := stored;
               DBMessageID := DatabaseID stored |}]
  /\ exists r, seal stored = Ok r
       /\ d' = {| private_chat :=
                    Some (<[partner :=
                              bucket_Put (default [] (partner_bucket d partner))
                                (collision_loop 1000
                                   (default [] (partner_bucket d partner))
                                   (CreatedAt msg)
                                   (PutUint64 (to_uint64 (CreatedAt msg)))) r]>
                            (default ∅ (private_chat d))) |}.
Proof.
  unfold persistMessage, stored_message. rewrite partner_bucket_lookup.
  destruct (ValidMessage (set_Version DAppMessageVersion msg)) as [e|];
    [discriminate|].
  destruct partner as [|p0 partner]; [discriminate|].
  simpl. destruct (seal _) as [r|e] eqn:Hseal; [|discriminate].
  intros [= <- <-]. repeat split; try discriminate. exists r. split; reflexivity.
Qed.

(** X1: A write that fails leaves the store as it was and announces
    nothing. *)
Theorem persistMessage_error_writes_nothing (d d' : DB raw) (partner : bytes)
    (msg : Message) (e : error) (evs : list MessagePersistedEvent) :
  persistMessage seal d partner msg = (d', Some e, evs) -> d' = d /\ evs = [].
Proof.
  unfold persistMessage.
  destruct (ValidMessage _); [intros [= <- _ <-]; auto|].
  destruct partner; [intros [= <- _ <-]; auto|].
  destruct (seal _); [discriminate | intros [= <- _ <-]; auto].
Qed.

(** X2: The DatabaseID a successful write assigns is the message's
    CreatedAt when the partner has no record under it, and CreatedAt + 1
    when it has; the record is stored with version 1 whatever version the
    caller gave. *)
Theorem persistMessage_assigns_DatabaseID (d d' : DB raw) (partner : bytes)
    (msg : Message) (evs : list MessagePersistedEvent) :
  CreatedAt msg < 2 ^ 63 - 1 ->
  persistMessage seal d partner msg = (d', None, evs) ->
  exists stored,
    evs = [{| Partner := partner; EvMessage := stored;
              DBMessageID := DatabaseID stored |}]
    /\ Version stored = 1%N
    /\ DatabaseID stored
       = match bucket_Get (default [] (partner_bucket d partner))
                 (PutUint64 (to_uint64 (CreatedAt msg))) with
         | Some _ => CreatedAt msg + 1
         | None => CreatedAt msg
         end.
Proof.
  intros Hmax Hok.
  destruct (persistMessage_ok_inv _ _ _ _ _ Hok) as (Hvalid & _ & Hevs & _).
  apply ValidMessage_accepts_iff in Hvalid. destruct Hvalid as (_ & _ & _ & Hmin & _).
  simpl in Hmin.
  exists (stored_message d partner msg). split; [exact Hevs|]. split; [reflexivity|].
  unfold stored_message. simpl. rewrite collision_loop_key.
  destruct (bucket_Get _ _);
    rewrite Uint64_PutUint64_id by apply to_uint64_range;
    apply to_int64_to_uint64; lia.
Qed.

(** X3: Round trip: the message a successful write announces is the one
    GetMessage returns for the announced database id, when the codec
    reads back what it wrote. *)
Theorem persist_then_GetMessage (d d' : DB raw) (partner : bytes) (msg : Message)
    (ev : MessagePersistedEvent) :
  (forall m r, seal m = Ok r -> decRawMsg (Some r) = Ok m) ->
  persistMessage seal d partner msg = (d', None, [ev]) ->
  GetMessage decRawMsg d' partner (DBMessageID ev) = (Some (EvMessage ev), None).
Proof.
  intros Hcodec Hok.
  destruct (persistMessage_ok_inv _ _ _ _ _ Hok) as (_ & _ & Hevs & r & Hseal & ->).
  injection Hevs as ->. simpl.
  unfold GetMessage. simpl. rewrite lookup_insert_eq.
  unfold stored_message at 1. simpl.
  rewrite collision_loop_key.
  destruct (bucket_Get (default [] (partner_bucket d partner))
              (PutUint64 (to_uint64 (CreatedAt msg)))) eqn:Hget;
    rewrite key_of_DatabaseID, bucket_Get_Put_eq, (Hcodec _ _ Hseal);
    unfold stored_message; rewrite collision_loop_key, Hget; reflexivity.
Qed.

(** X4: A write touches one record of one partner: every other partner
    reads as before, and so does every other record of the partner. *)
Theorem persistMessage_frame (d d' : DB raw) (partner : bytes) (msg : Message)
    (ev : MessagePersistedEvent) :
  persistMessage seal d partner msg = (d', None, [ev]) ->
  (forall other dbID, other <> partner ->
     GetMessage decRawMsg d' other dbID = GetMessage decRawMsg d other dbID)
  /\ (forall dbID m,
        PutUint64 (to_uint64 dbID) <> PutUint64 (to_uint64 (DBMessageID ev)) ->
        GetMessage decRawMsg d partner dbID = (Some m, None) ->
        GetMessage decRawMsg d' partner dbID = (Some m, None)).
Proof.
  intros Hok.
  destruct (persistMessage_ok_inv _ _ _ _ _ Hok) as (_ & _ & Hevs & r & Hseal & ->).
  injection Hevs as ->. simpl. split.
  - intros other dbID Hne. unfold GetMessage. simpl.
    rewrite lookup_insert_ne by congruence.
    rewrite partner_bucket_lookup. unfold partner_bucket.
    destruct (private_chat d); reflexivity.
  - intros dbID m Hkey. unfold GetMessage. simpl. rewrite lookup_insert_eq.
    unfold stored_message in Hkey. simpl in Hkey.
    assert (Hother : PutUint64 (to_uint64 dbID)
                     <> collision_loop 1000 (default [] (partner_bucket d partner))
                          (CreatedAt msg) (PutUint64 (to_uint64 (CreatedAt msg)))).
    { rewrite collision_loop_key in *.
      destruct (bucket_Get _ _); rewrite key_of_DatabaseID in Hkey; exact Hkey. }
    rewrite bucket_Get_Put_ne by exact Hother.
    unfold partner_bucket.
    destruct (private_chat d) as [chats|]; [|discriminate].
    destruct (chats !! partner) as [b|]; [|discriminate]. simpl. auto.
Qed.

(** GetMessage answers nil without an error for a partner that has no
    bucket, and an error for a partner that has one but no record under
    the id. *)
Theorem GetMessage_missing (d : DB raw) (partner : bytes) (dbID : Z) :
  (partner_bucket d partner = None ->
   GetMessage decRawMsg d partner dbID = (None, None))
  /\ (forall b, partner_bucket d partner = Some b ->
        bucket_Get b (PutUint64 (to_uint64 dbID)) = None ->
        exists e, GetMessage decRawMsg d partner dbID = (None, Some e)).
Proof.
  unfold partner_bucket, GetMessage. split.
  - destruct (private_chat d); [intros ->|]; reflexivity.
  - intros b. destruct (private_chat d); [|discriminate].
    intros -> ->. eauto.
Qed.

End MessageStoreReads.

Section MessageStoreScan.
Import db vocabulary.

Context {raw : Type}.
Variable seal : Message -> result raw.
Variable decRawMsg : option raw -> result Message.

(** The backward walk over records that all decode: it collects the
    records below the cursor, nearest first, as many as asked for. *)
Lemma walk_back_collects (f : bytes * raw -> Message) (b : Bucket raw) (pos : nat)
    (currentAmount : N) (messages : list Message) :
  (pos <= length b)%nat ->
  (forall kv, In kv b -> decRawMsg (Some (snd kv)) = Ok (f kv)) ->
  walk_back decRawMsg b pos currentAmount messages
  = (messages ++ map f (firstn (N.to_nat currentAmount) (rev (firstn pos b))), None).
Proof.
  intros Hpos Hdec. revert currentAmount messages.
  induction pos as [|p IH]; intros currentAmount messages.
  - simpl. destruct (N.eqb currentAmount 0); rewrite firstn_nil, app_nil_r; reflexivity.
  - simpl walk_back. destruct (N.eqb_spec currentAmount 0) as [->|Hne].
    + simpl. rewrite app_nil_r. reflexivity.
    + destruct (lookup_lt_is_Some_2 b p) as [kv Hkv]; [lia|].
      unfold cursor_value, Bucket in *. rewrite Hkv. simpl.
      rewrite (Hdec kv) by (apply list_elem_of_In, list_elem_of_lookup; eauto).
      rewrite IH by lia.
      rewrite (take_S_r b p kv Hkv), rev_unit.
      replace (N.to_nat currentAmount) with (S (N.to_nat (currentAmount - 1))) by lia.
      simpl. rewrite <- app_assoc. reflexivity.
Qed.

(** X5: Messages from the most recent position: when every record of the
    partner decodes, the answer is the [amount] newest records of the
    bucket (all of them when it holds fewer), decoded and sorted by
    DatabaseID, and no error. *)
Theorem Messages_newest (f : bytes * raw -> Message) (d : DB raw) (partner : bytes)
    (b : Bucket raw) (amount : N) :
  partner_bucket d partner = Some b -> b <> [] -> (1 <= amount)%N ->
  (forall kv, In kv b -> decRawMsg (Some (snd kv)) = Ok (f kv)) ->
  Messages decRawMsg d partner 0 amount
  = (sort_Slice (map f (firstn (N.to_nat amount) (rev b))), None)
  /\ length (fst (Messages decRawMsg d partner 0 amount))
     = Nat.min (N.to_nat amount) (length b).
Proof.
  intros Hb Hne Hamount Hdec.
  assert (Heq : Messages decRawMsg d partner 0 amount
                = (sort_Slice (map f (firstn (N.to_nat amount) (rev b))), None)).
  { unfold Messages, partner_bucket in *.
    destruct (N.ltb_spec amount 1) as [Hlt|_]; [lia|].
    destruct (private_chat d) as [chats|]; [|discriminate]. rewrite Hb.
    change (0 =? 0) with true. cbv iota.
    destruct (exists_last Hne) as (front & last & ->).
    unfold cursor_Last, cursor_value, Bucket in *. rewrite length_app. simpl length.
    replace (Nat.pred (length front + 1)) with (length front) by lia.
    rewrite lookup_app_r by lia. rewrite Nat.sub_diag. simpl.
    rewrite (Hdec last) by (apply in_or_app; right; left; reflexivity).
    rewrite walk_back_collects with (f := f);
      [| rewrite length_app; simpl; lia | exact Hdec].
    rewrite firstn_app, Nat.sub_diag, firstn_all. simpl firstn. rewrite app_nil_r.
    rewrite rev_unit.
    replace (N.to_nat amount) with (S (N.to_nat (amount - 1))) by lia.
    reflexivity. }
  split; [exact Heq|].
  rewrite Heq. simpl. unfold sort_Slice.
  rewrite (Permutation_length (merge_sort_Permutation _ _)).
  rewrite length_map, length_firstn, length_rev. reflexivity.
Qed.

(** X6: Write, then read the latest: when the new time stamp lies above
    every key of the partner's bucket, Messages(partner, 0, 1) after a
    successful write returns exactly the message written. *)
Theorem persist_then_latest (d d' : DB raw) (partner : bytes) (msg : Message)
    (ev : MessagePersistedEvent) :
  (forall m r, seal m = Ok r -> decRawMsg (Some r) = Ok m) ->
  Forall (fun kv => bytes_compare (fst kv) (PutUint64 (to_uint64 (CreatedAt msg))) = Lt)
    (default [] (partner_bucket d partner)) ->
  persistMessage seal d partner msg = (d', None, [ev]) ->
  Messages decRawMsg d' partner 0 1 = ([EvMessage ev], None).
Proof.
  intros Hcodec Hnew Hok.
  destruct (persistMessage_ok_inv _ _ _ _ _ _ Hok) as (_ & _ & Hevs & r & Hseal & ->).
  injection Hevs as ->. simpl.
  rewrite collision_loop_key in *.
  destruct (bucket_Put_newest _ _ r Hnew) as [Hfree Hput].
  unfold stored_message in *. rewrite collision_loop_key in *.
  rewrite Hfree in *. rewrite Hput.
  unfold Messages. simpl. rewrite lookup_insert_eq.
  unfold cursor_Last, cursor_value, Bucket in *. rewrite length_app. simpl length.
  replace (Nat.pred (length (default [] (partner_bucket d partner)) + 1))
    with (length (default [] (partner_bucket d partner))) by lia.
  rewrite lookup_app_r by lia. rewrite Nat.sub_diag. simpl.
  rewrite (Hcodec _ _ Hseal). simpl.
  destruct (length (default [] (partner_bucket d partner))); reflexivity.
Qed.

End MessageStoreScan.

Section MessageStoreChats.
Import db vocabulary.

Context {raw : Type}.
Variable seal : Message -> result raw.

(** AllChats never fails and lists exactly the 32-byte keys that have a
    bucket of messages. *)
Theorem AllChats_lists (d : DB raw) (p : bytes) :
  snd (AllChats d) = None
  /\ (p ∈ fst (AllChats d) <-> length p = 32%nat /\ is_Some (partner_bucket d p)).
Proof.
  unfold AllChats, partner_bucket.
  destruct (private_chat d) as [chats|]; simpl.
  - split; [reflexivity|]. unfold bucket_names.
    rewrite list_elem_of_filter, merge_sort_Permutation, list_elem_of_fmap.
    split.
    + intros (Hlen & [k b] & -> & Hin). split; [exact Hlen|].
      apply elem_of_map_to_list in Hin. simpl. eauto.
    + intros (Hlen & b & Hb). split; [exact Hlen|].
      exists (p, b). split; [reflexivity|]. apply elem_of_map_to_list, Hb.
  - split; [reflexivity|]. split.
    + intros H. inversion H.
    + intros (_ & b & Hb). discriminate.
Qed.

(** X7: A partner with a 32-byte key is listed by AllChats as soon as one
    message was written for it. *)
Theorem persisted_partner_is_listed (d d' : DB raw) (partner : bytes) (msg : Message)
    (evs : list MessagePersistedEvent) :
  length partner = 32%nat ->
  persistMessage seal d partner msg = (d', None, evs) ->
  partner ∈ fst (AllChats d').
Proof.
  intros Hlen Hok.
  destruct (persistMessage_ok_inv _ _ _ _ _ _ Hok) as (_ & _ & _ & r & _ & ->).
  apply AllChats_lists. split; [exact Hlen|].
  unfold partner_bucket. simpl. rewrite lookup_insert_eq. eauto.
Qed.

(** X8: What the three entry points stamp on the record they store: a
    received message is stored as received and persisted; a message to
    send gets the fresh id, the clock's time and the sender decoded from
    the identity key; a DApp message carries its payload and no sender.
    All are stored with status Persisted. *)
Theorem persist_entry_points_stamp (d d' : DB raw) (partner : bytes)
    (ev : MessagePersistedEvent) :
  (forall msg,
     PersistReceivedMessage seal d partner msg = (d', None, [ev]) ->
     Status_ (EvMessage ev) = StatusPersisted /\ Received (EvMessage ev) = true
     /\ ID (EvMessage ev) = ID msg /\ Sender (EvMessage ev) = Sender msg)
  /\ (forall uuid key now msg,
        PersistMessageToSend seal uuid key now d partner msg = (d', None, [ev]) ->
        Status_ (EvMessage ev) = StatusPersisted /\ Received (EvMessage ev) = false
        /\ uuid = Ok (ID (EvMessage ev)) /\ CreatedAt (EvMessage ev) = now
        /\ length (Sender (EvMessage ev)) = 32%nat
        /\ exists keyStr, key = Ok keyStr
             /\ Sender (EvMessage ev) = fst (hex_DecodeString keyStr))
  /\ (forall uuid now dAppMsg,
        PersistDAppMessage seal uuid now d partner dAppMsg = (d', None, [ev]) ->
        Status_ (EvMessage ev) = StatusPersisted /\ Received (EvMessage ev) = false
        /\ DApp (EvMessage ev) = Some dAppMsg /\ Sender (EvMessage ev) = []
        /\ length (DAppPublicKey dAppMsg) = 32%nat).
Proof.
  split; [|split].
  - intros msg Hok. unfold PersistReceivedMessage in Hok.
    destruct (persistMessage_ok_inv _ _ _ _ _ _ Hok) as (_ & _ & Hevs & _).
    injection Hevs as ->. simpl. auto.
  - intros uuid key now msg Hok. unfold PersistMessageToSend in Hok.
    destruct uuid as [id|e]; [|discriminate].
    destruct key as [keyStr|e]; [|discriminate].
    destruct (Nat.eqb_spec (length (fst (hex_DecodeString keyStr))) 32) as [Hlen|Hlen];
      simpl in Hok; [|discriminate].
    destruct (persistMessage_ok_inv _ _ _ _ _ _ Hok) as (_ & _ & Hevs & _).
    injection Hevs as ->. simpl. repeat split; eauto.
  - intros uuid now dAppMsg Hok. unfold PersistDAppMessage in Hok.
    destruct uuid as [id|e]; [|discriminate].
    destruct (persistMessage_ok_inv _ _ _ _ _ _ Hok) as (Hvalid & _ & Hevs & _).
    injection Hevs as ->. simpl.
    apply ValidMessage_accepts_iff in Hvalid. simpl in Hvalid.
    repeat split; tauto.
Qed.

End MessageStoreChats.

(** * The backend dispatch: the chain, matched responses, the flags *)

Section DispatchMore.
Import bpb backend vocabulary.

Variable transport_Send : BackendMessage -> option error.

(** The chain over two stretches of handlers: the second stretch is
    reached when the first one did not return. *)
Lemma handle_request_app (i : nat) (pre rest : list RequestHandler)
    (msg : BackendMessage) (req : BackendMessage_Request) :
  handle_request transport_Send i (pre ++ rest) msg req
  = match handle_request transport_Send i pre msg req with
    | (tr, Fallthrough) =>
        (tr ++ fst (handle_request transport_Send (i + length pre) rest msg req),
         snd (handle_request transport_Send (i + length pre) rest msg req))
    | (tr, Return e) => (tr, Return e)
    end.
Proof.
  revert i. induction pre as [|h pre IH]; intros i; simpl.
  - rewrite Nat.add_0_r. destruct (handle_request _ _ _ _ _); reflexivity.
  - destruct (h req) as [[r|]|e]; simpl.
    + destruct (transport_Send _); [reflexivity|].
      rewrite IH. replace (i + S (length pre))%nat with (S i + length pre)%nat by lia.
      destruct (handle_request transport_Send (S i) pre msg req) as [tr [e|]];
        reflexivity.
    + rewrite IH. replace (i + S (length pre))%nat with (S i + length pre)%nat by lia.
      destruct (handle_request transport_Send (S i) pre msg req) as [tr [e|]];
        reflexivity.
    + reflexivity.
Qed.

(** X9: When no handler fails on the request and the transport sends, every
    handler of the chain is invoked, in order, and every response a
    handler gives is sent, in order: none when no handler answers, several
    when several do. *)
Theorem handle_request_offers_all (i : nat) (hs : list RequestHandler)
    (msg : BackendMessage) (req : BackendMessage_Request) :
  (forall m, transport_Send m = None) ->
  Forall (no_error req) hs ->
  invoked (fst (handle_request transport_Send i hs msg req)) = seq i (length hs)
  /\ sent (fst (handle_request transport_Send i hs msg req))
     = map (response_envelope msg) (answers hs req)
  /\ snd (handle_request transport_Send i hs msg req) = Fallthrough.
Proof.
  intros Hsend Hok. revert i.
  induction Hok as [|h hs Hh Hhs IH]; intros i; simpl; [auto|].
  unfold answers in *. simpl.
  destruct (h req) as [[r|]|e] eqn:Hr; [| |exfalso; apply (Hh e), Hr]; simpl.
  - rewrite Hsend. destruct (IH (S i)) as (HI & HS & HF).
    destruct (handle_request transport_Send (S i) hs msg req) as [tr f].
    simpl in *. rewrite HI, HS. auto.
  - destruct (IH (S i)) as (HI & HS & HF).
    destruct (handle_request transport_Send (S i) hs msg req) as [tr f].
    simpl in *. rewrite HI, HS. auto.
Qed.

(** X10: The first handler that fails ends the chain: the handlers before it
    were invoked and their responses sent, its error is sent back under
    the request's id, no later handler is invoked, and the turn returns
    what the transport said to the error envelope. *)
Theorem handle_request_first_error (pre post : list RequestHandler)
    (h : RequestHandler) (msg : BackendMessage) (req : BackendMessage_Request)
    (e : error) :
  (forall m, Response m <> None -> transport_Send m = None) ->
  Forall (no_error req) pre ->
  h req = Err e ->
  invoked (fst (handle_request transport_Send 0 (pre ++ h :: post) msg req))
  = seq 0 (S (length pre))
  /\ sent (fst (handle_request transport_Send 0 (pre ++ h :: post) msg req))
     = map (response_envelope msg) (answers pre req) ++ [error_envelope msg e]
  /\ snd (handle_request transport_Send 0 (pre ++ h :: post) msg req)
     = Return (transport_Send (error_envelope msg e)).
Proof.
  intros Hsend Hpre He.
  assert (Hgen : forall i,
    invoked (fst (handle_request transport_Send i (pre ++ h :: post) msg req))
    = seq i (S (length pre))
    /\ sent (fst (handle_request transport_Send i (pre ++ h :: post) msg req))
       = map (response_envelope msg) (answers pre req) ++ [error_envelope msg e]
    /\ snd (handle_request transport_Send i (pre ++ h :: post) msg req)
       = Return (transport_Send (error_envelope msg e))).
  { induction Hpre as [|h0 pre Hh0 Hpre IH]; intros i.
    - simpl. rewrite He. simpl. auto.
    - simpl. unfold answers in *. simpl.
      destruct (h0 req) as [[r|]|e0] eqn:Hr; [| |exfalso; apply (Hh0 e0), Hr]; simpl.
      + rewrite Hsend by discriminate.
        destruct (IH (S i)) as (HI & HS & HF).
        destruct (handle_request transport_Send (S i) (pre ++ h :: post) msg req)
          as [tr f].
        simpl in *. rewrite HI, HS. auto.
      + destruct (IH (S i)) as (HI & HS & HF).
        destruct (handle_request transport_Send (S i) (pre ++ h :: post) msg req)
          as [tr f].
        simpl in *. rewrite HI, HS. auto. }
  apply Hgen.
Qed.

(** X11: A response that answers an outstanding request is delivered once,
    to the channel registered under its id, and the entry is cut: the same
    response dispatched again finds no channel and fails, with nothing
    delivered. *)
Theorem OnMessage_response_delivered_once (b : Backend) (msg : BackendMessage)
    (r : BackendMessage_Response) (c : chan) :
  Request msg = None -> Response msg = Some r ->
  stack b !! RequestID msg = Some c ->
  exists b1 tr1,
    OnMessage transport_Send b msg = (b1, tr1, None)
    /\ delivered tr1 = [(c, outcome_of msg r)]
    /\ stack b1 = delete (RequestID msg) (stack b)
    /\ exists e, OnMessage transport_Send b1 msg
                 = (b1, [CutLookup (RequestID msg)], Some e).
Proof.
  intros Hreq Hresp Hc. unfold OnMessage at 1, outcome_of.
  rewrite Hreq, Hresp. simpl. unfold Cut. rewrite Hc. simpl.
  destruct (String.eqb (Error msg) EmptyString); simpl.
  - destruct (Auth r); do 2 eexists; (split; [reflexivity|]); simpl;
      (split; [reflexivity|]); (split; [reflexivity|]);
      unfold OnMessage; rewrite Hreq, Hresp; simpl; unfold Cut; simpl;
      rewrite lookup_delete_eq; simpl; eauto.
  - do 2 eexists. split; [reflexivity|]. simpl.
    split; [reflexivity|]. split; [reflexivity|].
    unfold OnMessage. rewrite Hreq, Hresp. simpl. unfold Cut. simpl.
    rewrite lookup_delete_eq. simpl. eauto.
Qed.

(** X12: What a dispatch turn may change: never the handler chain; the
    correlation table only by losing the entry of the message's id; the
    authenticated flag only from false to true, and only for a response
    without error that carries the authentication marker and matches an
    outstanding request. *)
Theorem OnMessage_frame (b : Backend) (msg : BackendMessage) :
  let b' := fst (fst (OnMessage transport_Send b msg)) in
  requestHandler b' = requestHandler b
  /\ (stack b' = stack b \/ stack b' = delete (RequestID msg) (stack b))
  /\ (authenticated b = true -> authenticated b' = true)
  /\ (authenticated b' = true -> authenticated b = true
      \/ (Request msg = None /\ Error msg = EmptyString
          /\ is_Some (stack b !! RequestID msg)
          /\ exists r, Response msg = Some r /\ is_Some (Auth r))).
Proof.
  unfold OnMessage.
  destruct (Request msg) as [req|] eqn:Hreq; destruct (Response msg) as [r|] eqn:Hresp;
    simpl; auto.
  - destruct (handle_request _ _ _ _ _) as [tr [e|]]; simpl; auto.
  - unfold Cut. destruct (stack b !! RequestID msg) as [c|] eqn:Hc; simpl; auto.
    destruct (String.eqb_spec (Error msg) EmptyString) as [He|He]; simpl; auto.
    destruct (Auth r) as [a|] eqn:Ha; simpl; auto.
    repeat split; auto. intros _. right. repeat split; eauto.
Qed.

End DispatchMore.

(** * The handshake: initiation and acceptance together *)

Lemma copy_into_id (n : nat) (b : bytes) : length b = n -> copy_into n b = b.
Proof.
  intros <-. unfold copy_into. rewrite firstn_app, Nat.sub_diag, firstn_all.
  simpl. apply app_nil_r.
Qed.

Section Handshake.
Import chat vocabulary.

Context {PreKeyBundlePublic : Type}.
Variable CalculateSecret : PreKeyBundlePublic -> result x3dh.InitializedProtocol.
Variable randSource_Read : nat -> result bytes.
Variable encryptMessage : bytes -> bytes -> result dr.Message.
Variable km_IdentityPublicKey : result string.
Variable Message_Sign : Message -> option error.
Variable SecretFromRemote : x3dh.ProtocolInitialisation -> result bytes.

(** X13: A message InitializeChat returns without error passes the checks of
    HandleInitialMessage: the key agreement is run once, on the
    initiator's ephemeral key as it was, and on the ratchet key of the
    encrypted greeting as the remote identity; what it derives is the
    answer. *)
Theorem InitializeChat_then_HandleInitialMessage (idPubKey : bytes)
    (bundle : PreKeyBundlePublic) (m : Message) (ip : x3dh.InitializedProtocol)
    (kb : PreKeyBundlePrivate) :
  array_of 32 (x3dh.EphemeralKey ip) ->
  InitializeChat CalculateSecret randSource_Read encryptMessage km_IdentityPublicKey
    Message_Sign idPubKey bundle = Returned (m, ip, None) ->
  let init :=
    {| x3dh.RemoteIdKey := copy_into 32 (dr.DH (dr.Header (DoubleratchetMessage m)));
       x3dh.RemoteEphemeralKey := x3dh.EphemeralKey ip;
       x3dh.MyOneTimePreKey := Some (OneTimePreKey kb);
       x3dh.MySignedPreKey := SignedPreKey kb |} in
  HandleInitialMessage SecretFromRemote m kb = ([init], SecretFromRemote init).
Proof.
  intros [Hlen Hrange]. unfold InitializeChat.
  destruct (CalculateSecret bundle) as [ip0|e]; [|discriminate].
  destruct (randSource_Read 16) as [sid|e]; [|discriminate].
  destruct (encryptMessage _ _) as [msg|e]; [|discriminate].
  destruct km_IdentityPublicKey as [myIdKey|e]; [|discriminate].
  destruct (x3dh.UsedOneTimePreKey ip0) as [otpk|]; [|discriminate].
  destruct (Message_Sign _) as [e|]; [discriminate|].
  intros [= <- <-]. unfold HandleInitialMessage. simpl.
  rewrite lookup_insert_ne by discriminate.
  rewrite lookup_insert_ne by discriminate.
  rewrite lookup_insert_eq.
  rewrite (hex_roundtrip _ Hrange). rewrite (copy_into_id 32 _ Hlen). reflexivity.
Qed.

(** X14: InitializeChat fails with the first error of its steps and then
    returns the zero message and the zero protocol state; it panics, after
    every earlier step succeeded, when the agreement used no one-time
    pre-key. *)
Theorem InitializeChat_failure (idPubKey : bytes) (bundle : PreKeyBundlePublic) :
  (forall m ip e,
     InitializeChat CalculateSecret randSource_Read encryptMessage
       km_IdentityPublicKey Message_Sign idPubKey bundle = Returned (m, ip, Some e) ->
     m = Message_zero /\ ip = InitializedProtocol_zero)
  /\ (InitializeChat CalculateSecret randSource_Read encryptMessage
        km_IdentityPublicKey Message_Sign idPubKey bundle = Panicked <->
      exists ip sid msg myIdKey,
        CalculateSecret bundle = Ok ip /\ randSource_Read 16 = Ok sid
        /\ encryptMessage (x3dh.SharedSecret ip) [104; 105] = Ok msg
        /\ km_IdentityPublicKey = Ok myIdKey
        /\ x3dh.UsedOneTimePreKey ip = None).
Proof.
  unfold InitializeChat. split.
  - intros m ip e.
    destruct (CalculateSecret bundle) as [ip0|e0]; [|intros [= <- <- _]; auto].
    destruct (randSource_Read 16) as [sid|e0]; [|intros [= <- <- _]; auto].
    destruct (encryptMessage _ _) as [msg|e0]; [|intros [= <- <- _]; auto].
    destruct km_IdentityPublicKey as [myIdKey|e0]; [|intros [= <- <- _]; auto].
    destruct (x3dh.UsedOneTimePreKey ip0) as [otpk|]; [|discriminate].
    destruct (Message_Sign _) as [e0|]; [intros [= <- <- _]; auto | discriminate].
  - destruct (CalculateSecret bundle) as [ip0|e0];
      [|split; [discriminate | intros (? & ? & ? & ? & ? & _); discriminate]].
    destruct (randSource_Read 16) as [sid|e0];
      [|split; [discriminate | intros (? & ? & ? & ? & _ & ? & _); discriminate]].
    destruct (encryptMessage _ _) as [msg|e0] eqn:Henc;
      [|split; [discriminate|];
        intros (? & ? & ? & ? & [= <-] & _ & Henc' & _); congruence].
    destruct km_IdentityPublicKey as [myIdKey|e0];
      [|split; [discriminate | intros (? & ? & ? & ? & _ & _ & _ & ? & _); discriminate]].
    destruct (x3dh.UsedOneTimePreKey ip0) as [otpk|] eqn:Hotpk.
    + split; [destruct (Message_Sign _); discriminate|].
      intros (? & ? & ? & ? & [= <-] & _ & _ & _ & ?). congruence.
    + split; [|reflexivity]. intros _. exists ip0, sid, msg, myIdKey. auto.
Qed.

End Handshake.

(** * The pre-key handler: what is published, what is said on failure *)

Section PreKeysHandlerMore.
Import chat vocabulary.

Context {rng pool : Type}.
Variable GenerateKeyPair : rng -> rng * result x3dh.KeyPair.
Variable oneTimePreKeyStorage_Put : pool -> list x3dh.KeyPair -> pool * option error.
Variable Sign : prekey.PreKey -> result prekey.PreKey.
Variable ToProtobuf : prekey.PreKey -> result bpb.PreKey.

Lemma sign_loop_error (keyPairs : list x3dh.KeyPair) (preKeys : list bpb.PreKey)
    (e : error) :
  sign_loop Sign ToProtobuf keyPairs preKeys = Err e ->
  e = "failed to sign one time pre key"
  \/ e = "failed to convert pre key to protobuf".
Proof.
  revert preKeys. induction keyPairs as [|kp rest IH]; intros preKeys H; simpl in H.
  - discriminate.
  - destruct (Sign _) as [pk|e0]; [|injection H as <-; auto].
    destruct (ToProtobuf pk) as [pkProto|e0]; [|injection H as <-; auto].
    eapply IH, H.
Qed.

Lemma generate_loop_error (fuel n : nat) (g g' : rng) (keyPairs : list x3dh.KeyPair)
    (e : error) :
  generate_loop GenerateKeyPair fuel n g keyPairs = Some (g', Err e) ->
  exists g0, GenerateKeyPair g0 = (g', Err e).
Proof.
  revert g keyPairs. induction fuel as [|fuel IH]; intros g keyPairs H; simpl in H.
  - discriminate.
  - destruct (Nat.eqb (length keyPairs) n); [discriminate|].
    destruct (GenerateKeyPair g) as [g1 [kp|e0]] eqn:Hg.
    + eapply IH, H.
    + injection H as <- <-. eauto.
Qed.

(** X15: The pre-keys the handler publishes are those of the key pairs it
    put to the pool, one for one and in order: each is the signed,
    converted public half of the pair at its position. *)
Theorem oneTimePreKeysHandler_publishes_persisted (fuel : nat) (g g' : rng)
    (p p' : pool) (req : bpb.BackendMessage_Request)
    (resp : bpb.BackendMessage_Response) :
  oneTimePreKeysHandler GenerateKeyPair oneTimePreKeyStorage_Put Sign ToProtobuf
    fuel g p req = Some (g', p', Ok (Some resp)) ->
  exists keyPairs,
    oneTimePreKeyStorage_Put p keyPairs = (p', None)
    /\ Forall2 (signed_from Sign ToProtobuf) keyPairs (bpb.OneTimePrekeys resp)
    /\ bpb.Auth resp = None.
Proof.
  unfold oneTimePreKeysHandler.
  destruct (N.eqb _ 0); [discriminate|].
  destruct (N.ltb 100 _); [discriminate|].
  destruct (generate_loop _ _ _ _ _) as [[g1 [keyPairs|e]]|]; try discriminate.
  destruct (oneTimePreKeyStorage_Put p keyPairs) as [p1 [e|]] eqn:HPut;
    [discriminate|].
  destruct (sign_loop Sign ToProtobuf keyPairs []) as [preKeys|e] eqn:Hsign;
    [|discriminate].
  intros [= <- <- <-]. exists keyPairs.
  destruct (sign_loop_pairs Sign ToProtobuf _ _ _ Hsign) as (published & -> & Hall).
  simpl. auto.
Qed.

(** X16: What the handler says when it fails: one of its four fixed
    messages, or the error of the key generation as it is.  The errors of
    the pool, of the signing and of the conversion do not reach the
    answer; and nothing is put to the pool unless every key pair was
    generated. *)
Theorem oneTimePreKeysHandler_errors (fuel : nat) (g g' : rng) (p p' : pool)
    (req : bpb.BackendMessage_Request) (e : error) :
  oneTimePreKeysHandler GenerateKeyPair oneTimePreKeyStorage_Put Sign ToProtobuf
    fuel g p req = Some (g', p', Err e) ->
  (e = "requested more then the max allowed pre keys" /\ g' = g /\ p' = p)
  \/ ((exists g0, GenerateKeyPair g0 = (g', Err e)) /\ p' = p)
  \/ ((e = "failed to persist generated key pairs"
       \/ e = "failed to sign one time pre key"
       \/ e = "failed to convert pre key to protobuf")
      /\ exists keyPairs,
           length keyPairs = N.to_nat (bpb.NewOneTimePreKeys req)
           /\ p' = fst (oneTimePreKeyStorage_Put p keyPairs)).
Proof.
  unfold oneTimePreKeysHandler.
  destruct (N.eqb _ 0); [discriminate|].
  destruct (N.ltb 100 _); [intros [= <- <- <-]; auto|].
  destruct (generate_loop _ _ _ _ _) as [[g1 [keyPairs|e0]]|] eqn:Hgen;
    try discriminate.
  - assert (Hlen : length keyPairs = N.to_nat (bpb.NewOneTimePreKeys req)).
    { clear -Hgen. revert Hgen. generalize (@nil x3dh.KeyPair) as acc.
      revert g. induction fuel as [|fuel IH]; intros g acc H; simpl in H;
        [discriminate|].
      destruct (Nat.eqb_spec (length acc) (N.to_nat (bpb.NewOneTimePreKeys req))).
      - injection H as _ <-. assumption.
      - destruct (GenerateKeyPair g) as [g2 [kp|e0]]; [|discriminate].
        eapply IH, H. }
    destruct (oneTimePreKeyStorage_Put p keyPairs) as [p1 [e0|]] eqn:HPut.
    + intros [= <- <- <-]. right. right. split; [auto|].
      exists keyPairs. rewrite HPut. auto.
    + destruct (sign_loop Sign ToProtobuf keyPairs []) as [preKeys|e0] eqn:Hsign;
        [discriminate|].
      intros [= <- <- <-]. right. right.
      split; [right; eapply sign_loop_error, Hsign|].
      exists keyPairs. rewrite HPut. auto.
  - intros [= <- <- <-]. right. left. split; [|reflexivity].
    eapply generate_loop_error, Hgen.
Qed.

End PreKeysHandlerMore.

(** * The coordinator: the discipline of its status updates *)

Section CoordinatorDiscipline.
Import chat vocabulary.

Context {W MDB PreKeyBundle Session : Type}.
Variable c : Deps W MDB PreKeyBundle Session.
Variable receiver : bytes.
Variable msg : PlainChatMessage.

Abbreviation triple := (hoare receiver msg).
Abbreviation clean := (@untouched W MDB).
Abbreviation failing := (@only_failures W MDB receiver msg).

Lemma clean_failing (s : St W MDB) : clean s -> failing s.
Proof. unfold untouched, only_failures. intros ->. constructor. Qed.

Lemma triple_ret {A} (Q : A -> St W MDB -> Prop) (a : A) : triple (Q a) (ret a) Q.
Proof. intros s H. exact H. Qed.

Lemma triple_bind {A B} (P : St W MDB -> Prop) (Q : A -> St W MDB -> Prop)
    (R : B -> St W MDB -> Prop) (m : M W MDB A) (f : A -> M W MDB B) :
  triple P m Q -> (forall a, triple (Q a) (f a) R) -> triple P (bind m f) R.
Proof.
  intros Hm Hf s HP. unfold bind. specialize (Hm s HP).
  destruct (m s) as [s' [a|e]]; [apply Hf, Hm | exact Hm].
Qed.

Lemma triple_weaken {A} (P P' : St W MDB -> Prop) (Q : A -> St W MDB -> Prop)
    (m : M W MDB A) :
  (forall s, P' s -> P s) -> triple P m Q -> triple P' m Q.
Proof. intros HPP Hm s HP. apply Hm, HPP, HP. Qed.

Lemma triple_call_clean {A} (f : W -> W * A) : triple clean (call W MDB f) (fun _ => clean).
Proof. intros s H. unfold call. destruct (f (world s)). exact H. Qed.

Lemma triple_return_ {A} (e : error) (Q : A -> St W MDB -> Prop) :
  triple failing (return_ (Some e)) Q.
Proof. intros s H. left. split; [discriminate | exact H]. Qed.

Lemma triple_handleSendError (e : error) :
  triple failing (handleSendError c receiver msg e) (fun _ => failing).
Proof.
  intros s H. rewrite handleSendError_records. simpl.
  unfold only_failures in *. simpl. apply Forall_app. split; [exact H|].
  constructor; [reflexivity | constructor].
Qed.

(** [return handleSendError(err)] *)
Lemma triple_fail {A} (e : error) (Q : A -> St W MDB -> Prop) :
  triple failing
    (bind (handleSendError c receiver msg e) (fun e' => return_ (Some e'))) Q.
Proof.
  eapply triple_bind; [apply triple_handleSendError|].
  intros e'. apply triple_return_.
Qed.

Lemma triple_handled {A} (r : result A) :
  triple (fun s => match r with Ok _ => clean s | Err _ => failing s end)
    (handled c receiver msg r) (fun _ => clean).
Proof.
  destruct r as [a|e]; unfold handled.
  - apply triple_ret with (Q := fun _ => clean).
  - apply triple_fail.
Qed.

Lemma triple_handled_clean {A} (r : result A) :
  triple clean (handled c receiver msg r) (fun _ => clean).
Proof.
  eapply triple_weaken; [|apply triple_handled].
  intros s H. destruct r; [exact H | apply clean_failing, H].
Qed.

Lemma triple_handled_nil (r : option error) :
  triple clean (handled_nil _ _ _ _ c receiver msg r) (fun _ => clean).
Proof.
  destruct r as [e|]; unfold handled_nil.
  - eapply triple_weaken; [apply clean_failing | apply triple_fail].
  - apply triple_ret with (Q := fun _ => clean).
Qed.

Lemma triple_unhandled {A} (r : result A) :
  triple clean (unhandled r) (fun _ => clean).
Proof.
  destruct r as [a|e]; unfold unhandled.
  - apply triple_ret with (Q := fun _ => clean).
  - eapply triple_weaken; [apply clean_failing | apply triple_return_].
Qed.

Lemma triple_unhandled_nil (r : option error) :
  triple clean (unhandled_nil _ _ r) (fun _ => clean).
Proof.
  destruct r as [e|]; unfold unhandled_nil.
  - eapply triple_weaken; [apply clean_failing | apply triple_return_].
  - apply triple_ret with (Q := fun _ => clean).
Qed.

Lemma triple_fetchSignedPreKey (userIDPubKey : bytes) :
  triple clean (fetchSignedPreKey _ _ _ _ c receiver msg userIDPubKey)
    (fun r s => match r with Ok _ => clean s | Err _ => failing s end).
Proof.
  unfold fetchSignedPreKey.
  eapply triple_bind; [apply triple_call_clean|]. intros [signedPreKey|e].
  - destruct (VerifySignature _ _ _ _ c signedPreKey userIDPubKey) as [[|]|e].
    + apply triple_ret with (Q := fun r s => match r with Ok _ => clean s
                                                       | Err _ => failing s end)
                            (a := Ok signedPreKey).
    + eapply triple_weaken; [apply clean_failing|].
      eapply triple_bind; [apply triple_handleSendError|]. intros e'.
      apply triple_ret with (Q := fun r s => match r with Ok _ => clean s
                                                         | Err _ => failing s end)
                              (a := Err e').
    + eapply triple_weaken; [apply clean_failing|].
      eapply triple_bind; [apply triple_handleSendError|]. intros e'.
      apply triple_ret with (Q := fun r s => match r with Ok _ => clean s
                                                         | Err _ => failing s end)
                              (a := Err e').
  - eapply triple_weaken; [apply clean_failing|].
    eapply triple_bind; [apply triple_handleSendError|]. intros e'.
    apply triple_ret with (Q := fun r s => match r with Ok _ => clean s
                                                       | Err _ => failing s end)
                            (a := Err e').
Qed.

Ltac clean_step :=
  first
    [ apply triple_call_clean
    | apply triple_handled_clean
    | apply triple_handled_nil
    | apply triple_unhandled
    | apply triple_unhandled_nil
    | apply triple_handled
    | apply triple_fetchSignedPreKey ].

Ltac clean_bind := eapply triple_bind; [clean_step | cbv beta; intros ?].
Ltac clean_bind_as x := eapply triple_bind; [clean_step | cbv beta; intros x].

Lemma triple_createSharedSecret :
  triple clean (createSharedSecret c receiver msg) (fun _ => clean).
Proof.
  unfold createSharedSecret. repeat (cbv zeta; clean_bind). cbv zeta. clean_step.
Qed.

Lemma triple_attachHandshake (ss : SharedSecret) (msgToSend : bpb.ChatMessage) :
  triple clean (attachHandshake _ _ _ _ c ss msgToSend) (fun _ => clean).
Proof.
  unfold attachHandshake.
  eapply triple_bind with (Q := fun _ => clean).
  { destruct (UsedOneTimePreKey ss) as [k|].
    - eapply triple_bind; [apply triple_unhandled_nil|]. intros ?.
      apply triple_ret with (Q := fun _ => clean).
    - apply triple_ret with (Q := fun _ => clean). }
  intros oneTimePreKey. repeat clean_bind.
  apply triple_ret with (Q := fun _ => clean).
Qed.

Lemma triple_steps :
  triple clean (SendMessage_steps c receiver msg) (fun _ _ => False).
Proof.
  unfold SendMessage_steps.
  clean_bind_as r. clean_bind_as hasAny.
  eapply triple_bind with (Q := fun _ => clean).
  { destruct hasAny; simpl; [apply triple_ret with (Q := fun _ => clean)
                           | apply triple_createSharedSecret]. }
  intros ?. clean_bind_as r1. clean_bind_as ss.
  clean_bind_as r2. clean_bind_as hasSignedPreKey.
  eapply triple_bind with (Q := fun _ => clean).
  { destruct hasSignedPreKey; simpl; [apply triple_ret with (Q := fun _ => clean)|].
    clean_bind_as r3. clean_step. }
  intros ?. clean_bind_as r3. clean_bind_as signedPreKey0. clean_bind_as expired.
  eapply triple_bind with (Q := fun _ => clean).
  { destruct expired.
    - clean_bind_as r4. eapply triple_bind; [apply triple_handled_nil|]. intros ?.
      clean_bind_as r5. clean_step.
    - apply triple_ret with (Q := fun _ => clean). }
  intros signedPreKey.
  eapply triple_bind with (Q := fun m' s => clean s /\ MessageID m' = MessageID msg).
  { destruct (negb (Accepted ss)).
    - destruct (negb _).
      + eapply triple_weaken; [apply clean_failing | apply triple_fail].
      + intros s H. simpl. auto.
    - intros s H. simpl. auto. }
  intros msg'. cbv zeta.
  eapply triple_bind with (Q := fun _ s => clean s /\ MessageID msg' = MessageID msg).
  { intros s [H Hid].
    pose proof (triple_handled_clean
                  (dr_NewWithRemoteKey _ _ _ _ c (copy_into 32 (X3dhSS ss))
                     (copy_into 32 (prekey.PublicKey signedPreKey))) s H) as Hh.
    destruct (handled _ _ _ _ _) as [s' [v|err]]; auto. }
  intros drSession.
  eapply triple_bind with (Q := fun _ s => clean s /\ MessageID msg' = MessageID msg).
  { intros s [H Hid].
    pose proof (triple_handled_clean (proto_Marshal _ _ _ _ c msg') s H) as Hh.
    destruct (handled _ _ _ _ _) as [s' [v|err]]; auto. }
  intros rawPlainMessage.
  eapply triple_bind with (Q := fun _ s => clean s /\ MessageID msg' = MessageID msg).
  { intros s [H Hid].
    pose proof (triple_call_clean (km_IdentityPublicKey _ _ _ _ c) s H) as Hh.
    destruct (call _ _ _ _) as [s' [v|err]]; auto. }
  intros r6.
  eapply triple_bind with (Q := fun _ s => clean s /\ MessageID msg' = MessageID msg).
  { intros s [H Hid].
    pose proof (triple_handled_clean r6 s H) as Hh.
    destruct (handled _ _ _ _ _) as [s' [v|err]]; auto. }
  intros senderIdPubStr.
  eapply triple_bind with (Q := fun _ s => clean s /\ MessageID msg' = MessageID msg).
  { intros s [H Hid]. destruct (hex_DecodeString senderIdPubStr) as [sender [e|]].
    - apply (triple_fail e (fun _ s => clean s /\ MessageID msg' = MessageID msg)).
      apply clean_failing, H.
    - simpl. auto. }
  intros sender.
  eapply triple_bind with (Q := fun _ s => clean s /\ MessageID msg' = MessageID msg).
  { intros s [H Hid]. destruct (negb (Accepted ss)).
    - pose proof (triple_attachHandshake ss
        {| bpb.MessageID := string_bytes (MessageID msg');
           bpb.Receiver := receiver;
           bpb.Message :=
             Some {| bpb.DoubleRatchetPK :=
                       dr.DH (dr.Header (RatchetEncrypt _ _ _ _ c drSession
                                           rawPlainMessage));
                     bpb.N_ := dr.N_ (dr.Header (RatchetEncrypt _ _ _ _ c drSession
                                                   rawPlainMessage));
                     bpb.Pn := dr.PN (dr.Header (RatchetEncrypt _ _ _ _ c drSession
                                                   rawPlainMessage));
                     bpb.CipherText :=
                       dr.Ciphertext (RatchetEncrypt _ _ _ _ c drSession
                                        rawPlainMessage) |};
           bpb.Sender := sender;
           bpb.OneTimePreKey := []; bpb.SignedPreKey := [];
           bpb.SenderChatIDKey := []; bpb.SenderChatIDKeySignature := [];
           bpb.EphemeralKey := []; bpb.EphemeralKeySignature := [] |} s H) as Hh.
      destruct (attachHandshake _ _ _ _ _ _ _ _) as [s' [v|err]]; auto.
    - simpl. auto. }
  intros msgToSend.
  eapply triple_bind with (Q := fun _ s => clean s /\ MessageID msg' = MessageID msg).
  { intros s [H Hid].
    pose proof (triple_call_clean (backend_SubmitMessage _ _ _ _ c msgToSend) s H)
      as Hh.
    destruct (call _ _ _ _) as [s' [v|err]]; auto. }
  intros submitted.
  eapply triple_bind with (Q := fun _ s => clean s /\ MessageID msg' = MessageID msg).
  { intros s [H Hid].
    pose proof (triple_handled_nil submitted s H) as Hh.
    destruct (handled_nil _ _ _ _ _ _ _ _ _) as [s' [v|err]]; auto. }
  intros ?.
  intros s [H Hid]. unfold bind, UpdateStatus, return_.
  destruct (messageDB_UpdateStatus _ _ _ _ c (messageDB s) receiver (MessageID msg')
              db.StatusSent) as [m e].
  right. simpl. unfold untouched in H. rewrite H, Hid. reflexivity.
Qed.

(** X17: The status updates of SendMessage, on every path.  When it returns
    no error, exactly one update was made and it marks the message as
    Sent.  A FailedToSend update comes with an error result and never
    with a Sent one; no update is ever made for another message or
    partner, or with another status. *)
Theorem SendMessage_status_discipline (w : W) (m : MDB) :
  let s := fst (SendMessage c w m receiver msg) in
  let e := snd (SendMessage c w m receiver msg) in
  (e = None -> status_updates s = [marked_sent receiver msg])
  /\ (In (failed_to_send receiver msg) (status_updates s) ->
      e <> None /\ ~ In (marked_sent receiver msg) (status_updates s))
  /\ Forall (fun u => u = failed_to_send receiver msg
                      \/ u = marked_sent receiver msg) (status_updates s).
Proof.
  unfold SendMessage.
  pose proof (triple_steps {| world := w; messageDB := m; status_updates := [] |}
                eq_refl) as H.
  destruct (SendMessage_steps c receiver msg _) as [s [[]|e]]; [contradiction|].
  simpl. destruct H as [[He Hf]|Hs].
  - unfold only_failures in Hf. split; [|split].
    + intros ->. contradiction.
    + intros _. split; [exact He|]. intros Hin.
      rewrite List.Forall_forall in Hf. apply Hf in Hin. discriminate.
    + eapply List.Forall_impl; [|exact Hf]. intros u <-. auto.
  - rewrite Hs. split; [|split].
    + reflexivity.
    + intros [Hin|[]]. discriminate.
    + constructor; [auto | constructor].
Qed.

End CoordinatorDiscipline.

(** * The remote key stores: what is sent, what is found *)

Section KeyStoresMore.
Import vocabulary.

Context {W : Type}.

(** The store behind the request API reports a key as found exactly
    when the request was answered and the answer unwraps, through
    aes.Unmarshal and AESDecrypt, to a key of 32 bytes; the key returned is
    that key, and the server is then told nil on the closer. *)
Theorem api_Get_found_iff (request : api.Request -> Z -> W -> W * result api.Response)
    (aes_Unmarshal km_AESDecrypt : bytes -> result bytes)
    (w : W) (k : bytes) (msgNum : N) (mk : bytes) :
  snd (api.Get request aes_Unmarshal km_AESDecrypt w k msgNum) = (mk, true)
  <-> exists w' resp ct,
        request (api.DRKeyStoreGet k msgNum) eight_seconds w = (w', Ok resp)
        /\ aes_Unmarshal (api.DRKeyStoreGet_MessageKey resp) = Ok ct
        /\ km_AESDecrypt ct = Ok mk
        /\ length mk = 32%nat
        /\ api.closed (snd (fst (api.Get request aes_Unmarshal km_AESDecrypt
                                   w k msgNum))) = [None].
Proof.
  unfold api.Get.
  destruct (request _ _ w) as [w' [resp|e]] eqn:Hreq; simpl.
  - destruct (aes_Unmarshal _) as [ct|e] eqn:Hct; simpl.
    + destruct (km_AESDecrypt ct) as [messageKey|e] eqn:Hmk; simpl.
      * destruct (Nat.eqb_spec (length messageKey) 32) as [Hlen|Hlen]; simpl.
        -- rewrite (copy_into_id 32 _ Hlen). split.
           ++ intros [= <-]. exists w', resp, ct. auto.
           ++ intros (w2 & resp2 & ct2 & [= <- <-] & Hct2 & Hmk2 & _).
              rewrite Hct in Hct2. injection Hct2 as <-.
              rewrite Hmk in Hmk2. injection Hmk2 as <-. reflexivity.
        -- split; [discriminate|].
           intros (w2 & resp2 & ct2 & [= <- <-] & Hct2 & Hmk2 & Hlen2 & _).
           rewrite Hct in Hct2. injection Hct2 as <-.
           rewrite Hmk in Hmk2. injection Hmk2 as <-. contradiction.
      * split; [discriminate|].
        intros (w2 & resp2 & ct2 & [= <- <-] & Hct2 & Hmk2 & _).
        rewrite Hct in Hct2. injection Hct2 as <-. congruence.
    + split; [discriminate|].
      intros (w2 & resp2 & ct2 & [= <- <-] & Hct2 & _). congruence.
  - split; [discriminate|]. intros (w2 & resp2 & ct2 & Hreq2 & _). discriminate.
Qed.

(** X18: Put of the store behind the request API never lets the message key
    itself leave: a request is made only after the key was encrypted and
    the cipher text marshalled, and it carries that marshalled cipher
    text; when either step fails nothing is requested and the connection
    is left as it was. *)
Theorem api_Put_sends_cipher_only
    (request : api.Request -> Z -> W -> W * result api.Response)
    (km_AESEncrypt ct_Marshal : bytes -> result bytes)
    (w : W) (k : bytes) (msgNum : N) (mk : bytes) :
  (forall req,
     In req (api.requests (snd (api.Put request km_AESEncrypt ct_Marshal w k msgNum mk)))
     -> exists ct rawCt,
          km_AESEncrypt mk = Ok ct /\ ct_Marshal ct = Ok rawCt
          /\ req = api.DRKeyStorePut k msgNum rawCt)
  /\ ((forall ct rawCt, km_AESEncrypt mk = Ok ct -> ct_Marshal ct <> Ok rawCt) ->
      api.requests (snd (api.Put request km_AESEncrypt ct_Marshal w k msgNum mk)) = []
      /\ fst (api.Put request km_AESEncrypt ct_Marshal w k msgNum mk) = w).
Proof.
  unfold api.Put.
  destruct (km_AESEncrypt mk) as [ct|e]; simpl.
  - destruct (ct_Marshal ct) as [rawCt|e] eqn:Hm; simpl.
    + split.
      * intros req Hin. exists ct, rawCt.
        destruct (request _ _ w) as [w' [resp|e]]; simpl in Hin;
          destruct Hin as [<-|[]]; auto.
      * intros Hfail. exfalso. apply (Hfail ct rawCt eq_refl Hm).
    + split; [intros req [] | auto].
  - split; [intros req [] | auto].
Qed.

(** X19: Round trip through the server: when the server answers a Get with
    the cipher text a Put handed it, and the cipher text unmarshals and
    decrypts to what was marshalled and encrypted, Get finds the 32-byte
    message key that was put. *)
Theorem api_Put_then_Get
    (request : api.Request -> Z -> W -> W * result api.Response)
    (aes_Unmarshal km_AESDecrypt km_AESEncrypt ct_Marshal : bytes -> result bytes)
    (w w1 w2 : W) (k : bytes) (msgNum : N) (mk rawCt : bytes)
    (eff : api.Effects) (resp : api.Response) :
  length mk = 32%nat ->
  (forall plain ct, km_AESEncrypt plain = Ok ct -> km_AESDecrypt ct = Ok plain) ->
  (forall ct marshalled, ct_Marshal ct = Ok marshalled ->
                         aes_Unmarshal marshalled = Ok ct) ->
  api.Put request km_AESEncrypt ct_Marshal w k msgNum mk = (w1, eff) ->
  api.requests eff = [api.DRKeyStorePut k msgNum rawCt] ->
  request (api.DRKeyStoreGet k msgNum) eight_seconds w1 = (w2, Ok resp) ->
  api.DRKeyStoreGet_MessageKey resp = rawCt ->
  snd (api.Get request aes_Unmarshal km_AESDecrypt w1 k msgNum) = (mk, true).
Proof.
  intros Hlen Haes Hcodec HPut Hreqs Hget Hkey.
  apply api_Get_found_iff.
  unfold api.Put in HPut.
  destruct (km_AESEncrypt mk) as [ct|e] eqn:Henc;
    [|injection HPut as _ <-; discriminate].
  destruct (ct_Marshal ct) as [raw0|e] eqn:Hm;
    [|injection HPut as _ <-; discriminate].
  assert (raw0 = rawCt) as ->.
  { destruct (request (api.DRKeyStorePut k msgNum raw0) eight_seconds w)
      as [w' [r|e]]; injection HPut as _ <-; simpl in Hreqs; congruence. }
  exists w2, resp, ct. rewrite Hkey.
  repeat split; auto.
  unfold api.Get. rewrite Hget. simpl. rewrite Hkey, (Hcodec _ _ Hm). simpl.
  rewrite (Haes _ _ Henc). simpl.
  destruct (Nat.eqb_spec (length mk) 32); [reflexivity | contradiction].
Qed.


End KeyStoresMore.

(** * The device API *)

Section DeviceApi.
Import device_api.

Context {State : Type}.
Variable state_Add : State -> chan -> State * N.
Variable state_Cut : State -> N -> State * result chan.
Variable apiCall_Marshal : apiCall -> result string.
Variable json_Unmarshal : string -> result rawResponse.
Variable valid_ValidateStruct : rawResponse -> option error.

(** X21: Send gives the device something only when it returns a channel:
    then exactly one marshalled call was handed over, carrying the call's
    type and data and the id the state assigned to the channel, and the
    channel is a new one.  A call that is not valid, or has no data, is
    refused with everything left as it was. *)
Theorem Send_outcome (a a' : Api State) (call : JsonRPCCall) (r : result chan) :
  Send state_Add apiCall_Marshal a call = (a', r) ->
  match r with
  | Ok respChan =>
      respChan = made a /\ made a' = S (made a)
      /\ call_Valid call = None
      /\ exists callContent callData,
           call_Data call = Ok callContent
           /\ apiCall_Marshal {| Type_ := call_Type call;
                                 Id := snd (state_Add (state a) respChan);
                                 Data := callContent |} = Ok callData
           /\ device a' = device a ++ [callData]
           /\ state a' = fst (state_Add (state a) respChan)
  | Err e =>
      device a' = device a
      /\ (call_Valid call = Some e \/ call_Data call = Err e -> a' = a)
  end.
Proof.
  unfold Send.
  destruct (call_Valid call) as [e0|].
  { intros [= <- <-]. split; [reflexivity | auto]. }
  destruct (call_Data call) as [callContent|e0].
  2:{ intros [= <- <-]. split; [reflexivity | auto]. }
  destruct (state_Add (state a) (made a)) as [st id] eqn:HAdd.
  destruct (apiCall_Marshal _) as [callData|e0] eqn:HM.
  - intros [= <- <-]. simpl. repeat split.
    exists callContent, callData. rewrite HAdd. simpl. auto.
  - intros [= <- <-]. simpl. split; [reflexivity|].
    intros [H|H]; discriminate.
Qed.

(** X22: Receive takes the channel of the id out of the state first.  A
    response is put on that channel only when the data decodes and
    validates; it carries the payload, and an error exactly when the
    answer names one, and Receive then returns what the receiver gave the
    closer.  When the data does not decode or validate Receive returns the
    error with nothing delivered, though the channel has been taken out. *)
Theorem Receive_outcome (a a' : Api State) (id : N) (data : string)
    (closer_reply res : option error) (delivered : option (chan * Response)) :
  Receive state_Cut json_Unmarshal valid_ValidateStruct a id data closer_reply
  = (a', delivered, res) ->
  state a' = fst (state_Cut (state a) id)
  /\ device a' = device a
  /\ match delivered with
     | Some (respChan, r) =>
         snd (state_Cut (state a) id) = Ok respChan
         /\ res = closer_reply
         /\ exists rr,
              json_Unmarshal data = Ok rr /\ valid_ValidateStruct rr = None
              /\ Payload r = raw_Payload rr
              /\ Error r = (if String.eqb (raw_Error rr) EmptyString then None
                            else Some (raw_Error rr))
     | None =>
         exists e, res = Some e
           /\ (snd (state_Cut (state a) id) = Err e
               \/ json_Unmarshal data = Err e
               \/ exists rr, json_Unmarshal data = Ok rr
                    /\ valid_ValidateStruct rr = Some e)
     end.
Proof.
  unfold Receive.
  destruct (state_Cut (state a) id) as [st [respChan|e]]; simpl.
  2:{ intros [= <- <- <-]. simpl. split; [|split]; try reflexivity.
      exists e. auto. }
  destruct (json_Unmarshal data) as [rr|e] eqn:HU.
  2:{ intros [= <- <- <-]. simpl. split; [|split]; try reflexivity.
      exists e. auto. }
  destruct (valid_ValidateStruct rr) as [e|] eqn:HV.
  { intros [= <- <- <-]. simpl. split; [|split]; try reflexivity.
    exists e. split; [reflexivity|]. right. right. exists rr. auto. }
  intros [= <- <- <-]. simpl. split; [|split]; try reflexivity.
  split; [reflexivity|]. split; [reflexivity|].
  exists rr. split; [reflexivity|]. split; [exact HV|]. split; [reflexivity|].
  destruct (String.eqb (raw_Error rr) EmptyString); reflexivity.
Qed.

End DeviceApi.

(** * The DApp storage *)

Section DAppStorage.
Import dapp.

Context {JsonBuild raw : Type}.
Variable Version : JsonBuild -> Z.
Variable UsedSigningKey : JsonBuild -> bytes.
Variable VerifySignature : JsonBuild -> result bool.
Variable json_Marshal : JsonBuild -> result raw.
Variable json_Unmarshal : raw -> result JsonBuild.
Variable value_too_large : raw -> bool.

(** X23: SaveDApp writes, and announces the DApp to the UI, only for a build
    of version 1 or more whose signature verifies and whose signing key is
    not empty; the announcement names the signing key in hex.  When it
    returns an error the store is as before and nothing is announced. *)
Theorem SaveDApp_outcome (d d' : DB raw) (dApp : JsonBuild) (res : option error)
    (announced : list string) :
  SaveDApp Version UsedSigningKey VerifySignature json_Marshal value_too_large d dApp
  = (d', res, announced) ->
  match res with
  | Some _ => d' = d /\ announced = []
  | None =>
      1 <= Version dApp /\ VerifySignature dApp = Ok true
      /\ UsedSigningKey dApp <> []
      /\ announced = [hex_EncodeToString (UsedSigningKey dApp)]
      /\ exists rawDApp,
           json_Marshal dApp = Ok rawDApp
           /\ d' = {| dapps := Some (db.bucket_Put (default [] (dapps d))
                                      (UsedSigningKey dApp) rawDApp) |}
  end.
Proof.
  unfold SaveDApp.
  destruct (Z.ltb_spec (Version dApp) 1) as [Hv|Hv]; [intros [= <- <- <-]; auto|].
  destruct (VerifySignature dApp) as [[|]|e]; try (intros [= <- <- <-]; auto; fail).
  destruct (json_Marshal dApp) as [rawDApp|e]; [|intros [= <- <- <-]; auto].
  unfold bolt_Put.
  destruct (Nat.eqb_spec (length (UsedSigningKey dApp)) 0) as [Hk|Hk];
    [intros [= <- <- <-]; auto|].
  destruct (N.ltb _ _); [intros [= <- <- <-]; auto|].
  destruct (value_too_large rawDApp); [intros [= <- <- <-]; auto|].
  intros [= <- <- <-]. repeat split; auto.
  - intros Hnil. rewrite Hnil in Hk. apply Hk. reflexivity.
  - eauto.
Qed.

Lemma SaveDApp_stores (d d' : DB raw) (dApp : JsonBuild) (announced : list string) :
  SaveDApp Version UsedSigningKey VerifySignature json_Marshal value_too_large d dApp
  = (d', None, announced) ->
  exists rawDApp,
    json_Marshal dApp = Ok rawDApp
    /\ d' = {| dapps := Some (db.bucket_Put (default [] (dapps d))
                               (UsedSigningKey dApp) rawDApp) |}.
Proof.
  unfold SaveDApp.
  destruct (Version dApp <? 1); [discriminate|].
  destruct (VerifySignature dApp) as [[|]|e]; try discriminate.
  destruct (json_Marshal dApp) as [rawDApp|e]; [|discriminate].
  destruct (bolt_Put _ _ _) as [b|e] eqn:HPut; [|discriminate].
  intros [= <- <-]. exists rawDApp. split; [reflexivity|].
  unfold bolt_Put in HPut.
  destruct (Nat.eqb _ 0); [discriminate|].
  destruct (N.ltb _ _); [discriminate|].
  destruct (value_too_large rawDApp); [discriminate|].
  injection HPut as <-. reflexivity.
Qed.

Lemma decode_each_all (records : db.Bucket raw) (dApps decoded : list JsonBuild) :
  decode_each json_Unmarshal records dApps = (decoded, None) ->
  (forall x, In x dApps -> In x decoded)
  /\ (forall kv, In kv records ->
        exists x, json_Unmarshal (snd kv) = Ok x /\ In x decoded)
  /\ length decoded = (length dApps + length records)%nat.
Proof.
  revert dApps. induction records as [|[k v] rest IH]; intros dApps H; simpl in H.
  - injection H as <-. simpl. split; [auto|]. split; [intros kv []|lia].
  - destruct (json_Unmarshal v) as [x|e] eqn:Hx; [|discriminate].
    destruct (IH _ H) as (Hacc & Hrest & Hlen). split; [|split].
    + intros y Hy. apply Hacc, in_or_app. auto.
    + intros kv [<-|Hin]; [|apply Hrest, Hin].
      exists x. split; [exact Hx|]. apply Hacc, in_or_app. right. left. reflexivity.
    + rewrite Hlen, length_app. simpl. lia.
Qed.

(** X24: Save, then list: a build that was saved is among the builds All
    returns, when All reads the store without error and the stored form of
    the build decodes to it; All then returns one build per record. *)
Theorem SaveDApp_then_All (d d' : DB raw) (dApp : JsonBuild)
    (announced : list string) (listed : list JsonBuild) :
  (forall rawDApp, json_Marshal dApp = Ok rawDApp -> json_Unmarshal rawDApp = Ok dApp) ->
  SaveDApp Version UsedSigningKey VerifySignature json_Marshal value_too_large d dApp
  = (d', None, announced) ->
  All json_Unmarshal d' = (listed, None) ->
  In dApp listed
  /\ length listed = length (default [] (dapps d')).
Proof.
  intros Hcodec Hsave Hall.
  destruct (SaveDApp_stores _ _ _ _ Hsave) as (rawDApp & Hm & ->).
  unfold All in Hall. simpl in *.
  destruct (decode_each_all _ _ _ Hall) as (_ & Hrec & Hlen). split; [|exact Hlen].
  destruct (Hrec (UsedSigningKey dApp, rawDApp)) as (x & Hx & Hin).
  { apply bucket_Put_holds. }
  simpl in Hx. rewrite (Hcodec _ Hm) in Hx. injection Hx as <-. exact Hin.
Qed.

(** X25: All on a record that does not decode: the error comes back with the
    builds decoded before it, and no build after it is read. *)
Theorem All_stops_at_first_error (d : DB raw) (before after : db.Bucket raw)
    (k : bytes) (bad : raw) (e : error) (good : list JsonBuild) :
  dapps d = Some (before ++ (k, bad) :: after) ->
  Forall2 (fun kv x => json_Unmarshal (snd kv) = Ok x) before good ->
  json_Unmarshal bad = Err e ->
  All json_Unmarshal d = (good, Some e).
Proof.
  intros Hd Hgood Hbad. unfold All. rewrite Hd. clear Hd.
  assert (Hgen : forall acc,
            decode_each json_Unmarshal (before ++ (k, bad) :: after) acc
            = (acc ++ good, Some e)).
  { induction Hgood as [|[k0 v0] x before good Hx Hrest IH]; intros acc; simpl.
    - rewrite Hbad, app_nil_r. reflexivity.
    - simpl in Hx. rewrite Hx, IH, <- List.app_assoc. reflexivity. }
  apply (Hgen []).
Qed.

End DAppStorage.

(** * Password-based encryption *)

Section Scrypt.
Import scrypt.

Context {aesCipherText : Type}.
Variable rand_Read : nat -> result bytes.
Variable scrypt_Key : bytes -> bytes -> Z -> Z -> Z -> Z -> result bytes.
Variable aes_Encrypt : bytes -> bytes -> aesCipherText * option error.
Variable aes_Decrypt : aesCipherText -> bytes -> result bytes.
Variable beyond_length : bytes -> chat.outcome bytes.

Lemma makeScryptKey_ok (pw : bytes) (k : Key) :
  makeScryptKey rand_Read scrypt_Key pw = Ok k ->
  N_ k = 16384 /\ R k = 8 /\ P k = 1 /\ KeyLen k = 32
  /\ rand_Read 50 = Ok (Salt k)
  /\ scrypt_Key pw (Salt k) 16384 8 1 32 = Ok (key k)
  /\ length (key k) = 32%nat.
Proof.
  unfold makeScryptKey, saltLength, n, r, p, keyLength.
  destruct (rand_Read 50) as [salt|e]; [|discriminate].
  destruct (scrypt_Key pw salt 16384 8 1 32) as [derived|e] eqn:Hk; [|discriminate].
  destruct (Nat.eqb_spec (length derived) 32) as [Hlen|Hlen]; [|discriminate].
  simpl. intros [= <-]. simpl. rewrite (copy_into_id 32 _ Hlen). auto 10.
Qed.

(** X26: NewCipherText fails exactly when the key derivation fails: an error
    of the AES encryption is not reported.  A cipher text it returns
    records the scrypt parameters 16384, 8, 1, the key length 32, the salt
    that was drawn, and whatever the encryption produced under the derived
    32-byte key. *)
Theorem NewCipherText_outcome (plainText password : bytes) :
  (forall e, NewCipherText rand_Read scrypt_Key aes_Encrypt plainText password = Err e
             <-> makeScryptKey rand_Read scrypt_Key password = Err e)
  /\ (forall c,
        NewCipherText rand_Read scrypt_Key aes_Encrypt plainText password = Ok c ->
        N_ (ScryptKey c) = 16384 /\ R (ScryptKey c) = 8 /\ P (ScryptKey c) = 1
        /\ KeyLen (ScryptKey c) = 32
        /\ rand_Read 50 = Ok (Salt (ScryptKey c))
        /\ length (key (ScryptKey c)) = 32%nat
        /\ CipherText_ c = fst (aes_Encrypt plainText (key (ScryptKey c)))).
Proof.
  unfold NewCipherText. split.
  - intros e. destruct (makeScryptKey rand_Read scrypt_Key password) as [k|e0].
    + destruct (aes_Encrypt plainText (key k)). split; discriminate.
    + split; intros [= ->]; reflexivity.
  - intros c.
    destruct (makeScryptKey rand_Read scrypt_Key password) as [k|e0] eqn:Hk;
      [|discriminate].
    destruct (aes_Encrypt plainText (key k)) as [ct err] eqn:Henc.
    intros [= <-]. simpl. rewrite Henc. simpl.
    apply makeScryptKey_ok in Hk.
    destruct Hk as (HN & HR & HP & HL & Hsalt & _ & Hlen). auto 10.
Qed.

(** X27: Round trip: what NewCipherText returned decrypts, under the same
    password, to the plain text, when the AES encryption under the derived
    key did succeed and AES decryption undoes AES encryption. *)
Theorem NewCipherText_then_Decrypt (plainText password : bytes)
    (c : CipherText aesCipherText) :
  (forall secret ct, aes_Encrypt plainText secret = (ct, None) ->
                     aes_Decrypt ct secret = Ok plainText) ->
  NewCipherText rand_Read scrypt_Key aes_Encrypt plainText password = Ok c ->
  snd (aes_Encrypt plainText (key (ScryptKey c))) = None ->
  DecryptCipherText scrypt_Key aes_Decrypt beyond_length c password
  = chat.Returned (Ok plainText).
Proof.
  intros Haes Hnew Henc. unfold NewCipherText in Hnew.
  destruct (makeScryptKey rand_Read scrypt_Key password) as [k|e0] eqn:Hk;
    [|discriminate].
  destruct (aes_Encrypt plainText (key k)) as [ct err] eqn:He.
  injection Hnew as <-. simpl in *. rewrite He in Henc. simpl in Henc. subst err.
  apply makeScryptKey_ok in Hk.
  destruct Hk as (HN & HR & HP & HL & _ & Hderive & Hlen).
  unfold DecryptCipherText. simpl. rewrite HN, HR, HP, HL, Hderive, Hlen.
  simpl. rewrite firstn_all2 by lia.
  rewrite (copy_into_id 32 _ Hlen). rewrite (Haes _ _ He). reflexivity.
Qed.

End Scrypt.

(** * The public API: stopping, and the signing keys of DApps *)

Lemma hex_DecodeString_length :
  forall (s : string) (b : bytes),
    hex_DecodeString s = (b, None) -> String.length s = (2 * length b)%nat.
Proof.
  fix IH 1. intros [|p [|q rest]] b; simpl.
  - intros [= <-]. reflexivity.
  - destruct (fromHexChar p); discriminate.
  - destruct (fromHexChar p); [|discriminate].
    destruct (fromHexChar q); [|discriminate].
    destruct (hex_DecodeString rest) as [tl e] eqn:Hrest.
    intros [= <- ->]. simpl. rewrite (IH rest tl Hrest). lia.
Qed.

Lemma signing_key_refuses (s : string) (bad_length : error) :
  String.length s <> 64%nat -> exists e, panthalassa.signing_key s bad_length = Err e.
Proof.
  intros Hlen. unfold panthalassa.signing_key.
  destruct (hex_DecodeString s) as [b [e|]] eqn:Hhex; [eauto|].
  apply hex_DecodeString_length in Hhex.
  destruct (Nat.eqb_spec (length b) 32) as [Hb|Hb]; simpl; [lia | eauto].
Qed.

Lemma signing_key_accepts (k : bytes) (bad_length : error) :
  length k = 32%nat -> Forall (fun x => 0 <= x < 256) k ->
  panthalassa.signing_key (hex_EncodeToString k) bad_length = Ok k.
Proof.
  intros Hlen Hrange. unfold panthalassa.signing_key.
  rewrite (hex_roundtrip k Hrange), Hlen. reflexivity.
Qed.

Section PublicApi.
Import panthalassa vocabulary.

Context {KeyManager Instance Response Multiaddr : Type}.
Variable ops : Ops KeyManager Instance Response Multiaddr.

(** X28: Stop gives up the instance whatever the instance's own Stop
    answers: it returns that answer, which may be an error, and the
    package holds no instance afterwards, so that the next start is not
    refused and installs what it builds. *)
Theorem Stop_frees_the_singleton (w : World Instance) (i : Instance) :
  panthalassaInstance w = Some i ->
  snd (Stop ops w) = instance_Stop _ _ _ _ ops i
  /\ panthalassaInstance (fst (Stop ops w)) = None
  /\ forall dbDir km config built,
       construct _ _ _ _ ops dbDir km config = Ok built ->
       snd (start ops dbDir km config (fst (Stop ops w))) = None
       /\ panthalassaInstance (fst (start ops dbDir km config (fst (Stop ops w))))
          = Some built.
Proof.
  intros Hw. unfold Stop. rewrite Hw. simpl.
  split; [reflexivity|]. split; [reflexivity|].
  intros dbDir km config built Hbuilt. unfold start.
  destruct (EnableDebugging config); simpl; rewrite Hbuilt; simpl; auto.
Qed.

(** X29: The five calls that name a DApp by its signing key return an error
    and do nothing, the registry is not reached, unless the key is given
    as 64 characters: only such a string can be the hex form of 32
    bytes. *)
Theorem DApp_calls_need_64_hex_digits (c : Call) (key : string) (w : World Instance) :
  dapp_key c = Some key ->
  String.length key <> 64%nat ->
  exists s e, exec ops c w = (w, (s, Some e)).
Proof.
  intros Hc Hlen.
  destruct c; simpl in Hc; try discriminate; injection Hc as ->; simpl;
    unfold OpenDApp, StartDApp, RenderMessage, CallDAppFunction, StopDApp, only_error;
    try (destruct (id <? 0); [simpl; eauto|]);
    (destruct (panthalassaInstance w) as [i|]; [|simpl; eauto]);
    match goal with
    | |- context [signing_key key ?m] =>
        destruct (signing_key_refuses key m Hlen) as [e ->]
    end; simpl; eauto.
Qed.

(** X30: The key under which the DApp storage announces a saved build opens
    that DApp: for a signing key of 32 bytes OpenDApp accepts the announced
    string and hands the registry the very key the build was stored
    under. *)
Theorem saved_DApp_key_is_accepted {JsonBuild raw : Type}
    (Version : JsonBuild -> Z) (UsedSigningKey : JsonBuild -> bytes)
    (VerifySignature : JsonBuild -> result bool) (json_Marshal : JsonBuild -> result raw)
    (value_too_large : raw -> bool) (d d' : dapp.DB raw) (dApp : JsonBuild)
    (announced context : string) (w : World Instance) (i : Instance) :
  array_of 32 (UsedSigningKey dApp) ->
  dapp.SaveDApp Version UsedSigningKey VerifySignature json_Marshal value_too_large
    d dApp = (d', None, [announced]) ->
  panthalassaInstance w = Some i ->
  OpenDApp _ _ _ _ ops announced context w
  = (did (Did "dAppReg.OpenDApp" i) w,
     dAppReg_OpenDApp _ _ _ _ ops i (UsedSigningKey dApp) context)
  /\ db.bucket_Get (default [] (dapp.dapps d')) (UsedSigningKey dApp) <> None.
Proof.
  intros [Hlen Hrange] Hsave Hw.
  assert (Hann : announced = hex_EncodeToString (UsedSigningKey dApp)
                 /\ db.bucket_Get (default [] (dapp.dapps d')) (UsedSigningKey dApp)
                    <> None).
  { revert Hsave. unfold dapp.SaveDApp.
    destruct (Version dApp <? 1); [discriminate|].
    destruct (VerifySignature dApp) as [[|]|e]; try discriminate.
    destruct (json_Marshal dApp) as [rawDApp|e]; [|discriminate].
    unfold dapp.bolt_Put.
    destruct (Nat.eqb _ 0); [discriminate|].
    destruct (N.ltb _ _); [discriminate|].
    destruct (value_too_large rawDApp); [discriminate|].
    intros [= <- <-]. split; [reflexivity|]. simpl.
    rewrite bucket_Get_Put_eq. discriminate. }
  destruct Hann as [-> Hstored]. split; [|exact Hstored].
  unfold OpenDApp. rewrite Hw, (signing_key_accepts _ _ Hlen Hrange). reflexivity.
Qed.

End PublicApi.

(** * The properties at work on the sample inputs *)

(** a byte string of an array type, checked by running over it *)
Lemma array_of_check (n : nat) (b : bytes) :
  (length b =? n)%nat && forallb (fun x => (0 <=? x) && (x <? 256)) b = true ->
  vocabulary.array_of n b.
Proof.
  intros H. apply andb_prop in H as [Hlen Hall]. split.
  - apply Nat.eqb_eq, Hlen.
  - apply List.Forall_forall. intros x Hx.
    rewrite forallb_forall in Hall. specialize (Hall x Hx).
    apply andb_prop in Hall as [Hlo Hhi]. lia.
Qed.

(** A write for no partner fails; the three messages stay, nothing is
    announced. *)
Lemma persistMessage_error_writes_nothing_witness :
  fst (fst (db.persistMessage samples.seal samples.three_messages [] samples.later))
  = samples.three_messages
  /\ snd (db.persistMessage samples.seal samples.three_messages [] samples.later) = [].
Proof.
  eapply (persistMessage_error_writes_nothing samples.seal samples.three_messages
            _ [] samples.later).
  reflexivity.
Defined.

(** A second message with the time stamp of the first is stored one
    nanosecond later. *)
Lemma persistMessage_assigns_DatabaseID_witness :
  exists stored,
    snd (db.persistMessage samples.seal samples.one_message samples.partner
           samples.same_instant)
    = [{| db.Partner := samples.partner; db.EvMessage := stored;
          db.DBMessageID := db.DatabaseID stored |}]
    /\ db.Version stored = 1%N
    /\ db.DatabaseID stored = samples.T0 + 1.
Proof.
  destruct (persistMessage_assigns_DatabaseID samples.seal samples.one_message
              (fst (fst (db.persistMessage samples.seal samples.one_message
                           samples.partner samples.same_instant)))
              samples.partner samples.same_instant
              (snd (db.persistMessage samples.seal samples.one_message
                           samples.partner samples.same_instant)))
    as (stored & Hevs & Hversion & Hid).
  - reflexivity.
  - reflexivity.
  - exists stored. split; [exact Hevs|]. split; [exact Hversion|]. exact Hid.
Defined.

(** The fourth message reads back under the id it was announced with. *)
Lemma persist_then_GetMessage_witness :
  db.GetMessage samples.decRawMsg samples.four_messages samples.partner
    (samples.T0 + 20)
  = (Some samples.later_stored, None).
Proof.
  apply (persist_then_GetMessage samples.seal samples.decRawMsg samples.three_messages
           samples.four_messages samples.partner samples.later samples.later_event).
  - intros m r [= <-]. reflexivity.
  - reflexivity.
Defined.

(** Storing the fourth message leaves the first one readable, and a
    stranger's chat as it was. *)
Lemma persistMessage_frame_witness :
  db.GetMessage samples.decRawMsg samples.four_messages (repeat 9 32) samples.T0
  = db.GetMessage samples.decRawMsg samples.three_messages (repeat 9 32) samples.T0
  /\ db.GetMessage samples.decRawMsg samples.four_messages samples.partner
       (samples.T0 + 5)
     = (Some samples.second_stored, None).
Proof.
  destruct (persistMessage_frame samples.seal samples.decRawMsg samples.three_messages
              samples.four_messages samples.partner samples.later
              samples.later_event eq_refl) as [Hother Hsame].
  split.
  - apply Hother. discriminate.
  - apply (Hsame (samples.T0 + 5) samples.second_stored).
    + vm_compute. discriminate.
    + vm_compute. reflexivity.
Defined.

(** The two newest of the three messages, oldest first. *)
Lemma Messages_newest_witness :
  db.Messages samples.decRawMsg samples.three_messages samples.partner 0 2
  = (db.sort_Slice (map snd (firstn 2 (rev samples.three_records))), None)
  /\ length (fst (db.Messages samples.decRawMsg samples.three_messages
                    samples.partner 0 2))
     = Nat.min 2 (length samples.three_records).
Proof.
  apply (Messages_newest samples.decRawMsg snd samples.three_messages samples.partner
           samples.three_records 2%N).
  - reflexivity.
  - vm_compute. discriminate.
  - lia.
  - intros kv _. reflexivity.
Defined.

(** The fourth message is the latest once it is stored. *)
Lemma persist_then_latest_witness :
  db.Messages samples.decRawMsg samples.four_messages samples.partner 0 1
  = ([samples.later_stored], None).
Proof.
  apply (persist_then_latest samples.seal samples.decRawMsg samples.three_messages
           samples.four_messages samples.partner samples.later samples.later_event).
  - intros m r [= <-]. reflexivity.
  - vm_compute. repeat constructor.
  - reflexivity.
Defined.

(** The partner of the three messages is among the chats. *)
Lemma persisted_partner_is_listed_witness :
  samples.partner ∈ fst (db.AllChats samples.four_messages).
Proof.
  apply (persisted_partner_is_listed samples.seal samples.three_messages
           samples.four_messages samples.partner samples.later
           [samples.later_event]).
  - reflexivity.
  - reflexivity.
Defined.

(** The fourth message, received, is stored as received and persisted
    under the id and sender it came with. *)
Lemma persist_entry_points_stamp_witness :
  db.Status_ samples.later_stored = db.StatusPersisted
  /\ db.Received samples.later_stored = true
  /\ db.ID samples.later_stored = "d"
  /\ db.Sender samples.later_stored = repeat 1 32.
Proof.
  apply (proj1 (persist_entry_points_stamp samples.seal samples.three_messages
                  samples.four_messages samples.partner samples.later_event)
           (samples.received "d" (samples.T0 + 20))).
  reflexivity.
Defined.

(** Both handlers of the chain answer the request that carries a batch
    and a count: both are invoked, both answers leave. *)
Lemma handle_request_offers_all_witness :
  vocabulary.invoked
    (fst (backend.handle_request samples.transport_ok 0
            [samples.batch_handler; samples.pre_key_handler]
            samples.inbound_request samples.batch_and_count)) = [0; 1]%nat
  /\ vocabulary.sent
       (fst (backend.handle_request samples.transport_ok 0
               [samples.batch_handler; samples.pre_key_handler]
               samples.inbound_request samples.batch_and_count))
     = [samples.answer samples.batch_response;
        samples.answer samples.pre_key_response]
  /\ snd (backend.handle_request samples.transport_ok 0
            [samples.batch_handler; samples.pre_key_handler]
            samples.inbound_request samples.batch_and_count) = backend.Fallthrough.
Proof.
  apply (handle_request_offers_all samples.transport_ok 0
           [samples.batch_handler; samples.pre_key_handler]
           samples.inbound_request samples.batch_and_count).
  - intros m. reflexivity.
  - repeat constructor; intros e; discriminate.
Defined.

(** A refusing handler between the two: the first answers, the refusal
    goes back as an error, the third handler is not asked. *)
Lemma handle_request_first_error_witness :
  vocabulary.invoked
    (fst (backend.handle_request samples.transport_ok 0
            ([samples.batch_handler] ++ samples.refusing_handler
               :: [samples.pre_key_handler])
            samples.inbound_request samples.batch_and_count)) = [0; 1]%nat
  /\ vocabulary.sent
       (fst (backend.handle_request samples.transport_ok 0
               ([samples.batch_handler] ++ samples.refusing_handler
                  :: [samples.pre_key_handler])
               samples.inbound_request samples.batch_and_count))
     = [samples.answer samples.batch_response;
        vocabulary.error_envelope samples.inbound_request "not allowed"]
  /\ snd (backend.handle_request samples.transport_ok 0
            ([samples.batch_handler] ++ samples.refusing_handler
               :: [samples.pre_key_handler])
            samples.inbound_request samples.batch_and_count)
     = backend.Return None.
Proof.
  apply (handle_request_first_error samples.transport_ok [samples.batch_handler]
           [samples.pre_key_handler] samples.refusing_handler
           samples.inbound_request samples.batch_and_count "not allowed").
  - intros m _. reflexivity.
  - repeat constructor; intros e; discriminate.
  - reflexivity.
Defined.

(** The confirmation of request 77 reaches channel 3 once; sent again
    it finds nobody waiting. *)
Lemma OnMessage_response_delivered_once_witness :
  exists b1 tr1,
    backend.OnMessage samples.transport_ok samples.waiting samples.auth_confirmation
    = (b1, tr1, None)
    /\ vocabulary.delivered tr1
       = [(3%nat, {| backend.resp := Some samples.auth_response;
                     backend.err := None |})]
    /\ backend.stack b1 = delete "77" (backend.stack samples.waiting)
    /\ exists e, backend.OnMessage samples.transport_ok b1 samples.auth_confirmation
                 = (b1, [backend.CutLookup "77"], Some e).
Proof.
  apply (OnMessage_response_delivered_once samples.transport_ok samples.waiting
           samples.auth_confirmation samples.auth_response 3%nat).
  - reflexivity.
  - reflexivity.
  - reflexivity.
Defined.

(** The confirmation of request 77 keeps the chain, cuts the entry and
    sets the flag. *)
Lemma OnMessage_frame_witness :
  backend.requestHandler
    (fst (fst (backend.OnMessage samples.transport_ok samples.waiting
                 samples.auth_confirmation)))
  = [samples.batch_handler; samples.pre_key_handler]
  /\ (backend.authenticated
        (fst (fst (backend.OnMessage samples.transport_ok samples.waiting
                     samples.auth_confirmation))) = true ->
      backend.authenticated samples.waiting = true
      \/ (bpb.Request samples.auth_confirmation = None
          /\ bpb.Error samples.auth_confirmation = EmptyString
          /\ is_Some (backend.stack samples.waiting
                        !! bpb.RequestID samples.auth_confirmation)
          /\ exists r, bpb.Response samples.auth_confirmation = Some r
                       /\ is_Some (bpb.Auth r))).
Proof.
  destruct (OnMessage_frame samples.transport_ok samples.waiting
              samples.auth_confirmation) as (Hchain & _ & _ & Hflag).
  split; [exact Hchain | exact Hflag].
Defined.

(** The first message of a contact is accepted by the receiver's
    handshake, which runs the agreement on its keys. *)
Lemma InitializeChat_then_HandleInitialMessage_witness :
  chat.HandleInitialMessage samples.agreement samples.first_message
    samples.private_bundle
  = ([samples.first_initialisation], samples.agreement samples.first_initialisation).
Proof.
  apply (InitializeChat_then_HandleInitialMessage
           (fun _ : unit => Ok samples.initial_protocol) samples.entropy
           samples.greeting_cipher samples.my_identity samples.signs
           samples.agreement samples.partner tt samples.first_message
           samples.initial_protocol samples.private_bundle).
  - apply array_of_check. reflexivity.
  - reflexivity.
Defined.

(** An agreement that used no one-time pre-key makes InitializeChat
    panic. *)
Lemma InitializeChat_failure_witness :
  chat.InitializeChat (fun _ : unit => Ok samples.bare_protocol) samples.entropy
    samples.greeting_cipher samples.my_identity samples.signs samples.partner tt
  = chat.Panicked.
Proof.
  apply (proj2 (InitializeChat_failure
                  (fun _ : unit => Ok samples.bare_protocol) samples.entropy
                  samples.greeting_cipher samples.my_identity samples.signs
                  samples.partner tt)).
  exists samples.bare_protocol, (repeat 3 16),
    {| dr.Header := {| dr.DH := repeat 4 32; dr.N_ := 0%N; dr.PN := 0%N |};
       dr.Ciphertext := [104; 105] |},
    (hex_EncodeToString (repeat 4 32)).
  repeat split.
Defined.

(** Two keys asked for: the two pairs put to the pool are the two keys
    published. *)
Lemma oneTimePreKeysHandler_publishes_persisted_witness :
  exists keyPairs,
    samples.pool_Put [] keyPairs = (samples.two_pairs, None)
    /\ Forall2 (vocabulary.signed_from samples.Sign samples.ToProtobuf) keyPairs
         (bpb.OneTimePrekeys samples.two_pre_keys)
    /\ bpb.Auth samples.two_pre_keys = None.
Proof.
  apply (oneTimePreKeysHandler_publishes_persisted samples.GenerateKeyPair
           samples.pool_Put samples.Sign samples.ToProtobuf 10 0%nat 2%nat []
           samples.two_pairs (samples.replenish 2) samples.two_pre_keys).
  reflexivity.
Defined.

(** A pool that cannot be written: the handler answers with its fixed
    message, after both key pairs were generated. *)
Lemma oneTimePreKeysHandler_errors_witness :
  chat.oneTimePreKeysHandler samples.GenerateKeyPair samples.pool_full samples.Sign
    samples.ToProtobuf 10 0%nat [] (samples.replenish 2)
  = Some (2%nat, [], Err "failed to persist generated key pairs")
  /\ exists keyPairs,
       length keyPairs = 2%nat /\ [] = fst (samples.pool_full [] keyPairs).
Proof.
  split; [reflexivity|].
  destruct (oneTimePreKeysHandler_errors samples.GenerateKeyPair samples.pool_full
              samples.Sign samples.ToProtobuf 10 0%nat 2%nat [] []
              (samples.replenish 2) "failed to persist generated key pairs" eq_refl)
    as [(He & _)|[[(g0 & Hg) _]|(_ & Hk)]].
  - discriminate He.
  - discriminate Hg.
  - exact Hk.
Defined.

(** A first message that is signed and submitted: one update, Sent. *)
Lemma SendMessage_status_discipline_witness :
  chat.status_updates
    (fst (chat.SendMessage samples.signing tt [] samples.partner
            samples.plain_message))
  = [vocabulary.marked_sent samples.partner samples.plain_message].
Proof.
  apply (proj1 (SendMessage_status_discipline samples.signing samples.partner
                  samples.plain_message tt [])).
  reflexivity.
Defined.

(** The request of a Put carries the framed cipher text; with a cipher
    that fails nothing is requested. *)
Lemma api_Put_sends_cipher_only_witness :
  (exists ct rawCt,
     samples.reversing samples.message_key = Ok ct /\ samples.framing ct = Ok rawCt
     /\ api.DRKeyStorePut samples.partner 1 (0 :: rev samples.message_key)
        = api.DRKeyStorePut samples.partner 1 rawCt)
  /\ api.requests (snd (api.Put samples.request_times_out samples.no_cipher
                          samples.no_cipher tt samples.partner 1 samples.message_key))
     = []
  /\ fst (api.Put samples.request_times_out samples.no_cipher samples.no_cipher tt
            samples.partner 1 samples.message_key) = tt.
Proof.
  split.
  - apply (proj1 (api_Put_sends_cipher_only samples.key_server samples.reversing
                    samples.framing None samples.partner 1 samples.message_key)).
    left. reflexivity.
  - apply (proj2 (api_Put_sends_cipher_only samples.request_times_out
                    samples.no_cipher samples.no_cipher tt samples.partner 1
                    samples.message_key)).
    intros ct rawCt H. discriminate H.
Defined.

(** The key put to the server is the key got from it. *)
Lemma api_Put_then_Get_witness :
  snd (api.Get samples.key_server samples.unframing samples.reversing
         (Some (0 :: rev samples.message_key)) samples.partner 1)
  = (samples.message_key, true).
Proof.
  apply (api_Put_then_Get samples.key_server samples.unframing samples.reversing
           samples.reversing samples.framing None
           (Some (0 :: rev samples.message_key)) (Some (0 :: rev samples.message_key))
           samples.partner 1 samples.message_key (0 :: rev samples.message_key)
           (snd (api.Put samples.key_server samples.reversing samples.framing None
                   samples.partner 1 samples.message_key))
           {| api.DRKeyStoreGet_MessageKey := 0 :: rev samples.message_key;
              api.DRKeyStoreCount_Count := 0%N |}).
  - reflexivity.
  - intros plain ct [= <-]. unfold samples.reversing. rewrite rev_involutive.
    reflexivity.
  - intros ct marshalled [= <-]. reflexivity.
  - reflexivity.
  - reflexivity.
  - reflexivity.
  - reflexivity.
Defined.


(** The first call of an idle API is given channel 0 and reaches the
    device as one marshalled call. *)
Lemma Send_outcome_witness :
  device_api.made samples.asked = 1%nat
  /\ exists callContent callData,
       device_api.call_Data samples.get_call = Ok callContent
       /\ samples.call_Marshal
            {| device_api.Type_ := "DR:KEY_STORE:GET"; device_api.Id := 0%N;
               device_api.Data := callContent |} = Ok callData
       /\ device_api.device samples.asked = [callData].
Proof.
  destruct (Send_outcome samples.table_Add samples.call_Marshal samples.idle
              samples.asked samples.get_call (Ok 0%nat) eq_refl)
    as (_ & Hmade & _ & callContent & callData & Hdata & Hmarshal & Hdevice & _).
  split; [exact Hmade|].
  exists callContent, callData. split; [exact Hdata|]. split; [exact Hmarshal|].
  exact Hdevice.
Defined.

(** The answer to call 0 is put on channel 0, payload and all, and the
    table is empty again. *)
Lemma Receive_outcome_witness :
  device_api.state
    (fst (fst (device_api.Receive samples.table_Cut samples.answer_Unmarshal
                 samples.any_answer samples.asked 0 "payload" None))) = []
  /\ exists rr,
       samples.answer_Unmarshal "payload" = Ok rr
       /\ samples.any_answer rr = None
       /\ "payload" = device_api.raw_Payload rr.
Proof.
  destruct (Receive_outcome samples.table_Cut samples.answer_Unmarshal
              samples.any_answer samples.asked
              (fst (fst (device_api.Receive samples.table_Cut samples.answer_Unmarshal
                           samples.any_answer samples.asked 0 "payload" None)))
              0%N "payload" None None
              (Some (0%nat, {| device_api.Error := None;
                               device_api.Payload := "payload" |}))
              eq_refl)
    as (Hstate & _ & _ & _ & rr & Hrr & Hvalid & Hpayload & _).
  split; [exact Hstate|].
  exists rr. split; [exact Hrr|]. split; [exact Hvalid|]. exact Hpayload.
Defined.

(** A build of version 0 is refused: the store stays empty, nothing is
    announced. *)
Lemma SaveDApp_outcome_witness :
  fst (fst (dapp.SaveDApp fst snd samples.signed_ok samples.build_Marshal samples.fits
              samples.no_dapps (0, repeat 9 32))) = samples.no_dapps
  /\ snd (dapp.SaveDApp fst snd samples.signed_ok samples.build_Marshal samples.fits
            samples.no_dapps (0, repeat 9 32)) = [].
Proof.
  apply (SaveDApp_outcome fst snd samples.signed_ok samples.build_Marshal samples.fits
           samples.no_dapps
           (fst (fst (dapp.SaveDApp fst snd samples.signed_ok samples.build_Marshal
                        samples.fits samples.no_dapps (0, repeat 9 32))))
           (0, repeat 9 32) (Some "version must be at least 1")
           (snd (dapp.SaveDApp fst snd samples.signed_ok samples.build_Marshal
                   samples.fits samples.no_dapps (0, repeat 9 32)))).
  reflexivity.
Defined.

(** The build saved to the empty store is the one build listed. *)
Lemma SaveDApp_then_All_witness :
  In samples.a_build (fst (dapp.All samples.build_Unmarshal samples.one_dapp))
  /\ length (fst (dapp.All samples.build_Unmarshal samples.one_dapp))
     = length (default [] (dapp.dapps samples.one_dapp)).
Proof.
  apply (SaveDApp_then_All fst snd samples.signed_ok samples.build_Marshal
           samples.build_Unmarshal samples.fits samples.no_dapps samples.one_dapp
           samples.a_build [hex_EncodeToString (repeat 9 32)]
           (fst (dapp.All samples.build_Unmarshal samples.one_dapp))).
  - intros rawDApp [= <-]. reflexivity.
  - reflexivity.
  - reflexivity.
Defined.

(** A store whose second record is damaged: the first build comes back
    with the error, the third is not read. *)
Lemma All_stops_at_first_error_witness :
  dapp.All samples.build_Unmarshal samples.damaged
  = ([(1, repeat 1 32)], Some "unexpected end of JSON input").
Proof.
  apply (All_stops_at_first_error samples.build_Unmarshal samples.damaged
           [(repeat 1 32, Some (1, repeat 1 32))]
           [(repeat 3 32, Some (1, repeat 3 32))]
           (repeat 2 32) None "unexpected end of JSON input" [(1, repeat 1 32)]).
  - reflexivity.
  - repeat constructor.
  - reflexivity.
Defined.

(** The sealed note records the parameters and a key of 32 bytes. *)
Lemma NewCipherText_outcome_witness :
  scrypt.N_ (scrypt.ScryptKey samples.sealed_note) = 16384
  /\ scrypt.R (scrypt.ScryptKey samples.sealed_note) = 8
  /\ scrypt.P (scrypt.ScryptKey samples.sealed_note) = 1
  /\ scrypt.KeyLen (scrypt.ScryptKey samples.sealed_note) = 32
  /\ samples.entropy 50 = Ok (scrypt.Salt (scrypt.ScryptKey samples.sealed_note))
  /\ length (scrypt.key (scrypt.ScryptKey samples.sealed_note)) = 32%nat
  /\ scrypt.CipherText_ samples.sealed_note
     = fst (samples.reverse_Encrypt samples.note
              (scrypt.key (scrypt.ScryptKey samples.sealed_note))).
Proof.
  apply (proj2 (NewCipherText_outcome samples.entropy samples.stretch
                  samples.reverse_Encrypt samples.note samples.password)
           samples.sealed_note).
  reflexivity.
Defined.

(** The sealed note opens under its password. *)
Lemma NewCipherText_then_Decrypt_witness :
  scrypt.DecryptCipherText samples.stretch samples.reverse_Decrypt samples.out_of_range
    samples.sealed_note samples.password
  = chat.Returned (Ok samples.note).
Proof.
  apply (NewCipherText_then_Decrypt samples.entropy samples.stretch
           samples.reverse_Encrypt samples.reverse_Decrypt samples.out_of_range
           samples.note samples.password samples.sealed_note).
  - intros secret ct [= <-]. reflexivity.
  - reflexivity.
  - reflexivity.
Defined.

(** After Stop the package holds no instance and the next start
    installs what it builds. *)
Lemma Stop_frees_the_singleton_witness :
  snd (panthalassa.Stop samples.willing samples.started) = None
  /\ panthalassa.panthalassaInstance
       (fst (panthalassa.Stop samples.willing samples.started)) = None
  /\ forall dbDir km config built,
       panthalassa.construct _ _ _ _ samples.willing dbDir km config = Ok built ->
       snd (panthalassa.start samples.willing dbDir km config
              (fst (panthalassa.Stop samples.willing samples.started))) = None
       /\ panthalassa.panthalassaInstance
            (fst (panthalassa.start samples.willing dbDir km config
                    (fst (panthalassa.Stop samples.willing samples.started))))
          = Some built.
Proof.
  apply (Stop_frees_the_singleton samples.willing samples.started 1%nat).
  reflexivity.
Defined.

(** A key of four characters starts no DApp. *)
Lemma DApp_calls_need_64_hex_digits_witness :
  exists s e,
    panthalassa.exec samples.willing (panthalassa.CallStartDApp "abcd" 5)
      samples.started
    = (samples.started, (s, Some e)).
Proof.
  apply (DApp_calls_need_64_hex_digits samples.willing
           (panthalassa.CallStartDApp "abcd" 5) "abcd" samples.started).
  - reflexivity.
  - intros H. discriminate H.
Defined.

(** The key announced for the saved build opens it. *)
Lemma saved_DApp_key_is_accepted_witness :
  panthalassa.OpenDApp _ _ _ _ samples.willing (hex_EncodeToString (repeat 9 32))
    "chat" samples.started
  = (panthalassa.did (panthalassa.Did "dAppReg.OpenDApp" 1%nat) samples.started, None)
  /\ db.bucket_Get (default [] (dapp.dapps samples.one_dapp)) (repeat 9 32) <> None.
Proof.
  apply (saved_DApp_key_is_accepted samples.willing fst snd samples.signed_ok
           samples.build_Marshal samples.fits samples.no_dapps samples.one_dapp
           samples.a_build (hex_EncodeToString (repeat 9 32)) "chat" samples.started
           1%nat).
  - apply array_of_check. reflexivity.
  - reflexivity.
  - reflexivity.
Defined.
